(** * chinese_calendar_tocsv: the calendar exporter of [main.py]

    A shallow embedding of [main.py] and of the parts of the Python
    standard library it runs ([datetime], [_strptime], [posixpath], [os],
    [csv.DictWriter]), followed by the properties of the exporter.

    Conventions.
    - Python [int] is [Z]; [//] and [%] with a positive divisor are
      [Z.div] and [Z.modulo] (both floor).
    - Python [str] is [string]; every character is a code point below
      256.  On that range the regular-expression class [\d] is exactly
      the ASCII digits.  The fixed labels of the program are kept as
      their UTF-8 bytes: only their equality matters.
    - The two external packages ([lunar_python], [chinese_calendar]) are
      black boxes: total functions of the date, gathered in the record
      [providers]; every call is appended to the world's call log.
    - The file system is a tree of directories and regular files
      without symbolic or hard links, seen from a fixed current
      directory by a process that may search and write everywhere.
      Paths are resolved as Linux resolves them: name by name from the
      root or from the current directory, repeated separators counting
      as one, [.] staying and [..] going up, every name but the last
      having to be a directory.  Two paths name the same file exactly
      when they lead to the same place.  A path that holds the
      character of code 0 is refused with a [ValueError] by [os.mkdir]
      and [open], and is no directory and no file for [os.path]
      (Python 3.8 and later).
    - The output file is the list of its lines, the header and the rows;
      the text of a line (quoting, encoding, the byte-order mark) is not
      modelled.
    - Statements run in the monad [M]: a state transformer over [world]
      whose outcome is a value, a raised exception, or [Timeout] when the
      fuel of the [while] loop is exhausted. *)

From Stdlib Require Import ZArith List String Ascii Lia Bool.
From stdpp Require Import base gmap strings pretty.
Import ListNotations.
Open Scope string_scope.
Open Scope Z_scope.

(** ** [datetime]: the proleptic Gregorian calendar *)

Module Datetime.

Definition MINYEAR : Z := 1.
Definition MAXYEAR : Z := 9999.
Definition _MAXORDINAL : Z := 3652059.

(** Table lookup [t[i]] for a non-negative index inside the table. *)
Definition tbl (t : list Z) (i : Z) : Z := nth (Z.to_nat i) t (-1).

Definition _DAYS_IN_MONTH : list Z :=
  [-1; 31; 28; 31; 30; 31; 30; 31; 31; 30; 31; 30; 31].

Definition _DAYS_BEFORE_MONTH : list Z :=
  [-1; 0; 31; 59; 90; 120; 151; 181; 212; 243; 273; 304; 334].

Definition _is_leap (year : Z) : bool :=
  (year mod 4 =? 0) && (negb (year mod 100 =? 0) || (year mod 400 =? 0)).

Definition _days_before_year (year : Z) : Z :=
  let y := year - 1 in
  y * 365 + y / 4 - y / 100 + y / 400.

Definition _days_in_month (year month : Z) : Z :=
  if (month =? 2) && _is_leap year then 29 else tbl _DAYS_IN_MONTH month.

Definition _days_before_month (year month : Z) : Z :=
  tbl _DAYS_BEFORE_MONTH month
  + (if (2 <? month) && _is_leap year then 1 else 0).

Definition _ymd2ord (year month day : Z) : Z :=
  _days_before_year year + _days_before_month year month + day.

Definition _DI400Y : Z := 146097.
Definition _DI100Y : Z := 36524.
Definition _DI4Y : Z := 1461.

(** The tail of [_ord2ymd]: month and day from the 0-based day of the
    year [n] and the leap flag. *)
Definition month_day_of (n : Z) (leapyear : bool) : Z * Z :=
  let month := Z.shiftr (n + 50) 5 in
  let preceding :=
    tbl _DAYS_BEFORE_MONTH month
    + (if (2 <? month) && leapyear then 1 else 0) in
  if n <? preceding then
    let month := month - 1 in
    let preceding :=
      preceding
      - (tbl _DAYS_IN_MONTH month
         + (if (month =? 2) && leapyear then 1 else 0)) in
    (month, n - preceding + 1)
  else (month, n - preceding + 1).

Definition _ord2ymd (n : Z) : Z * Z * Z :=
  let n := n - 1 in
  let n400 := n / _DI400Y in
  let n := n mod _DI400Y in
  let year := n400 * 400 + 1 in
  let n100 := n / _DI100Y in
  let n := n mod _DI100Y in
  let n4 := n / _DI4Y in
  let n := n mod _DI4Y in
  let n1 := n / 365 in
  let n := n mod 365 in
  let year := year + n100 * 100 + n4 * 4 + n1 in
  if (n1 =? 4) || (n100 =? 4) then (year - 1, 12, 31)
  else
    let leapyear := (n1 =? 3) && (negb (n4 =? 24) || (n100 =? 3)) in
    let '(month, day) := month_day_of n leapyear in
    (year, month, day).

(** A [date] object.  The constructor of the class refuses fields that
    [_check_date_fields] rejects, so every object that exists satisfies
    [valid_date]. *)
Record date : Type := mkdate { year : Z; month : Z; day : Z }.

Definition _check_date_fields (y m d : Z) : bool :=
  (MINYEAR <=? y) && (y <=? MAXYEAR)
  && (1 <=? m) && (m <=? 12)
  && (1 <=? d) && (d <=? _days_in_month y m).

Definition valid_date (d : date) : Prop :=
  _check_date_fields (year d) (month d) (day d) = true.

(** [date(y, m, d)]: [None] stands for the [ValueError] of the
    constructor. *)
Definition date_new (y m d : Z) : option date :=
  if _check_date_fields y m d then Some (mkdate y m d) else None.

Definition toordinal (d : date) : Z := _ymd2ord (year d) (month d) (day d).

Definition fromordinal (n : Z) : option date :=
  let '(y, m, d) := _ord2ymd n in date_new y m d.

(** [_cmp]: the comparison of the tuples [(year, month, day)]. *)
Definition _cmp (a b : date) : comparison :=
  match year a ?= year b with
  | Eq => match month a ?= month b with
          | Eq => day a ?= day b
          | c => c
          end
  | c => c
  end.

Definition date_le (a b : date) : bool :=
  match _cmp a b with Gt => false | _ => true end.

Definition date_gt (a b : date) : bool :=
  match _cmp a b with Gt => true | _ => false end.

(** [self + timedelta(days=n)]; [None] is the [OverflowError]. *)
Definition add_days (d : date) (n : Z) : option date :=
  let o := toordinal d + n in
  if (0 <? o) && (o <=? _MAXORDINAL) then fromordinal o else None.

(** [weekday()]: Monday is 0, Sunday is 6. *)
Definition weekday (d : date) : Z := (toordinal d + 6) mod 7.

Definition _isoweek1monday (y : Z) : Z :=
  let THURSDAY := 3 in
  let firstday := _ymd2ord y 1 1 in
  let firstweekday := (firstday + 6) mod 7 in
  let week1monday := firstday - firstweekday in
  if THURSDAY <? firstweekday then week1monday + 7 else week1monday.

(** [isocalendar()]: ISO year, ISO week number, ISO weekday. *)
Definition isocalendar (d : date) : Z * Z * Z :=
  let y := year d in
  let week1monday := _isoweek1monday y in
  let today := toordinal d in
  let week := (today - week1monday) / 7 in
  let wday := (today - week1monday) mod 7 in
  if week <? 0 then
    let y := y - 1 in
    let week1monday := _isoweek1monday y in
    (y, (today - week1monday) / 7 + 1, (today - week1monday) mod 7 + 1)
  else if (52 <=? week) && (_isoweek1monday (y + 1) <=? today) then
    (y + 1, 1, wday + 1)
  else (y, week + 1, wday + 1).

End Datetime.
Export Datetime.

(** ** Strings, and the regular expression of ["%Y-%m-%d"] *)

Module Strings.

Definition code (c : ascii) : Z := Z.of_N (N_of_ascii c).
Definition chr (n : Z) : ascii := ascii_of_N (Z.to_N n).

(** The character class [[lo-hi]], by code points. *)
Definition in_class (lo hi : Z) (c : ascii) : bool :=
  (lo <=? code c) && (code c <=? hi).

(** [\d] on code points below 256. *)
Definition is_digit (c : ascii) : bool := in_class 48 57 c.
Definition digit_val (c : ascii) : Z := code c - 48.
Definition digit_char (k : Z) : ascii := chr (48 + k).

(** [str.isspace] on code points below 256. *)
Definition is_space (c : ascii) : bool :=
  in_class 9 13 c || in_class 28 32 c || (code c =? 133) || (code c =? 160).

Fixpoint lstrip (s : string) : string :=
  match s with
  | String c r => if is_space c then lstrip r else s
  | EmptyString => s
  end.

Fixpoint int_digits (s : string) (acc : Z) : option Z :=
  match s with
  | EmptyString => Some acc
  | String c r =>
      if is_digit c then int_digits r (10 * acc + digit_val c) else None
  end.

(** [int(s)] for a text of decimal digits after optional blanks, the only
    texts the groups of the format can capture; [None] is [ValueError]. *)
Definition py_int (s : string) : option Z :=
  match lstrip s with
  | EmptyString => None
  | t => int_digits t 0
  end.

(** A backtracking matcher: the ways a pattern matches a prefix of the
    subject, each as (matched text, rest), in the order the engine tries
    them. *)
Definition re : Type := string -> list (string * string).

Definition re_class (lo hi : Z) : re := fun s =>
  match s with
  | String c r => if in_class lo hi c then [(String c EmptyString, r)] else []
  | EmptyString => []
  end.

Definition re_seq (a b : re) : re := fun s =>
  flat_map (fun '(t1, r1) => map (fun '(t2, r2) => (t1 +:+ t2, r2)) (b r1)) (a s).

Definition re_alt (a b : re) : re := fun s => (a s ++ b s)%list.

Definition re_digit : re := re_class 48 57.
Definition re_chr (c : Z) : re := re_class c c.

(** [(?P<Y>\d\d\d\d)] *)
Definition re_Y : re := re_seq re_digit (re_seq re_digit (re_seq re_digit re_digit)).

(** [(?P<m>1[0-2]|0[1-9]|[1-9])] *)
Definition re_m : re :=
  re_alt (re_seq (re_chr 49) (re_class 48 50))
    (re_alt (re_seq (re_chr 48) (re_class 49 57))
       (re_class 49 57)).

(** [(?P<d>3[0-1]|[1-2]\d|0[1-9]|[1-9]| [1-9])] *)
Definition re_d : re :=
  re_alt (re_seq (re_chr 51) (re_class 48 49))
    (re_alt (re_seq (re_class 49 50) re_digit)
       (re_alt (re_seq (re_chr 48) (re_class 49 57))
          (re_alt (re_class 49 57)
             (re_seq (re_chr 32) (re_class 49 57))))).

(** [-(?P<m>...)-(?P<d>...)], the format after the year: every match of
    a prefix, as the two groups and the rest of the subject. *)
Definition re_tail (s : string) : list (string * string * string) :=
  flat_map (fun '(_, r) =>
    flat_map (fun '(m, r) =>
      flat_map (fun '(_, r) =>
        map (fun '(d, r) => (m, d, r)) (re_d r))
        (re_chr 45 r))
      (re_m r))
    (re_chr 45 s).

(** The compiled format ["%Y-%m-%d"]: every match of a prefix, as the
    three groups and the rest of the subject. *)
Definition format_regex (s : string) : list (string * string * string * string) :=
  flat_map (fun '(y, r) => map (fun '(m, d, r) => (y, m, d, r)) (re_tail r))
    (re_Y s).

(** [_strptime]: [re.match] keeps the first match; data left after it is
    an error; the groups are converted with [int]. *)
Definition _strptime (data_string : string) : option (Z * Z * Z) :=
  match format_regex data_string with
  | [] => None
  | (y, m, d, rest) :: _ =>
      match rest with
      | EmptyString =>
          match py_int y, py_int m, py_int d with
          | Some y, Some m, Some d => Some (y, m, d)
          | _, _, _ => None
          end
      | _ => None
      end
  end.

(** [datetime.strptime(s, "%Y-%m-%d").date()]; [None] is [ValueError]. *)
Definition strptime (s : string) : option date :=
  match _strptime s with
  | Some (y, m, d) => date_new y m d
  | None => None
  end.

Definition zfill2 (n : Z) : string :=
  String (digit_char (n / 10 mod 10)) (String (digit_char (n mod 10)) EmptyString).

Definition zfill4 (n : Z) : string :=
  String (digit_char (n / 1000 mod 10))
    (String (digit_char (n / 100 mod 10)) (zfill2 n)).

(** [d.strftime("%Y-%m-%d")], the year on four digits. *)
Definition strftime (d : date) : string :=
  zfill4 (year d) +:+ "-" +:+ zfill2 (month d) +:+ "-" +:+ zfill2 (day d).

(** [sep.join(l)] *)
Fixpoint join (sep : string) (l : list string) : string :=
  match l with
  | [] => EmptyString
  | [x] => x
  | x :: r => x +:+ sep +:+ join sep r
  end.

(** [l[i]], a negative index counting from the end; [None] is
    [IndexError]. *)
Definition getitem {A : Type} (l : list A) (i : Z) : option A :=
  let n := Z.of_nat (length l) in
  if (0 <=? i) && (i <? n) then nth_error l (Z.to_nat i)
  else if (- n <=? i) && (i <? 0) then nth_error l (Z.to_nat (n + i))
  else None.

(** The texts that [strptime] reads as the month [m] and as the day [d],
    and the texts it reads as a date: the padded form first. *)
Definition month_texts (m : Z) : list string :=
  zfill2 m :: (if m <? 10 then [String (digit_char m) EmptyString] else []).

Definition day_texts (d : Z) : list string :=
  zfill2 d ::
  (if d <? 10
   then [String (digit_char d) EmptyString;
         String " "%char (String (digit_char d) EmptyString)]
   else []).

Definition date_texts (d : date) : list string :=
  flat_map (fun tm =>
    map (fun td => zfill4 (year d) +:+ "-" +:+ tm +:+ "-" +:+ td)
      (day_texts (day d)))
    (month_texts (month d)).

(** The exact form [YYYY-MM-DD]: ten characters, digits around two
    dashes. *)
Definition exact_form (s : string) : bool :=
  match s with
  | String y1 (String y2 (String y3 (String y4 (String s1
      (String m1 (String m2 (String s2 (String d1 (String d2 EmptyString))))))))) =>
      is_digit y1 && is_digit y2 && is_digit y3 && is_digit y4
      && (code s1 =? 45) && is_digit m1 && is_digit m2
      && (code s2 =? 45) && is_digit d1 && is_digit d2
  | _ => false
  end.

End Strings.
Export Strings.

(** ** Exceptions, the world, and the monad of statements *)

(** The three [ValueError]s that [generate_calendar_csv] raises itself,
    told apart by their message:
    - [FormatError]: "日期格式错误，请使用 YYYY-MM-DD 格式。";
    - [OrderError]: "起始日期不能晚于结束日期";
    - [RangeError start end]: "日期范围超出 chinese-calendar 支持的年份
      [2004, 2030]。" followed by the two dates. *)
Inductive value_error : Type :=
| FormatError
| OrderError
| RangeError (start end_ : date).

Inductive os_error : Type :=
| FileNotFoundError (path : string)
| FileExistsError (path : string)
| IsADirectoryError (path : string)
| NotADirectoryError (path : string).

(** [EmbeddedNullByte] is the [ValueError] with the message "embedded
    null byte" that [os.mkdir] and [open] raise for a path that holds the
    character of code 0; a clause [except ValueError] catches it like
    the three above. *)
Inductive exn : Type :=
| ValueError (e : value_error)
| OSError (e : os_error)
| OverflowError
| IndexError
| EmbeddedNullByte.

(** The object returned by [solar.getLunar()], by the getters the
    program reads.  [None] is Python's [None]. *)
Record lunar : Type := mkLunar {
  getYear : Z;
  getMonth : Z;
  getDay : Z;
  getFestivals : option (list string);
  getOtherFestivals : option (list string);
  getYearShengXiao : string;
  getJieQi : option string
}.

(** The external capabilities: [Solar.fromYmd(y, m, d).getLunar()] of
    [lunar_python], and [is_holiday], [is_workday], [get_holiday_detail]
    of [chinese_calendar]. *)
Record providers : Type := mkProviders {
  getLunar : Z -> Z -> Z -> lunar;
  is_holiday : date -> bool;
  is_workday : date -> bool;
  get_holiday_detail : date -> bool * option string
}.

Inductive call : Type :=
| CallLunar (y m d : Z)
| CallIsHoliday (d : date)
| CallIsWorkday (d : date)
| CallHolidayDetail (d : date).

(** One row of the output: the dictionary [row], by its keys in the
    order of [fieldnames]. *)
Record row : Type := mkRow {
  gregorian_date : string;      (* 公历日期 *)
  gregorian_year : Z;           (* 公历年 *)
  gregorian_month : Z;          (* 公历月 *)
  gregorian_day : Z;            (* 公历日 *)
  decade_of_month : string;     (* 公历旬 *)
  iso_week_number : Z;          (* 周数 *)
  weekday_name : string;        (* 星期 *)
  lunar_year : Z;               (* 农历年 *)
  lunar_month : Z;              (* 农历月 *)
  lunar_day : Z;                (* 农历日 *)
  is_leap_month : string;       (* 是否闰月 *)
  lunar_festival_names : string;(* 农历节日 *)
  zodiac_sign : string;         (* 生肖 *)
  solar_term : string;          (* 节气 *)
  is_holiday_col : string;      (* 是否节假日 *)
  is_workday_col : string;      (* 是否工作日 *)
  holiday_name : string         (* 节日名称 *)
}.

Inductive csv_line : Type :=
| Header (fields : list string)
| Data (r : row).

(** The world the program acts on: the file system, the log of calls to
    the external packages, and what was printed.

    The file system is a tree without symbolic or hard links, on which
    the process may search and write everywhere.  A place in it is the
    list of names that leads to it from the root; [cwd] is the place
    of the current directory, [dirs] the places of the directories made
    so far and [files] the regular files, each with its lines.  The root,
    the current directory and the directories above it are there in
    every world.  Two paths are the same file exactly when they lead to
    the same place. *)
Record world : Type := mkWorld {
  cwd : list string;
  dirs : gset (list string);
  files : gmap (list string) (list csv_line);
  calls : list call;
  stdout : list string
}.

Inductive outcome (A : Type) : Type :=
| Return (a : A)
| Raise (e : exn)
| Timeout.
Arguments Return {A} a.
Arguments Raise {A} e.
Arguments Timeout {A}.

Definition M (A : Type) : Type := world -> outcome A * world.

Definition ret {A : Type} (a : A) : M A := fun w => (Return a, w).
Definition raise {A : Type} (e : exn) : M A := fun w => (Raise e, w).
Definition timeout {A : Type} : M A := fun w => (Timeout, w).

Definition bind {A B : Type} (m : M A) (k : A -> M B) : M B := fun w =>
  match m w with
  | (Return a, w') => k a w'
  | (Raise e, w') => (Raise e, w')
  | (Timeout, w') => (Timeout, w')
  end.

Notation "'let*' x ':=' c 'in' k" := (bind c (fun x => k))
  (at level 10, x name, c at level 100, k at level 200).
Notation "c >> k" := (bind c (fun _ => k))
  (at level 90, right associativity).

(** [try: m except FileExistsError: pass] *)
Definition ignore_file_exists (m : M unit) : M unit := fun w =>
  match m w with
  | (Raise (OSError (FileExistsError _)), w') => (Return tt, w')
  | r => r
  end.

(** ** [posixpath] and [os] *)

Module Os.

Definition sep : ascii := "/"%char.
Definition curdir : string := ".".

(** [p.rfind(sep)], counting from [pos]. *)
Fixpoint rfind_from (p : string) (pos : Z) : Z :=
  match p with
  | EmptyString => -1
  | String c r =>
      let k := rfind_from r (pos + 1) in
      if 0 <=? k then k else if Ascii.eqb c sep then pos else -1
  end.

Definition rfind (p : string) : Z := rfind_from p 0.

(** [p[:i]] and [p[i:]] for [0 <= i]. *)
Definition slice_to (i : Z) (p : string) : string :=
  substring 0 (Z.to_nat i) p.
Definition slice_from (i : Z) (p : string) : string :=
  substring (Z.to_nat i) (String.length p - Z.to_nat i) p.

(** [head == sep * len(head)] *)
Fixpoint all_sep (p : string) : bool :=
  match p with
  | EmptyString => true
  | String c r => Ascii.eqb c sep && all_sep r
  end.

(** [head.rstrip(sep)] *)
Fixpoint rstrip_sep (p : string) : string :=
  match p with
  | EmptyString => EmptyString
  | String c r =>
      match rstrip_sep r with
      | EmptyString => if Ascii.eqb c sep then EmptyString else String c EmptyString
      | r' => String c r'
      end
  end.

Definition nonempty (p : string) : bool :=
  match p with EmptyString => false | _ => true end.

(** [posixpath.split] *)
Definition split (p : string) : string * string :=
  let i := rfind p + 1 in
  let head := slice_to i p in
  let tail := slice_from i p in
  let head := if nonempty head && negb (all_sep head) then rstrip_sep head
              else head in
  (head, tail).

(** [posixpath.dirname] *)
Definition dirname (p : string) : string :=
  let i := rfind p + 1 in
  let head := slice_to i p in
  if nonempty head && negb (all_sep head) then rstrip_sep head else head.

(** *** Path resolution, as Linux does it *)

Definition pardir : string := "..".
Definition nul : ascii := "000"%char.

(** The path holds the character of code 0. *)
Fixpoint has_nul (p : string) : bool :=
  match p with
  | EmptyString => false
  | String c r => Ascii.eqb c nul || has_nul r
  end.

(** [p.split(sep)]: what stands between the separators. *)
Fixpoint fields (p : string) : list string :=
  match p with
  | EmptyString => [EmptyString]
  | String c r =>
      if Ascii.eqb c sep then EmptyString :: fields r
      else match fields r with
           | f :: l => String c f :: l
           | [] => [String c EmptyString]
           end
  end.

(** The names of a path, in order: repeated separators count as one, and
    so do separators at either end. *)
Definition names (p : string) : list string := List.filter nonempty (fields p).

(** [p.startswith(sep)] and [p.endswith(sep)] *)
Definition is_abs (p : string) : bool :=
  match p with
  | String c _ => Ascii.eqb c sep
  | EmptyString => false
  end.
Fixpoint ends_with_sep (p : string) : bool :=
  match p with
  | EmptyString => false
  | String c r =>
      match r with
      | EmptyString => Ascii.eqb c sep
      | _ => ends_with_sep r
      end
  end.

(** The names [.] and [..]. *)
Definition dots (c : string) : bool := String.eqb c curdir || String.eqb c pardir.

(** The last name of a path; a path without names is the root. *)
Definition last_name (p : string) : string := List.last (names p) curdir.

(** The path can only be a directory: it ends with a separator, or its
    last name is [.] or [..], or it has no name at all. *)
Definition names_a_dir (p : string) : bool := ends_with_sep p || dots (last_name p).

Fixpoint is_prefix (k l : list string) : bool :=
  match k, l with
  | [], _ => true
  | a :: k, b :: l => String.eqb a b && is_prefix k l
  | _ :: _, [] => false
  end.

(** What is at a place. *)
Definition dir_at (w : world) (k : list string) : bool :=
  bool_decide (k ∈ dirs w) || is_prefix k (cwd w).
Definition file_at (w : world) (k : list string) : bool :=
  bool_decide (is_Some (files w !! k)).

(** One name further: [.] stays, [..] goes up (the root is above
    itself), another name goes down. *)
Definition step (k : list string) (c : string) : list string :=
  if String.eqb c curdir then k
  else if String.eqb c pardir then removelast k
  else (k ++ [c])%list.

(** Where a path starts, and the place it leads to. *)
Definition origin (w : world) (p : string) : list string :=
  if is_abs p then [] else cwd w.
Definition place (w : world) (p : string) : list string :=
  fold_left step (names p) (origin w p).

(** Walking through directories: every name has to lead to a directory;
    the walk stops with [ENOTDIR] at a regular file and with [ENOENT]
    where there is nothing. *)
Inductive found : Type :=
| Dir (k : list string)
| NotDir
| NoEntry.

Fixpoint walk (w : world) (k : list string) (cs : list string) : found :=
  match cs with
  | [] => Dir k
  | c :: cs =>
      if dir_at w (step k c) then walk w (step k c) cs
      else if file_at w (step k c) then NotDir else NoEntry
  end.

Definition is_Dir (f : found) : bool :=
  match f with Dir _ => true | _ => false end.

(** The walk to the directory that holds the last name of the path. *)
Definition parent (w : world) (p : string) : found :=
  walk w (origin w p) (removelast (names p)).

(** [os.path.isdir], [os.path.isfile] and [os.path.exists]: [False] for
    the empty path, for a path with the character of code 0, and where
    [os.stat] fails. *)
Definition isdir (w : world) (p : string) : bool :=
  negb (has_nul p) && nonempty p && is_Dir (walk w (origin w p) (names p)).
Definition isfile (w : world) (p : string) : bool :=
  negb (has_nul p) && nonempty p && negb (names_a_dir p)
  && is_Dir (parent w p)
  && negb (dir_at w (place w p)) && file_at w (place w p).
Definition exists_ (w : world) (p : string) : bool := isdir w p || isfile w p.

(** [os.mkdir]: the system call.  A last name [.] or [..], and the root,
    are there already. *)
Definition mkdir (name : string) : M unit := fun w =>
  if has_nul name then (Raise EmbeddedNullByte, w)
  else if negb (nonempty name) then (Raise (OSError (FileNotFoundError name)), w)
  else
    match parent w name with
    | NoEntry => (Raise (OSError (FileNotFoundError name)), w)
    | NotDir => (Raise (OSError (NotADirectoryError name)), w)
    | Dir _ =>
        if dots (last_name name) || dir_at w (place w name) || file_at w (place w name)
        then (Raise (OSError (FileExistsError name)), w)
        else (Return tt,
              mkWorld (cwd w) (dirs w ∪ {[ place w name ]}) (files w)
                (calls w) (stdout w))
    end.

(** [try: mkdir(name, mode)
    except OSError: if not exist_ok or not path.isdir(name): raise] *)
Definition mkdir_exist_ok (name : string) (exist_ok : bool) : M unit := fun w =>
  match mkdir name w with
  | (Raise (OSError e), w') =>
      if negb exist_ok || negb (isdir w' name)
      then (Raise (OSError e), w') else (Return tt, w')
  | r => r
  end.

(** [head, tail = path.split(name)
    if not tail: head, tail = path.split(head)] *)
Definition split_tail (name : string) : string * string :=
  let '(head, tail) := split name in
  if nonempty tail then (head, tail) else split head.

(** [os.makedirs(name, exist_ok=exist_ok)]; the recursion is on a proper
    prefix of [name], so [String.length name] calls are enough. *)
Fixpoint makedirs_rec (fuel : nat) (name : string) (exist_ok : bool) : M unit :=
  match fuel with
  | O => timeout
  | S fuel => fun w =>
      let head := fst (split_tail name) in
      let tail := snd (split_tail name) in
      if nonempty head && nonempty tail && negb (exists_ w head) then
        (ignore_file_exists (makedirs_rec fuel head exist_ok) >>
         if String.eqb tail curdir then ret tt
         else mkdir_exist_ok name exist_ok) w
      else mkdir_exist_ok name exist_ok w
  end.

Definition makedirs (name : string) (exist_ok : bool) : M unit :=
  makedirs_rec (S (String.length name)) name exist_ok.

(** [open(path, mode='w')]: the file is created or truncated.  With
    [O_CREAT], Linux refuses a path that ends with a separator before it
    looks the last name up. *)
Definition open_w (path : string) : M unit := fun w =>
  if has_nul path then (Raise EmbeddedNullByte, w)
  else if negb (nonempty path) then (Raise (OSError (FileNotFoundError path)), w)
  else
    match parent w path with
    | NoEntry => (Raise (OSError (FileNotFoundError path)), w)
    | NotDir => (Raise (OSError (NotADirectoryError path)), w)
    | Dir _ =>
        if names_a_dir path || dir_at w (place w path)
        then (Raise (OSError (IsADirectoryError path)), w)
        else (Return tt,
              mkWorld (cwd w) (dirs w) (<[ place w path := [] ]> (files w))
                (calls w) (stdout w))
    end.

(** One line written through the file object opened on [path]: it goes
    to the place the path led to when the file was opened, which is
    where the path still leads, since the current directory is the
    same. *)
Definition write_line (path : string) (l : csv_line) : M unit := fun w =>
  (Return tt,
   mkWorld (cwd w) (dirs w)
     (<[ place w path := (default [] (files w !! place w path) ++ [l])%list ]> (files w))
     (calls w) (stdout w)).

Definition print (s : string) : M unit := fun w =>
  (Return tt, mkWorld (cwd w) (dirs w) (files w) (calls w) (stdout w ++ [s])%list).

End Os.
Export Os.

(** ** [main.py] *)

Definition CHINESE_CALENDAR_MIN_YEAR : Z := 2004.
Definition CHINESE_CALENDAR_MAX_YEAR : Z := 2030.

Definition WEEKDAY_NAMES : list string :=
  ["周一"; "周二"; "周三"; "周四"; "周五"; "周六"; "周日"].

Definition validate_date_range (start end_ : date) : M unit :=
  if (year start <? CHINESE_CALENDAR_MIN_YEAR)
     || (CHINESE_CALENDAR_MAX_YEAR <? year end_)
  then raise (ValueError (RangeError start end_))
  else ret tt.

Definition fieldnames : list string :=
  ["公历日期";
   "公历年"; "公历月"; "公历日"; "公历旬"; "周数"; "星期";
   "农历年"; "农历月"; "农历日"; "是否闰月"; "农历节日";
   "生肖";
   "节气";
   "是否节假日"; "是否工作日"; "节日名称"].

Definition default_output_file : string := "calendar_output.csv".

(** ["是" if b else "否"] *)
Definition yes_no (b : bool) : string := if b then "是" else "否".

(** [x or []] and [x or ""] *)
Definition or_nil (x : option (list string)) : list string :=
  match x with Some l => l | None => [] end.
Definition or_empty (x : option string) : string :=
  match x with Some s => s | None => EmptyString end.

(** The label of the third of the month, lines 71-76. *)
Definition shang_zhong_xia_of (g_day : Z) : string :=
  if (1 <=? g_day) && (g_day <=? 10) then "上旬"
  else if (11 <=? g_day) && (g_day <=? 20) then "中旬"
  else "下旬".

Section Program.

Variable P : providers.

Definition log (c : call) (w : world) : world :=
  mkWorld (cwd w) (dirs w) (files w) (calls w ++ [c])%list (stdout w).

Definition call_getLunar (y m d : Z) : M lunar := fun w =>
  (Return (getLunar P y m d), log (CallLunar y m d) w).
Definition call_is_holiday (d : date) : M bool := fun w =>
  (Return (is_holiday P d), log (CallIsHoliday d) w).
Definition call_is_workday (d : date) : M bool := fun w =>
  (Return (is_workday P d), log (CallIsWorkday d) w).
Definition call_get_holiday_detail (d : date) : M (bool * option string) := fun w =>
  (Return (get_holiday_detail P d), log (CallHolidayDetail d) w).

(** The body of the loop up to the dictionary [row], lines 66-136. *)
Definition make_row (current : date) : M row :=
  let g_year := year current in
  let g_month := month current in
  let g_day := day current in
  let* weekday :=
    match getitem WEEKDAY_NAMES (weekday current) with
    | Some s => ret s
    | None => raise IndexError
    end in
  let shang_zhong_xia := shang_zhong_xia_of g_day in
  let week_number := snd (fst (isocalendar current)) in
  let* lunar := call_getLunar g_year g_month g_day in
  let l_year := getYear lunar in
  let l_month := getMonth lunar in
  let l_day := getDay lunar in
  let is_leap := l_month <? 0 in
  let festivals := or_nil (getFestivals lunar) in
  let other_festivals := or_nil (getOtherFestivals lunar) in
  let all_festivals := (festivals ++ other_festivals)%list in
  let lunar_festival :=
    match all_festivals with
    | [] => EmptyString
    | _ => join ", " all_festivals
    end in
  let shengxiao := getYearShengXiao lunar in
  let jieqi := or_empty (getJieQi lunar) in
  let* is_hol := call_is_holiday current in
  let* is_work :=
    if is_hol then ret (negb is_hol) else call_is_workday current in
  let* hol_name :=
    if is_hol then
      let* detail := call_get_holiday_detail current in
      ret (or_empty (snd detail))
    else ret EmptyString in
  ret {| gregorian_date := strftime current;
         gregorian_year := g_year;
         gregorian_month := g_month;
         gregorian_day := g_day;
         decade_of_month := shang_zhong_xia;
         iso_week_number := week_number;
         weekday_name := weekday;
         lunar_year := l_year;
         lunar_month := Z.abs l_month;
         lunar_day := l_day;
         is_leap_month := yes_no is_leap;
         lunar_festival_names := lunar_festival;
         zodiac_sign := shengxiao;
         solar_term := jieqi;
         is_holiday_col := yes_no is_hol;
         is_workday_col := yes_no is_work;
         holiday_name := hol_name |}.

(** [while current <= end: ...; current += timedelta(days=1)], lines
    63-139; [fuel] bounds the number of tests of the condition. *)
Fixpoint while_loop (fuel : nat) (output_file : string) (current end_ : date)
  : M unit :=
  match fuel with
  | O => timeout
  | S fuel =>
      if date_le current end_ then
        let* row := make_row current in
        write_line output_file (Data row) >>
        let* current :=
          match add_days current 1 with
          | Some d => ret d
          | None => raise OverflowError
          end in
        while_loop fuel output_file current end_
      else ret tt
  end.

Definition generate_calendar_csv (fuel : nat)
    (start_date_str end_date_str output_file : string) : M unit :=
  let* dates :=
    match strptime start_date_str with
    | Some start =>
        match strptime end_date_str with
        | Some end_ => ret (start, end_)
        | None => raise (ValueError FormatError)
        end
    | None => raise (ValueError FormatError)
    end in
  let start := fst dates in
  let end_ := snd dates in
  (if date_gt start end_ then raise (ValueError OrderError) else ret tt) >>
  validate_date_range start end_ >>
  makedirs (dirname output_file) true >>
  open_w output_file >>
  write_line output_file (Header fieldnames) >>
  while_loop fuel output_file start end_ >>
  print ("✅ 日历数据已成功导出至：" +:+ output_file).

End Program.

(** ** The [__main__] block of [main.py] *)

(** [str(n)] for an [int]. *)
Definition str_int (n : Z) : string := pretty n.

(** [s.rstrip()] and [s.strip()], on code points below 256. *)
Fixpoint rstrip (s : string) : string :=
  match s with
  | EmptyString => EmptyString
  | String c r =>
      match rstrip r with
      | EmptyString => if is_space c then EmptyString else String c EmptyString
      | r' => String c r'
      end
  end.

Definition strip (s : string) : string := rstrip (lstrip s).

(** [s.replace("-", "")] *)
Fixpoint remove_dashes (s : string) : string :=
  match s with
  | EmptyString => EmptyString
  | String c r =>
      if code c =? 45 then remove_dashes r else String c (remove_dashes r)
  end.

Definition newline : string := String "010"%char EmptyString.

(** [str(e)] for the three [ValueError]s of the program; [str(date)] is
    the ISO form, which is [strftime]. *)
Definition str_value_error (e : value_error) : string :=
  match e with
  | FormatError => "日期格式错误，请使用 YYYY-MM-DD 格式。"
  | OrderError => "起始日期不能晚于结束日期"
  | RangeError start end_ =>
      "日期范围超出 chinese-calendar 支持的年份 ["
      +:+ str_int CHINESE_CALENDAR_MIN_YEAR +:+ ", "
      +:+ str_int CHINESE_CALENDAR_MAX_YEAR +:+ "]。" +:+ newline
      +:+ "您输入的范围：" +:+ strftime start +:+ " 至 " +:+ strftime end_
  end.

(** [str(e)]; the text of an error of the operating system is a
    parameter. *)
Definition str_exn (os_text : os_error -> string) (e : exn) : string :=
  match e with
  | ValueError v => str_value_error v
  | OSError o => os_text o
  | OverflowError => "date value out of range"
  | IndexError => "list index out of range"
  | EmbeddedNullByte => "embedded null byte"
  end.

(** The prompt of [input], for the first and for the last day of
    [current_year]. *)
Definition start_prompt (current_year : Z) : string :=
  "请输入开始日期（格式：YYYY-MM-DD，默认：" +:+ str_int current_year +:+ "-01-01）: ".
Definition end_prompt (current_year : Z) : string :=
  "请输入结束日期（格式：YYYY-MM-DD，默认：" +:+ str_int current_year +:+ "-12-31）: ".

(** [x = input(...).strip(); if not x: x = default] *)
Definition answer_or (default line : string) : string :=
  let x := strip line in
  if nonempty x then x else default.

(** [f"output/{start_date_str}-{end_date_str}_chinese_calendar.csv"], lines
    165-167. *)
Definition main_output_file (start_date end_date : string) : string :=
  let start_date_str := remove_dashes start_date in
  let end_date_str := remove_dashes end_date in
  "output/" +:+ start_date_str +:+ "-" +:+ end_date_str +:+ "_chinese_calendar.csv".

Section Main.

Variable P : providers.
Variable os_text : os_error -> string.

(** [except ValueError as e: print(...)] then
    [except Exception as e: print(...)], lines 171-174. *)
Definition handled (body : M unit) : M unit := fun w =>
  match body w with
  | (Raise (ValueError v), w') =>
      print ("❌ 输入错误：" +:+ str_value_error v) w'
  | (Raise EmbeddedNullByte, w') =>
      print ("❌ 输入错误：" +:+ str_exn os_text EmbeddedNullByte) w'
  | (Raise e, w') =>
      print ("❌ 程序运行出错：" +:+ str_exn os_text e) w'
  | r => r
  end.

(** [input] at the end of the standard input raises [EOFError], an
    [Exception]: the second handler prints it. *)
Definition at_eof : M unit :=
  print ("❌ 程序运行出错：" +:+ "EOF when reading a line").

(** The block under [if __name__ == "__main__"], lines 145-174.  [today]
    is [date.today()], [stdin] the lines of the standard input; what
    [input] writes as its prompt is recorded like a printed line. *)
Definition main (fuel : nat) (today : date) (stdin : list string) : M unit :=
  print "====================================" >>
  print "       日历数据生成工具" >>
  print "====================================" >>
  let current_year := year today in
  print (start_prompt current_year) >>
  match stdin with
  | [] => at_eof
  | line :: stdin =>
      let start_date := answer_or (str_int current_year +:+ "-01-01") line in
      print (end_prompt current_year) >>
      match stdin with
      | [] => at_eof
      | line :: _ =>
          let end_date := answer_or (str_int current_year +:+ "-12-31") line in
          print (newline +:+ "正在生成日历数据...") >>
          let output_file := main_output_file start_date end_date in
          handled (generate_calendar_csv P fuel start_date end_date output_file)
      end
  end.

End Main.

(** A sample of the external packages, for running the program: the
    lunar calendar is a constant, weekends are holidays without a name,
    1 October is the named holiday. *)
Definition sample_lunar : lunar :=
  {| getYear := 2024; getMonth := -6; getDay := 3;
     getFestivals := Some ["春节"]; getOtherFestivals := None;
     getYearShengXiao := "龙"; getJieQi := None |}.

Definition sample_providers : providers :=
  {| getLunar := fun _ _ _ => sample_lunar;
     is_holiday := fun d =>
       (5 <=? weekday d) || ((month d =? 10) && (day d =? 1));
     is_workday := fun d =>
       negb ((5 <=? weekday d) || ((month d =? 10) && (day d =? 1)));
     get_holiday_detail := fun d =>
       if (month d =? 10) && (day d =? 1) then (true, Some "National Day")
       else (5 <=? weekday d, None) |}.

(** A world with nothing in it but the current directory. *)
Definition empty_world : world := mkWorld ["home"; "user"] ∅ ∅ [] [].

(** ** The vocabulary of the statements *)

(** [_days_before_month], with the leap flag as a parameter. *)
Definition dbm (leap : bool) (m : Z) : Z :=
  tbl _DAYS_BEFORE_MONTH m + (if (2 <? m) && leap then 1 else 0).

(** [_days_in_month], with the leap flag as a parameter. *)
Definition dim (leap : bool) (m : Z) : Z :=
  if (m =? 2) && leap then 29 else tbl _DAYS_IN_MONTH m.

(** The check that the tail of [_ord2ymd] is right on the day [n] of a
    year. *)
Definition month_day_ok (leap : bool) (n : Z) : bool :=
  let '(m, d) := month_day_of n leap in
  (1 <=? m) && (m <=? 12) && (1 <=? d) && (d <=? dim leap m)
  && (dbm leap m + d =? n + 1).

(** The integers [lo, lo + 1, ..., lo + n - 1]. *)
Definition zrange (lo : Z) (n : nat) : list Z :=
  map (fun i => lo + Z.of_nat i) (seq 0 n).

(** The texts matched by the month group, with the number each stands
    for. *)
Definition month_forms : list (string * Z) :=
  flat_map (fun m => map (fun t => (t, m)) (month_texts m)) (zrange 1 12).

(** The texts matched by the day group, with the number each stands
    for. *)
Definition day_forms : list (string * Z) :=
  flat_map (fun d => map (fun t => (t, d)) (day_texts d)) (zrange 1 31).

(** The check that [int] reads a text as its number. *)
Definition form_ok (f : string * Z) : bool :=
  match py_int (fst f) with Some n => n =? snd f | None => false end.

(** The first match of the format after the year, on the texts of a
    month and of a day. *)
Definition tail_ok (fm fd : string * Z) : bool :=
  match re_tail ("-" +:+ fst fm +:+ "-" +:+ fst fd) with
  | (tm, td, EmptyString) :: _ => String.eqb tm (fst fm) && String.eqb td (fst fd)
  | _ => false
  end.

(** The date of an ordinal. *)
Definition date_at (o : Z) : date :=
  let '(y, m, d) := _ord2ymd o in mkdate y m d.

(** The [n] days from [start] on. *)
Definition days_from (start : date) (n : nat) : list date :=
  map (fun i => date_at (toordinal start + Z.of_nat i)) (seq 0 n).

(** The day after a date, by the calendar: the next day of the month,
    else the first of the next month, else the first of January. *)
Definition next_day (d : date) : date :=
  if day d <? _days_in_month (year d) (month d)
  then mkdate (year d) (month d) (day d + 1)
  else if month d <? 12 then mkdate (year d) (month d + 1) 1
  else mkdate (year d + 1) 1 1.

(** Two worlds with the same call log and the same printed lines. *)
Definition same_log (w w' : world) : Prop :=
  calls w' = calls w /\ stdout w' = stdout w.

(** The outcome of a computation that stopped within its fuel. *)
Definition terminated {A : Type} (o : outcome A) : bool :=
  match o with Timeout => false | _ => true end.

Section RowsOfARun.

Variable P : providers.
Variable out : string.

(** The row of a date, as a function of the external packages. *)
Definition row_of (d : date) : row :=
  let l := getLunar P (year d) (month d) (day d) in
  let all_festivals := (or_nil (getFestivals l) ++ or_nil (getOtherFestivals l))%list in
  {| gregorian_date := strftime d;
     gregorian_year := year d;
     gregorian_month := month d;
     gregorian_day := day d;
     decade_of_month := shang_zhong_xia_of (day d);
     iso_week_number := snd (fst (isocalendar d));
     weekday_name := nth (Z.to_nat (weekday d)) WEEKDAY_NAMES EmptyString;
     lunar_year := getYear l;
     lunar_month := Z.abs (getMonth l);
     lunar_day := getDay l;
     is_leap_month := yes_no (getMonth l <? 0);
     lunar_festival_names :=
       match all_festivals with [] => EmptyString | _ => join ", " all_festivals end;
     zodiac_sign := getYearShengXiao l;
     solar_term := or_empty (getJieQi l);
     is_holiday_col := yes_no (is_holiday P d);
     is_workday_col :=
       yes_no (if is_holiday P d then false else is_workday P d);
     holiday_name :=
       if is_holiday P d then or_empty (snd (get_holiday_detail P d))
       else EmptyString |}.

(** The calls made for a date, in order. *)
Definition day_calls (d : date) : list call :=
  [CallLunar (year d) (month d) (day d); CallIsHoliday d;
   if is_holiday P d then CallHolidayDetail d else CallIsWorkday d].

(** The effect of one iteration of the loop. *)
Definition emit (w : world) (d : date) : world :=
  mkWorld (cwd w) (dirs w)
    (<[ place w out :=
          (default [] (files w !! place w out) ++ [Data (row_of d)])%list ]> (files w))
    (calls w ++ day_calls d)%list (stdout w).

(** The effect of the iterations for [days]. *)
Definition emit_all (days : list date) (w : world) : world :=
  fold_left emit days w.

End RowsOfARun.

(** The data rows among the lines of a file. *)
Definition rows_of_lines (l : list csv_line) : list row :=
  flat_map (fun x => match x with Data r => [r] | Header _ => [] end) l.

(** The rows a completed run has left in its output file. *)
Definition emitted_rows (P : providers) (fuel : nat)
    (start_date_str end_date_str output_file : string) (w : world) : list row :=
  match generate_calendar_csv P fuel start_date_str end_date_str output_file w with
  | (Return _, w') => rows_of_lines (default [] (files w' !! place w' output_file))
  | _ => []
  end.

(** The number of days asked for, when both strings are dates. *)
Definition iterations (start_date_str end_date_str : string) : Z :=
  match strptime start_date_str, strptime end_date_str with
  | Some a, Some b => toordinal b - toordinal a + 1
  | _, _ => 0
  end.

(** The world once the file is open and the header written. *)
Definition with_header (out : string) (w : world) : world :=
  snd (write_line out (Header fieldnames) w).

(** The line printed at the end of a run. *)
Definition done_message (out : string) : string :=
  "✅ 日历数据已成功导出至：" +:+ out.

(** A failure of the file system: an [OSError], or the [ValueError]
    for a path with the character of code 0. *)
Definition os_failure (x : exn) : Prop :=
  (exists o, x = OSError o) \/ x = EmbeddedNullByte.

(** *** The round trip, re-derived in the words of the spec

    Section 4.2 of the spec computes the weekday name by a fixed table
    of seven entries indexed by the weekday from Monday, and the third
    of the month by the thresholds 1-10, 11-20, 21-end; section 8 reads
    the written date back and derives both again.  These definitions
    follow those words, not the code. *)

(** From the spec, section 3 ([gregorian_date]: the day itself,
    ISO-formatted) and section 8 (parsing the written output back):
    reading the date column back, four digits of the year, two of the
    month and two of the day around two dashes. *)
Definition spec_parse_date (s : string) : option (Z * Z * Z) :=
  match s with
  | String y1 (String y2 (String y3 (String y4 (String s1
      (String m1 (String m2 (String s2 (String d1 (String d2 EmptyString))))))))) =>
      if is_digit y1 && is_digit y2 && is_digit y3 && is_digit y4
         && Ascii.eqb s1 "-" && is_digit m1 && is_digit m2
         && Ascii.eqb s2 "-" && is_digit d1 && is_digit d2
      then Some (1000 * digit_val y1 + 100 * digit_val y2 + 10 * digit_val y3
                 + digit_val y4,
                 10 * digit_val m1 + digit_val m2,
                 10 * digit_val d1 + digit_val d2)
      else None
  | _ => None
  end.

(** From the spec, section 4.2 step 1 (weekday-from-Monday, 0 = Monday
    to 6 = Sunday): the weekday of a Gregorian date from its year, month
    and day alone, by Zeller's congruence, in which January and February
    count as months 13 and 14 of the year before and 0 is Saturday. *)
Definition spec_weekday_from_monday (y m d : Z) : Z :=
  let m' := if m <? 3 then m + 12 else m in
  let y' := if m <? 3 then y - 1 else y in
  let K := y' mod 100 in
  let J := y' / 100 in
  (d + 13 * (m' + 1) / 5 + K + K / 4 + J / 4 + 5 * J + 5) mod 7.

(** From the spec, sections 3 and 4.2 (a fixed 7-entry lookup, localized
    weekday label, Monday-first): the seven labels, Monday first. *)
Definition spec_weekday_labels : list string :=
  ["周一"; "周二"; "周三"; "周四"; "周五"; "周六"; "周日"].

(** From the spec, section 4.2 step 1: the weekday label of a date, the
    entry of the table at the weekday counted from Monday. *)
Definition spec_weekday_name (y m d : Z) : string :=
  nth (Z.to_nat (spec_weekday_from_monday y m d)) spec_weekday_labels EmptyString.

(** From the spec, section 3 ([decade_of_month]: enum, day 1-10 /
    11-20 / 21-end): the thirds of a month. *)
Inductive spec_decade : Type := early | mid | late.

(** From the spec, section 4.2 step 1: the third of the month by the
    thresholds on the day of the month. *)
Definition spec_decade_of_day (d : Z) : spec_decade :=
  if d <? 11 then early else if d <? 21 then mid else late.

(** From the spec, section 6 (localized decade-of-month labels): the
    labels of the three thirds in the output. *)
Definition spec_decade_label (x : spec_decade) : string :=
  match x with
  | early => "上旬"
  | mid => "中旬"
  | late => "下旬"
  end.

(** From the spec, section 8: the label re-derived from the day. *)
Definition spec_decade_of_month (d : Z) : string :=
  spec_decade_label (spec_decade_of_day d).

(** An output path with a directory part. *)
Definition sample_out : string := "output/x.csv".

(** The run from the National Day to 3 October 2025, in the empty world. *)
Definition sample_run : outcome unit * world :=
  generate_calendar_csv sample_providers 4 "2025-10-01" "2025-10-03" sample_out
    empty_world.

(** The rows of that run. *)
Definition sample_rows : list row :=
  emitted_rows sample_providers 4 "2025-10-01" "2025-10-03" sample_out empty_world.

(** The row of the National Day. *)
Definition holiday_row : row := row_of sample_providers (mkdate 2025 10 1).

(** The row of the day after. *)
Definition working_row : row := row_of sample_providers (mkdate 2025 10 2).

(** The date of a row, from its three numeric columns. *)
Definition row_date (r : row) : date :=
  mkdate (gregorian_year r) (gregorian_month r) (gregorian_day r).

(** The calls made for a row, in order: the lunar conversion, the holiday
    test, then the holiday detail on a holiday and the workday test on
    any other day. *)
Definition calls_for_row (P : providers) (r : row) : list call :=
  let d := row_date r in
  [CallLunar (year d) (month d) (day d); CallIsHoliday d;
   if is_holiday P d then CallHolidayDetail d else CallIsWorkday d].

(** The file system after a call that only creates directories. *)
Definition only_new_dirs (w w' : world) : Prop :=
  cwd w' = cwd w /\ files w' = files w /\ dirs w ⊆ dirs w'.

(** The validation of lines 33-44, as a function of the two strings: the
    error it ends in, if any. *)
Definition validation (s e : string) : option value_error :=
  match strptime s, strptime e with
  | Some start, Some end_ =>
      if date_gt start end_ then Some OrderError
      else if (year start <? CHINESE_CALENDAR_MIN_YEAR)
              || (CHINESE_CALENDAR_MAX_YEAR <? year end_)
      then Some (RangeError start end_)
      else None
  | _, _ => Some FormatError
  end.

(** The world after more lines were printed. *)
Definition printed (lines : list string) (w : world) : world :=
  mkWorld (cwd w) (dirs w) (files w) (calls w) (stdout w ++ lines)%list.

(** What [main] prints before it calls [generate_calendar_csv]. *)
Definition main_preamble (current_year : Z) : list string :=
  ["===================================="; "       日历数据生成工具";
   "===================================="; start_prompt current_year;
   end_prompt current_year; newline +:+ "正在生成日历数据..."].

(** Every character of a string passes a test. *)
Fixpoint all_chars (p : ascii -> bool) (s : string) : bool :=
  match s with
  | EmptyString => true
  | String c r => p c && all_chars p r
  end.

(** A character other than the separator of paths. *)
Definition not_sep (c : ascii) : bool := negb (Ascii.eqb c sep).

(** A digit, a dash or a blank: the characters of the texts of dates. *)
Definition date_char (c : ascii) : bool :=
  is_digit c || (code c =? 45) || (code c =? 32).

(** The check that a form of a month or a day is made of such characters. *)
Definition form_chars_ok (f : string * Z) : bool := all_chars date_char (fst f).

(** The check that [str] writes a year of four digits as [zfill4] does. *)
Definition str_int_ok (y : Z) : bool :=
  (y <? 1000) || String.eqb (str_int y) (zfill4 y).

(** A character other than the one of code 0. *)
Definition not_nul (c : ascii) : bool := negb (Ascii.eqb c nul).

(** A world that already holds a directory and a file of another program. *)
Definition busy_world : world :=
  mkWorld ["home"; "user"] {[ ["home"; "user"; "output"] ]}
    {[ ["home"; "user"; "output"; "notes.txt"] := [Header ["a"; "b"]] ]} [] [].

(** A text for the errors of the operating system. *)
Definition sample_os_text (e : os_error) : string := "os error".

(** The day a sample session runs on. *)
Definition sample_today : date := mkdate 2025 6 1.

(** * Proofs *)

(** ** The calendar: ordinals and dates *)

Lemma is_leap_spec y :
  _is_leap y = true <-> y mod 4 = 0 /\ (y mod 100 <> 0 \/ y mod 400 = 0).
Proof.
  unfold _is_leap.
  rewrite andb_true_iff, orb_true_iff, negb_true_iff, !Z.eqb_eq, Z.eqb_neq.
  tauto.
Qed.

Lemma days_before_year_succ y :
  _days_before_year (y + 1)
  = _days_before_year y + 365 + (if _is_leap y then 1 else 0).
Proof.
  unfold _days_before_year.
  replace (y + 1 - 1) with y by lia.
  destruct (_is_leap y) eqn:L.
  - apply is_leap_spec in L. Z.div_mod_to_equations; lia.
  - assert (~ (y mod 4 = 0 /\ (y mod 100 <> 0 \/ y mod 400 = 0))) as N.
    { rewrite <- is_leap_spec, L. discriminate. }
    Z.div_mod_to_equations; lia.
Qed.

(** Reading a decidable property off a finite range by evaluation. *)
Lemma forallb_range (P : Z -> bool) (k : nat) :
  forallb P (map Z.of_nat (seq 0 k)) = true ->
  forall i, 0 <= i < Z.of_nat k -> P i = true.
Proof.
  intros H i Hi.
  rewrite forallb_forall in H. apply H.
  apply in_map_iff. exists (Z.to_nat i). split; [lia|].
  apply in_seq. lia.
Qed.

Lemma month_cases m :
  1 <= m <= 12 ->
  m = 1 \/ m = 2 \/ m = 3 \/ m = 4 \/ m = 5 \/ m = 6 \/
  m = 7 \/ m = 8 \/ m = 9 \/ m = 10 \/ m = 11 \/ m = 12.
Proof. lia. Qed.

Ltac each_month m H :=
  let C := fresh in
  pose proof (month_cases m H) as C;
  repeat (destruct C as [C | C]; [subst m | ]); [ .. | subst m].

Lemma days_before_month_dbm y m : _days_before_month y m = dbm (_is_leap y) m.
Proof. reflexivity. Qed.
Lemma days_in_month_dim y m : _days_in_month y m = dim (_is_leap y) m.
Proof. reflexivity. Qed.

Lemma dim_bounds leap m : 1 <= m <= 12 -> 28 <= dim leap m <= 31.
Proof. intros H. each_month m H; destruct leap; vm_compute; split; discriminate. Qed.

Lemma dbm_next leap m :
  1 <= m <= 11 -> dbm leap (m + 1) = dbm leap m + dim leap m.
Proof.
  intros H. assert (1 <= m <= 12) as H' by lia.
  each_month m H'; try lia; destruct leap; reflexivity.
Qed.

Lemma dbm_bounds leap m :
  1 <= m <= 12 ->
  0 <= dbm leap m /\ dbm leap m + dim leap m <= 365 + (if leap then 1 else 0).
Proof. intros H. each_month m H; destruct leap; vm_compute; split; discriminate. Qed.

Lemma dbm_mono leap m m' :
  1 <= m -> m < m' -> m' <= 12 -> dbm leap m + dim leap m <= dbm leap m'.
Proof.
  intros H1 H2 H3.
  assert (1 <= m <= 12) as Hm by lia. assert (1 <= m' <= 12) as Hm' by lia.
  each_month m Hm; each_month m' Hm'; try lia; destruct leap; vm_compute; discriminate.
Qed.

Lemma month_day_of_spec (leap : bool) n m d :
  0 <= n < 365 + (if leap then 1 else 0) ->
  month_day_of n leap = (m, d) ->
  1 <= m <= 12 /\ 1 <= d <= dim leap m /\ dbm leap m + d = n + 1.
Proof.
  intros Hn E.
  assert (month_day_ok leap n = true) as H.
  { destruct leap.
    - apply (forallb_range (month_day_ok true) 366); [vm_compute; reflexivity | lia].
    - apply (forallb_range (month_day_ok false) 365); [vm_compute; reflexivity | lia]. }
  unfold month_day_ok in H. rewrite E in H.
  rewrite !andb_true_iff in H. lia.
Qed.

Lemma days_before_year_mono y y' :
  y <= y' -> _days_before_year y <= _days_before_year y'.
Proof. unfold _days_before_year. intros H. Z.div_mod_to_equations. lia. Qed.

Lemma days_before_year_nonneg y : 1 <= y -> 0 <= _days_before_year y.
Proof. unfold _days_before_year. intros H. Z.div_mod_to_equations. lia. Qed.

(** The year digits of [_ord2ymd]: the ordinal of 1 January and the leap
    flag of the year assembled from the four quotients. *)
Lemma year_of_quotients a b c e :
  0 <= b <= 3 -> 0 <= c <= 24 -> 0 <= e <= 3 ->
  let y := a * 400 + 1 + b * 100 + c * 4 + e in
  _days_before_year y = a * 146097 + b * 36524 + c * 1461 + e * 365
  /\ _is_leap y = (e =? 3) && (negb (c =? 24) || (b =? 3)).
Proof.
  intros Hb Hc He y. subst y. split.
  - unfold _days_before_year. Z.div_mod_to_equations. lia.
  - destruct (_is_leap _) eqn:L.
    + apply is_leap_spec in L. symmetry.
      rewrite andb_true_iff, orb_true_iff, negb_true_iff, !Z.eqb_eq, Z.eqb_neq.
      Z.div_mod_to_equations. lia.
    + assert (~ (e = 3 /\ (c <> 24 \/ b = 3))) as N.
      { intros N. apply not_true_iff_false in L. apply L, is_leap_spec.
        Z.div_mod_to_equations. lia. }
      symmetry. apply not_true_iff_false. intros T. apply N.
      rewrite andb_true_iff, orb_true_iff, negb_true_iff, !Z.eqb_eq, Z.eqb_neq in T.
      exact T.
Qed.

Lemma ord2ymd_spec n y m d :
  1 <= n -> _ord2ymd n = (y, m, d) ->
  1 <= y /\ 1 <= m <= 12 /\ 1 <= d <= _days_in_month y m /\ _ymd2ord y m d = n.
Proof.
  intros Hn E. unfold _ord2ymd in E. cbv zeta in E.
  unfold _DI400Y, _DI100Y, _DI4Y in E.
  set (n0 := n - 1) in *.
  set (a := n0 / 146097) in *. set (r1 := n0 mod 146097) in *.
  set (b := r1 / 36524) in *. set (r2 := r1 mod 36524) in *.
  set (c := r2 / 1461) in *. set (r3 := r2 mod 1461) in *.
  set (e := r3 / 365) in *. set (r := r3 mod 365) in *.
  assert (n0 = a * 146097 + b * 36524 + c * 1461 + e * 365 + r
          /\ 0 <= a /\ 0 <= b <= 4 /\ 0 <= c <= 24 /\ 0 <= e <= 4
          /\ 0 <= r < 365
          /\ (b = 4 -> c = 0 /\ e = 0 /\ r = 0)
          /\ (e = 4 -> r = 0 /\ (b = 4 \/ c <= 23))) as F.
  { subst a r1 b r2 c r3 e r. Z.div_mod_to_equations. lia. }
  destruct F as (F0 & Fa & Fb & Fc & Fe & Fr & Fb4 & Fe4).
  destruct ((e =? 4) || (b =? 4)) eqn:Last.
  - (* the last day of a leap year (31 December) *)
    injection E as <- <- <-.
    apply orb_true_iff in Last. rewrite !Z.eqb_eq in Last.
    set (Y := a * 400 + 1 + b * 100 + c * 4 + e - 1).
    assert (_is_leap Y = true) as L.
    { apply is_leap_spec. subst Y. Z.div_mod_to_equations. lia. }
    assert (_days_before_year Y + 366 = n) as D.
    { unfold _days_before_year. subst Y. Z.div_mod_to_equations. lia. }
    unfold _ymd2ord. rewrite days_before_month_dbm, days_in_month_dim, L.
    change (dbm true 12) with 335. change (dim true 12) with 31.
    subst Y. lia.
  - apply orb_false_iff in Last. rewrite !Z.eqb_neq in Last.
    destruct (year_of_quotients a b c e) as [D L]; [lia .. |].
    cbv zeta in D, L. rewrite <- L in E.
    set (Y := a * 400 + 1 + b * 100 + c * 4 + e) in *.
    destruct (month_day_of r (_is_leap Y)) as [m0 d0] eqn:MD.
    injection E as <- <- <-.
    apply month_day_of_spec in MD; [| destruct (_is_leap Y); lia].
    unfold _ymd2ord. rewrite days_before_month_dbm, days_in_month_dim.
    subst Y. lia.
Qed.

Lemma days_before_year_MAX : _days_before_year (MAXYEAR + 1) = _MAXORDINAL.
Proof. reflexivity. Qed.

Lemma ord2ymd_year_max n y m d :
  1 <= n <= _MAXORDINAL -> _ord2ymd n = (y, m, d) -> y <= MAXYEAR.
Proof.
  intros Hn E. destruct (ord2ymd_spec _ _ _ _ (proj1 Hn) E) as (Hy & Hm & Hd & O).
  destruct (Z_le_gt_dec y MAXYEAR) as [|G]; [assumption | exfalso].
  pose proof (days_before_year_mono (MAXYEAR + 1) y ltac:(lia)) as M.
  rewrite days_before_year_MAX in M.
  unfold _ymd2ord in O. rewrite days_before_month_dbm in O.
  pose proof (dbm_bounds (_is_leap y) m Hm). lia.
Qed.

(** Every ordinal of the supported range is the ordinal of a date. *)
Lemma fromordinal_toordinal n :
  1 <= n <= _MAXORDINAL ->
  exists d, fromordinal n = Some d /\ valid_date d /\ toordinal d = n.
Proof.
  intros Hn. unfold fromordinal.
  destruct (_ord2ymd n) as [[y m] d] eqn:E.
  pose proof (ord2ymd_year_max _ _ _ _ Hn E) as Hmax.
  destruct (ord2ymd_spec _ _ _ _ (proj1 Hn) E) as (Hy & Hm & Hd & O).
  assert (_check_date_fields y m d = true) as V.
  { unfold _check_date_fields, MINYEAR. rewrite !andb_true_iff, !Z.leb_le. lia. }
  unfold date_new. rewrite V. exists (mkdate y m d). auto.
Qed.

Lemma valid_date_fields d :
  valid_date d <->
  1 <= year d <= 9999 /\ 1 <= month d <= 12
  /\ 1 <= day d <= _days_in_month (year d) (month d).
Proof.
  unfold valid_date, _check_date_fields, MINYEAR, MAXYEAR.
  rewrite !andb_true_iff, !Z.leb_le. lia.
Qed.

(** The day of the year of a valid date. *)
Lemma day_of_year_bounds d :
  valid_date d ->
  1 <= _days_before_month (year d) (month d) + day d
    <= 365 + (if _is_leap (year d) then 1 else 0).
Proof.
  intros V. apply valid_date_fields in V. destruct V as (Hy & Hm & Hd).
  rewrite days_before_month_dbm. rewrite days_in_month_dim in Hd.
  pose proof (dbm_bounds (_is_leap (year d)) (month d) Hm). lia.
Qed.

Lemma toordinal_bounds d : valid_date d -> 1 <= toordinal d <= _MAXORDINAL.
Proof.
  intros V. pose proof (day_of_year_bounds d V) as B.
  apply valid_date_fields in V. destruct V as (Hy & _).
  unfold toordinal, _ymd2ord.
  pose proof (days_before_year_nonneg (year d) ltac:(lia)).
  pose proof (days_before_year_succ (year d)) as S.
  pose proof (days_before_year_mono (year d + 1) (MAXYEAR + 1) ltac:(unfold MAXYEAR; lia)) as M.
  rewrite days_before_year_MAX in M. lia.
Qed.

(** The tuple order of dates is the order of their ordinals. *)
Lemma toordinal_lt a b :
  valid_date a -> valid_date b -> _cmp a b = Lt -> toordinal a < toordinal b.
Proof.
  intros Va Vb C.
  pose proof (day_of_year_bounds a Va) as Ba.
  pose proof (day_of_year_bounds b Vb) as Bb.
  apply valid_date_fields in Va, Vb.
  destruct Va as (Hya & Hma & Hda), Vb as (Hyb & Hmb & Hdb).
  unfold toordinal, _ymd2ord. revert C. unfold _cmp.
  destruct (Z.compare_spec (year a) (year b)) as [Ey | Ly | Gy]; try discriminate.
  - rewrite Ey in *.
    rewrite !days_before_month_dbm. rewrite !days_in_month_dim in *.
    destruct (Z.compare_spec (month a) (month b)) as [Em | Lm | Gm]; try discriminate.
    + rewrite Em. intros C. change (day a < day b) in C. lia.
    + intros _. pose proof (dbm_mono (_is_leap (year b)) (month a) (month b)). lia.
  - intros _. pose proof (days_before_year_succ (year a)).
    pose proof (days_before_year_mono (year a + 1) (year b)). lia.
Qed.

Lemma cmp_eq a b : _cmp a b = Eq -> a = b.
Proof.
  unfold _cmp. destruct a as [ya ma da], b as [yb mb db]; simpl.
  destruct (Z.compare_spec ya yb); try discriminate.
  destruct (Z.compare_spec ma mb); try discriminate.
  intros E. apply Z.compare_eq in E. congruence.
Qed.

Lemma cmp_antisym a b : _cmp b a = CompOpp (_cmp a b).
Proof.
  unfold _cmp. rewrite (Z.compare_antisym (year a)), (Z.compare_antisym (month a)),
    (Z.compare_antisym (day a)).
  destruct (year a ?= year b), (month a ?= month b), (day a ?= day b); reflexivity.
Qed.

Lemma cmp_toordinal a b :
  valid_date a -> valid_date b -> _cmp a b = (toordinal a ?= toordinal b).
Proof.
  intros Va Vb. destruct (_cmp a b) eqn:C; symmetry.
  - apply cmp_eq in C. subst. apply Z.compare_refl.
  - apply Z.compare_lt_iff. now apply toordinal_lt.
  - apply Z.compare_gt_iff. apply toordinal_lt; trivial.
    rewrite cmp_antisym, C. reflexivity.
Qed.

Lemma date_le_toordinal a b :
  valid_date a -> valid_date b ->
  date_le a b = (toordinal a <=? toordinal b).
Proof.
  intros Va Vb. unfold date_le, Z.leb. now rewrite cmp_toordinal.
Qed.

Lemma date_gt_toordinal a b :
  valid_date a -> valid_date b ->
  date_gt a b = (toordinal b <? toordinal a).
Proof.
  intros Va Vb. unfold date_gt. rewrite Z.ltb_antisym. unfold Z.leb.
  rewrite cmp_toordinal by trivial.
  destruct (toordinal a ?= toordinal b); reflexivity.
Qed.

Lemma toordinal_inj a b :
  valid_date a -> valid_date b -> toordinal a = toordinal b -> a = b.
Proof.
  intros Va Vb E. apply cmp_eq. rewrite cmp_toordinal by trivial.
  rewrite E. apply Z.compare_refl.
Qed.

Lemma toordinal_fromordinal d :
  valid_date d -> fromordinal (toordinal d) = Some d.
Proof.
  intros V. destruct (fromordinal_toordinal (toordinal d)) as (d' & F & V' & O).
  - now apply toordinal_bounds.
  - rewrite F. f_equal. now apply toordinal_inj.
Qed.

(** Adding one day is the successor on ordinals. *)
Lemma add_days_spec d k :
  valid_date d -> 1 <= toordinal d + k <= _MAXORDINAL ->
  exists d', add_days d k = Some d' /\ valid_date d' /\ toordinal d' = toordinal d + k.
Proof.
  intros V B. unfold add_days.
  replace ((0 <? toordinal d + k) && (toordinal d + k <=? _MAXORDINAL)) with true.
  - now apply fromordinal_toordinal.
  - symmetry. apply andb_true_iff. rewrite Z.ltb_lt, Z.leb_le. lia.
Qed.

(** ** Characters and digits *)

Lemma chr_code c : chr (code c) = c.
Proof. unfold chr, code. rewrite N2Z.id. apply ascii_N_embedding. Qed.

Lemma code_chr n : 0 <= n < 256 -> code (chr n) = n.
Proof.
  intros H. unfold chr, code. rewrite N_ascii_embedding; lia.
Qed.

Lemma in_class_spec lo hi c : in_class lo hi c = true <-> lo <= code c <= hi.
Proof. unfold in_class. rewrite andb_true_iff, !Z.leb_le. tauto. Qed.

Lemma is_digit_spec c : is_digit c = true <-> 0 <= digit_val c <= 9.
Proof. unfold is_digit, digit_val. rewrite in_class_spec. lia. Qed.

Lemma code_digit_char k : 0 <= k <= 9 -> code (digit_char k) = 48 + k.
Proof. intros H. unfold digit_char. apply code_chr. lia. Qed.

Lemma digit_val_digit_char k : 0 <= k <= 9 -> digit_val (digit_char k) = k.
Proof. intros H. unfold digit_val. rewrite code_digit_char; lia. Qed.

Lemma is_digit_digit_char k : 0 <= k <= 9 -> is_digit (digit_char k) = true.
Proof. intros H. apply is_digit_spec. rewrite digit_val_digit_char; lia. Qed.

Lemma digit_char_digit_val c : is_digit c = true -> digit_char (digit_val c) = c.
Proof.
  intros _. unfold digit_char, digit_val.
  replace (48 + (code c - 48)) with (code c) by lia. apply chr_code.
Qed.

Lemma is_digit_not_space c : is_digit c = true -> is_space c = false.
Proof.
  unfold is_digit, is_space. rewrite in_class_spec. intros H.
  rewrite !orb_false_iff, !Z.eqb_neq.
  repeat split; try lia; apply not_true_iff_false; rewrite in_class_spec; lia.
Qed.

Lemma in_zrange lo n k : In k (zrange lo n) <-> lo <= k < lo + Z.of_nat n.
Proof.
  unfold zrange. rewrite in_map_iff. split.
  - intros (i & <- & Hi). apply in_seq in Hi. lia.
  - intros H. exists (Z.to_nat (k - lo)). split; [lia|]. apply in_seq. lia.
Qed.

Lemma in_class_enum lo hi c :
  in_class lo hi c = true ->
  In c (map chr (zrange lo (Z.to_nat (hi - lo + 1)))).
Proof.
  rewrite in_class_spec. intros H. apply in_map_iff.
  exists (code c). split; [apply chr_code|]. apply in_zrange. lia.
Qed.

Lemma append_nil_r s : s +:+ EmptyString = s.
Proof.
  induction s as [|c s IH]; [reflexivity|].
  change (String c (s +:+ EmptyString) = String c s). now rewrite IH.
Qed.

(** ** The matcher *)

Lemma in_re_class lo hi s t r :
  In (t, r) (re_class lo hi s) <->
  exists c, s = String c r /\ t = String c EmptyString /\ in_class lo hi c = true.
Proof.
  unfold re_class. destruct s as [|c s'].
  - split; [intros [] | intros (c & E & _); discriminate].
  - destruct (in_class lo hi c) eqn:C.
    + split.
      * intros [E|[]]. injection E as <- <-. eauto.
      * intros (c' & E & -> & _). injection E as <- <-. now left.
    + split; [intros [] | intros (c' & E & _ & C')].
      injection E as <- <-. congruence.
Qed.

Lemma in_re_seq (a b : re) s t r :
  In (t, r) (re_seq a b s) <->
  exists t1 r1 t2, In (t1, r1) (a s) /\ In (t2, r) (b r1) /\ t = t1 +:+ t2.
Proof.
  unfold re_seq. rewrite in_flat_map. split.
  - intros ([t1 r1] & Ha & Hb). apply in_map_iff in Hb.
    destruct Hb as ([t2 r2] & E & Hb). injection E as <- <-.
    exists t1, r1, t2. auto.
  - intros (t1 & r1 & t2 & Ha & Hb & ->). exists (t1, r1). split; [assumption|].
    apply in_map_iff. exists (t2, r). auto.
Qed.

Lemma in_re_alt (a b : re) s x : In x (re_alt a b s) <-> In x (a s) \/ In x (b s).
Proof. unfold re_alt. apply in_app_iff. Qed.

Lemma existsb_eqb_In (t : string) (l : list string) :
  existsb (String.eqb t) l = true -> In t l.
Proof.
  rewrite existsb_exists. intros (x & I & E). apply String.eqb_eq in E. now subst.
Qed.

Lemma in_month_forms t m :
  In (t, m) month_forms <-> 1 <= m <= 12 /\ In t (month_texts m).
Proof.
  unfold month_forms. rewrite in_flat_map. split.
  - intros (m' & R & I). apply in_map_iff in I. destruct I as (t' & E & I).
    injection E as <- <-. apply in_zrange in R. split; [lia | assumption].
  - intros (R & I). exists m. split; [apply in_zrange; lia|].
    apply in_map_iff. eauto.
Qed.

Lemma in_day_forms t d :
  In (t, d) day_forms <-> 1 <= d <= 31 /\ In t (day_texts d).
Proof.
  unfold day_forms. rewrite in_flat_map. split.
  - intros (d' & R & I). apply in_map_iff in I. destruct I as (t' & E & I).
    injection E as <- <-. apply in_zrange in R. split; [lia | assumption].
  - intros (R & I). exists d. split; [apply in_zrange; lia|].
    apply in_map_iff. eauto.
Qed.

Ltac inv_re :=
  repeat match goal with
  | H : In _ (re_alt _ _ _) |- _ => apply in_re_alt in H; destruct H as [H | H]
  | H : In _ (re_seq _ _ _) |- _ =>
      apply in_re_seq in H;
      let t1 := fresh "t" in let r1 := fresh "r" in let t2 := fresh "t" in
      let H1 := fresh "H" in let H2 := fresh "H" in
      destruct H as (t1 & r1 & t2 & H1 & H2 & ->)
  | H : In _ (re_chr _ _) |- _ => unfold re_chr in H
  | H : In _ (re_digit _) |- _ => unfold re_digit in H
  | H : In _ (re_class _ _ _) |- _ =>
      apply in_re_class in H;
      let c := fresh "c" in let C := fresh "C" in
      destruct H as (c & -> & -> & C)
  end.

Ltac enum_classes :=
  repeat match goal with
  | C : in_class _ _ _ = true |- _ =>
      apply in_class_enum in C; simpl in C;
      repeat (destruct C as [C | C]; [subst | ]); [ .. | contradiction ]
  end.

Lemma re_m_inv s t r :
  In (t, r) (re_m s) -> s = t +:+ r /\ In t (map fst month_forms).
Proof.
  unfold re_m. intros H. inv_re; enum_classes;
    (split; [reflexivity | apply existsb_eqb_In; vm_compute; reflexivity]).
Qed.

Lemma re_d_inv s t r :
  In (t, r) (re_d s) -> s = t +:+ r /\ In t (map fst day_forms).
Proof.
  unfold re_d. intros H. inv_re; enum_classes;
    (split; [reflexivity | apply existsb_eqb_In; vm_compute; reflexivity]).
Qed.

Lemma py_int_month_form t m : In (t, m) month_forms -> py_int t = Some m.
Proof.
  intros I. assert (forallb form_ok month_forms = true) as F by (vm_compute; reflexivity).
  rewrite forallb_forall in F. specialize (F _ I). unfold form_ok in F. simpl in F.
  destruct (py_int t); [|discriminate]. apply Z.eqb_eq in F. now subst.
Qed.

Lemma py_int_day_form t d : In (t, d) day_forms -> py_int t = Some d.
Proof.
  intros I. assert (forallb form_ok day_forms = true) as F by (vm_compute; reflexivity).
  rewrite forallb_forall in F. specialize (F _ I). unfold form_ok in F. simpl in F.
  destruct (py_int t); [|discriminate]. apply Z.eqb_eq in F. now subst.
Qed.

Lemma re_tail_forms tm m td d :
  In (tm, m) month_forms -> In (td, d) day_forms ->
  exists l, re_tail ("-" +:+ tm +:+ "-" +:+ td) = (tm, td, EmptyString) :: l.
Proof.
  intros Im Id.
  assert (forallb (fun fm => forallb (tail_ok fm) day_forms) month_forms = true) as F
    by (vm_compute; reflexivity).
  rewrite forallb_forall in F. specialize (F _ Im).
  rewrite forallb_forall in F. specialize (F _ Id).
  unfold tail_ok in F. simpl fst in F.
  destruct (re_tail _) as [|[[tm' td'] [|? ?]] l]; try discriminate.
  apply andb_true_iff in F. destruct F as [E1 E2].
  apply String.eqb_eq in E1, E2. subst. eauto.
Qed.

Lemma re_tail_inv s tm td r :
  In (tm, td, r) (re_tail s) ->
  s = "-" +:+ tm +:+ "-" +:+ td +:+ r
  /\ In tm (map fst month_forms) /\ In td (map fst day_forms).
Proof.
  unfold re_tail. rewrite in_flat_map. intros ([t1 r1] & H1 & H).
  rewrite in_flat_map in H. destruct H as ([t2 r2] & H2 & H).
  rewrite in_flat_map in H. destruct H as ([t3 r3] & H3 & H).
  apply in_map_iff in H. destruct H as ([t4 r4] & E & H4).
  injection E as <- <- <-.
  apply re_m_inv in H2. apply re_d_inv in H4.
  destruct H2 as [-> I2], H4 as [-> I4].
  inv_re. enum_classes.
  split; [| now split]. reflexivity.
Qed.

(** ** The year group *)

Lemma zfill4_digits c1 c2 c3 c4 :
  is_digit c1 = true -> is_digit c2 = true ->
  is_digit c3 = true -> is_digit c4 = true ->
  let t := String c1 (String c2 (String c3 (String c4 EmptyString))) in
  exists y, py_int t = Some y /\ 0 <= y <= 9999 /\ zfill4 y = t.
Proof.
  intros D1 D2 D3 D4 t.
  exists (1000 * digit_val c1 + 100 * digit_val c2 + 10 * digit_val c3 + digit_val c4).
  pose proof (proj1 (is_digit_spec c1) D1). pose proof (proj1 (is_digit_spec c2) D2).
  pose proof (proj1 (is_digit_spec c3) D3). pose proof (proj1 (is_digit_spec c4) D4).
  split; [| split; [lia|]].
  - unfold py_int, t. simpl lstrip. rewrite (is_digit_not_space c1 D1).
    simpl. rewrite D1, D2, D3, D4. f_equal. lia.
  - set (y := 1000 * digit_val c1 + 100 * digit_val c2 + 10 * digit_val c3 + digit_val c4).
    assert (y / 1000 mod 10 = digit_val c1 /\ y / 100 mod 10 = digit_val c2
            /\ y / 10 mod 10 = digit_val c3 /\ y mod 10 = digit_val c4)
      as (K1 & K2 & K3 & K4).
    { subst y. Z.div_mod_to_equations. lia. }
    unfold zfill4, zfill2, t. rewrite K1, K2, K3, K4.
    rewrite !digit_char_digit_val by assumption. reflexivity.
Qed.

Lemma re_Y_inv s t r :
  In (t, r) (re_Y s) ->
  s = t +:+ r /\ exists y, py_int t = Some y /\ 0 <= y <= 9999 /\ zfill4 y = t.
Proof.
  unfold re_Y. intros H. inv_re. split; [reflexivity|].
  cbv [String.append].
  match goal with
  | |- context [py_int (String ?a (String ?b (String ?c (String ?d _))))] =>
      apply (zfill4_digits a b c d); assumption
  end.
Qed.

Lemma zfill4_is_digits y :
  0 <= y <= 9999 ->
  exists c1 c2 c3 c4,
    zfill4 y = String c1 (String c2 (String c3 (String c4 EmptyString)))
    /\ is_digit c1 = true /\ is_digit c2 = true
    /\ is_digit c3 = true /\ is_digit c4 = true
    /\ y = 1000 * digit_val c1 + 100 * digit_val c2 + 10 * digit_val c3 + digit_val c4.
Proof.
  intros H. unfold zfill4, zfill2.
  set (k1 := y / 1000 mod 10). set (k2 := y / 100 mod 10).
  set (k3 := y / 10 mod 10). set (k4 := y mod 10).
  assert (0 <= k1 <= 9 /\ 0 <= k2 <= 9 /\ 0 <= k3 <= 9 /\ 0 <= k4 <= 9
          /\ y = 1000 * k1 + 100 * k2 + 10 * k3 + k4) as (B1 & B2 & B3 & B4 & E).
  { subst k1 k2 k3 k4. Z.div_mod_to_equations. lia. }
  exists (digit_char k1), (digit_char k2), (digit_char k3), (digit_char k4).
  rewrite !is_digit_digit_char, !digit_val_digit_char by assumption. auto 10.
Qed.

Lemma re_Y_zfill4 y r :
  0 <= y <= 9999 -> re_Y (zfill4 y +:+ r) = [(zfill4 y, r)].
Proof.
  intros H. destruct (zfill4_is_digits y H) as (c1 & c2 & c3 & c4 & -> & D1 & D2 & D3 & D4 & _).
  unfold is_digit in *. unfold re_Y, re_seq, re_digit, re_class. simpl.
  rewrite D1. simpl. rewrite D2. simpl. rewrite D3. simpl. rewrite D4. reflexivity.
Qed.

Lemma py_int_zfill4 y : 0 <= y <= 9999 -> py_int (zfill4 y) = Some y.
Proof.
  intros H. destruct (zfill4_is_digits y H) as (c1 & c2 & c3 & c4 & -> & D1 & D2 & D3 & D4 & E).
  unfold py_int. simpl lstrip. rewrite (is_digit_not_space c1 D1).
  simpl. rewrite D1, D2, D3, D4. f_equal. lia.
Qed.

(** ** What [strptime] accepts *)

Lemma in_date_texts s d :
  In s (date_texts d) <->
  exists tm td, In tm (month_texts (month d)) /\ In td (day_texts (day d))
    /\ s = zfill4 (year d) +:+ "-" +:+ tm +:+ "-" +:+ td.
Proof.
  unfold date_texts. rewrite in_flat_map. split.
  - intros (tm & Im & I). apply in_map_iff in I. destruct I as (td & <- & Id). eauto.
  - intros (tm & td & Im & Id & ->). exists tm. split; [assumption|].
    apply in_map_iff. eauto.
Qed.

Lemma in_map_fst_forms {A B : Type} (l : list (A * B)) a :
  In a (map fst l) -> exists b, In (a, b) l.
Proof.
  rewrite in_map_iff. intros ([a' b] & <- & I). eauto.
Qed.

Lemma days_in_month_bounds y m : 1 <= m <= 12 -> 28 <= _days_in_month y m <= 31.
Proof. intros H. rewrite days_in_month_dim. now apply dim_bounds. Qed.

Theorem strptime_spec s d :
  strptime s = Some d <-> valid_date d /\ In s (date_texts d).
Proof.
  split.
  - unfold strptime, _strptime. intros H.
    destruct (format_regex s) as [|[[[ty tm] td] rest] l] eqn:F; [discriminate|].
    destruct rest; [|discriminate].
    destruct (py_int ty) as [y|] eqn:Py; [|discriminate].
    destruct (py_int tm) as [m|] eqn:Pm; [|discriminate].
    destruct (py_int td) as [dd|] eqn:Pd; [|discriminate].
    unfold date_new in H. destruct (_check_date_fields y m dd) eqn:V; [|discriminate].
    injection H as <-. split; [exact V|].
    assert (In (ty, tm, td, EmptyString) (format_regex s)) as I by (rewrite F; now left).
    unfold format_regex in I. rewrite in_flat_map in I.
    destruct I as ([ty' r1] & IY & I). apply in_map_iff in I.
    destruct I as ([[tm' td'] r'] & E & IT). injection E as -> -> -> ->.
    apply re_Y_inv in IY. destruct IY as (-> & y' & Py' & _ & Z4).
    apply re_tail_inv in IT. destruct IT as (-> & Im & Id).
    apply in_map_fst_forms in Im, Id. destruct Im as [m' Im], Id as [d' Id].
    pose proof (py_int_month_form _ _ Im) as Pm'.
    pose proof (py_int_day_form _ _ Id) as Pd'.
    assert (y' = y) by congruence. assert (m' = m) by congruence.
    assert (d' = dd) by congruence. subst y' m' d'.
    apply in_month_forms in Im. apply in_day_forms in Id.
    apply in_date_texts. simpl. exists tm, td.
    split; [tauto | split; [tauto|]].
    rewrite Z4, append_nil_r. reflexivity.
  - intros [V I]. apply in_date_texts in I. destruct I as (tm & td & Im & Id & ->).
    pose proof V as V'. apply valid_date_fields in V'. destruct V' as (Hy & Hm & Hd).
    pose proof (days_in_month_bounds (year d) (month d) Hm) as Hb.
    assert (In (tm, month d) month_forms) as Fm by (apply in_month_forms; auto).
    assert (In (td, day d) day_forms) as Fd by (apply in_day_forms; split; [lia | auto]).
    destruct (re_tail_forms _ _ _ _ Fm Fd) as [l T].
    unfold strptime, _strptime, format_regex.
    rewrite re_Y_zfill4 by lia. simpl flat_map. rewrite T. simpl.
    rewrite py_int_zfill4 by lia.
    rewrite (py_int_month_form _ _ Fm), (py_int_day_form _ _ Fd).
    unfold date_new. unfold valid_date in V. rewrite V. now destruct d.
Qed.

Lemma strftime_in_date_texts d : In (strftime d) (date_texts d).
Proof.
  apply in_date_texts. exists (zfill2 (month d)), (zfill2 (day d)).
  split; [now left | split; [now left | reflexivity]].
Qed.

Lemma strptime_strftime d : valid_date d -> strptime (strftime d) = Some d.
Proof. intros V. apply strptime_spec. split; [assumption | apply strftime_in_date_texts]. Qed.

Lemma strptime_valid s d : strptime s = Some d -> valid_date d.
Proof. intros H. now apply strptime_spec in H. Qed.

(** ** The date of an ordinal, and runs of consecutive days *)

Lemma fromordinal_date_at o d : fromordinal o = Some d -> d = date_at o.
Proof.
  unfold fromordinal, date_at, date_new. destruct (_ord2ymd o) as [[y m] dd].
  destruct (_check_date_fields y m dd); congruence.
Qed.

Lemma date_at_spec o :
  1 <= o <= _MAXORDINAL ->
  valid_date (date_at o) /\ toordinal (date_at o) = o
  /\ fromordinal o = Some (date_at o).
Proof.
  intros H. destruct (fromordinal_toordinal o H) as (d & F & V & O).
  pose proof (fromordinal_date_at _ _ F) as ->. auto.
Qed.

Lemma date_at_toordinal d : valid_date d -> date_at (toordinal d) = d.
Proof.
  intros V. symmetry. apply fromordinal_date_at. now apply toordinal_fromordinal.
Qed.

Lemma add_days_1 d :
  valid_date d -> toordinal d < _MAXORDINAL ->
  add_days d 1 = Some (date_at (toordinal d + 1)).
Proof.
  intros V H. pose proof (toordinal_bounds d V).
  destruct (add_days_spec d 1 V ltac:(lia)) as (d' & A & V' & O).
  rewrite A. f_equal. rewrite <- O. symmetry. now apply date_at_toordinal.
Qed.

Lemma add_days_overflow d :
  valid_date d -> toordinal d = _MAXORDINAL -> add_days d 1 = None.
Proof. intros V H. unfold add_days. rewrite H. reflexivity. Qed.

Lemma days_from_length start n : length (days_from start n) = n.
Proof. unfold days_from. now rewrite length_map, length_seq. Qed.

Lemma days_from_cons start n :
  valid_date start -> toordinal start < _MAXORDINAL ->
  days_from start (S n) = start :: days_from (date_at (toordinal start + 1)) n.
Proof.
  intros V H. pose proof (toordinal_bounds start V).
  unfold days_from. simpl seq. simpl map.
  rewrite Z.add_0_r, date_at_toordinal by assumption. f_equal.
  rewrite <- seq_shift, map_map.
  destruct (date_at_spec (toordinal start + 1) ltac:(lia)) as (_ & -> & _).
  apply map_ext. intros i. f_equal. lia.
Qed.

Lemma days_from_nth start n i d :
  valid_date start -> toordinal start + Z.of_nat n <= _MAXORDINAL + 1 ->
  nth_error (days_from start n) i = Some d ->
  valid_date d /\ toordinal d = toordinal start + Z.of_nat i /\ (i < n)%nat.
Proof.
  intros V H E. pose proof (toordinal_bounds start V).
  unfold days_from in E. rewrite nth_error_map, nth_error_seq in E.
  destruct (Nat.ltb_spec i n) as [Hi|Hi]; [|discriminate].
  simpl in E. injection E as <-.
  destruct (date_at_spec (toordinal start + Z.of_nat i) ltac:(lia)) as (V' & O & _).
  auto.
Qed.

Lemma next_day_spec d :
  valid_date d -> toordinal d < _MAXORDINAL ->
  valid_date (next_day d) /\ toordinal (next_day d) = toordinal d + 1.
Proof.
  intros V Hmax. pose proof V as V0.
  apply valid_date_fields in V. destruct V as (Hy & Hm & Hd).
  unfold next_day.
  destruct (Z.ltb_spec (day d) (_days_in_month (year d) (month d))) as [L|L].
  - split; [apply valid_date_fields; simpl; lia|].
    unfold toordinal, _ymd2ord. simpl. lia.
  - assert (day d = _days_in_month (year d) (month d)) as Ed by lia.
    destruct (Z.ltb_spec (month d) 12) as [M|M].
    + split.
      * apply valid_date_fields. simpl.
        pose proof (days_in_month_bounds (year d) (month d + 1) ltac:(lia)). lia.
      * unfold toordinal, _ymd2ord. simpl.
        rewrite !days_before_month_dbm, dbm_next by lia.
        rewrite days_in_month_dim in Ed. lia.
    + assert (month d = 12) as Em by lia.
      assert (year d + 1 <= 9999) as Hy'.
      { destruct (Z_le_gt_dec (year d + 1) 9999) as [|G]; [assumption | exfalso].
        assert (year d = 9999) as E9 by lia.
        unfold toordinal, _ymd2ord in Hmax. rewrite Ed, Em, E9 in Hmax.
        vm_compute in Hmax. discriminate. }
      split.
      * apply valid_date_fields. simpl.
        pose proof (days_in_month_bounds (year d + 1) 1 ltac:(lia)). lia.
      * unfold toordinal, _ymd2ord. simpl.
        rewrite days_before_year_succ, Ed, Em.
        rewrite !days_before_month_dbm, days_in_month_dim.
        destruct (_is_leap (year d)); destruct (_is_leap (year d + 1));
          repeat match goal with
          | |- context [dbm ?b ?m] =>
              let v := eval vm_compute in (dbm b m) in change (dbm b m) with v
          | |- context [dim ?b ?m] =>
              let v := eval vm_compute in (dim b m) in change (dim b m) with v
          end; lia.
Qed.

Lemma next_day_unique d d' :
  valid_date d -> valid_date d' -> toordinal d' = toordinal d + 1 ->
  d' = next_day d.
Proof.
  intros V V' O. pose proof (toordinal_bounds d' V').
  destruct (next_day_spec d V ltac:(lia)) as [Vn On].
  apply toordinal_inj; [assumption .. | lia].
Qed.

(** ** The file system calls leave the call log and the output alone *)

Lemma same_log_refl w : same_log w w.
Proof. now unfold same_log. Qed.

Lemma same_log_trans w1 w2 w3 : same_log w1 w2 -> same_log w2 w3 -> same_log w1 w3.
Proof. unfold same_log. intros (-> & ->) (-> & ->). auto. Qed.

(** What [os.mkdir] keeps, [os.makedirs] keeps. *)
Section Frame.

Variable R : world -> world -> Prop.
Hypothesis R_refl : forall w, R w w.
Hypothesis R_trans : forall w1 w2 w3, R w1 w2 -> R w2 w3 -> R w1 w3.
Hypothesis R_mkdir : forall name w, R w (snd (mkdir name w)).

Lemma mkdir_exist_ok_frame name ok w : R w (snd (mkdir_exist_ok name ok w)).
Proof.
  unfold mkdir_exist_ok. pose proof (R_mkdir name w) as S.
  destruct (mkdir name w) as [[|[]|] w'] eqn:E; simpl in *; try exact S.
  destruct (negb ok || negb (isdir w' name)); exact S.
Qed.

Lemma ignore_file_exists_snd (m : M unit) w :
  snd (ignore_file_exists m w) = snd (m w).
Proof.
  unfold ignore_file_exists.
  destruct (m w) as [[|[|[]| | |]|] w']; reflexivity.
Qed.

Lemma makedirs_rec_frame fuel : forall name ok w,
  R w (snd (makedirs_rec fuel name ok w)).
Proof.
  induction fuel as [|fuel IH]; intros name ok w; [apply R_refl|].
  cbn [makedirs_rec]. cbv zeta.
  generalize (split_tail name). intros [head tail]. cbn [fst snd].
  destruct (nonempty head && nonempty tail && negb (exists_ w head));
    [|apply mkdir_exist_ok_frame].
  unfold bind.
  pose proof (IH head ok w) as S. rewrite <- ignore_file_exists_snd in S.
  destruct (ignore_file_exists (makedirs_rec fuel head ok) w) as [[[]|x|] w1];
    cbn [snd] in S |- *; try exact S.
  destruct (String.eqb tail curdir);
    [exact S | eapply R_trans; [exact S | apply mkdir_exist_ok_frame]].
Qed.

End Frame.

Lemma mkdir_same_log name w : same_log w (snd (mkdir name w)).
Proof.
  unfold mkdir.
  destruct (has_nul name); [apply same_log_refl|].
  destruct (negb (nonempty name)); [apply same_log_refl|].
  destruct (parent w name); try apply same_log_refl.
  destruct (_ || _); [apply same_log_refl | now unfold same_log].
Qed.

Lemma makedirs_same_log name ok w : same_log w (snd (makedirs name ok w)).
Proof.
  unfold makedirs.
  apply (makedirs_rec_frame same_log same_log_refl same_log_trans mkdir_same_log).
Qed.

(** The current directory stays where it is. *)
Lemma mkdir_cwd name w : cwd (snd (mkdir name w)) = cwd w.
Proof.
  unfold mkdir.
  destruct (has_nul name); [reflexivity|].
  destruct (negb (nonempty name)); [reflexivity|].
  destruct (parent w name); try reflexivity.
  destruct (_ || _); reflexivity.
Qed.

Lemma makedirs_cwd name ok w : cwd (snd (makedirs name ok w)) = cwd w.
Proof.
  unfold makedirs.
  apply (makedirs_rec_frame (fun a b => cwd b = cwd a)).
  - reflexivity.
  - intros w1 w2 w3 A B. congruence.
  - apply mkdir_cwd.
Qed.

Lemma place_cwd w w' p : cwd w' = cwd w -> place w' p = place w p.
Proof. intros E. unfold place, origin. now rewrite E. Qed.

(** The empty directory name cannot be created, in any world. *)
Lemma makedirs_empty ok w :
  makedirs EmptyString ok w = (Raise (OSError (FileNotFoundError EmptyString)), w).
Proof.
  unfold makedirs. simpl. unfold mkdir_exist_ok, mkdir. simpl.
  now rewrite orb_true_r.
Qed.

Section Run.

Variable P : providers.
Variable out : string.

Lemma weekday_range d : 0 <= weekday d < 7.
Proof. unfold weekday. apply Z.mod_pos_bound. lia. Qed.

Lemma getitem_weekday d :
  getitem WEEKDAY_NAMES (weekday d)
  = Some (nth (Z.to_nat (weekday d)) WEEKDAY_NAMES EmptyString).
Proof.
  pose proof (weekday_range d) as R. unfold getitem.
  replace ((0 <=? weekday d) && (weekday d <? Z.of_nat (length WEEKDAY_NAMES)))
    with true.
  - apply nth_error_nth'. simpl. lia.
  - symmetry. apply andb_true_iff. rewrite Z.leb_le, Z.ltb_lt. simpl. lia.
Qed.

Lemma make_row_run d w :
  make_row P d w
  = (Return (row_of P d),
     mkWorld (cwd w) (dirs w) (files w) (calls w ++ day_calls P d)%list (stdout w)).
Proof.
  unfold make_row, bind. rewrite getitem_weekday. unfold ret.
  unfold call_getLunar, call_is_holiday, call_is_workday, call_get_holiday_detail.
  unfold row_of, day_calls, log. simpl.
  destruct (is_holiday P d); simpl; rewrite <- !app_assoc; reflexivity.
Qed.

Lemma emit_all_frame days : forall w,
  dirs (emit_all P out days w) = dirs w /\ stdout (emit_all P out days w) = stdout w
  /\ calls (emit_all P out days w) = (calls w ++ flat_map (day_calls P) days)%list.
Proof.
  induction days as [|d days IH]; intros w; simpl.
  - now rewrite app_nil_r.
  - destruct (IH (emit P out w d)) as (-> & -> & ->). simpl.
    now rewrite <- app_assoc.
Qed.

Lemma emit_all_cwd days : forall w, cwd (emit_all P out days w) = cwd w.
Proof.
  induction days as [|d days IH]; intros w; simpl; [reflexivity|].
  now rewrite IH.
Qed.

Lemma emit_all_files days : forall w l,
  files w !! place w out = Some l ->
  files (emit_all P out days w) !! place w out
  = Some (l ++ map (fun d => Data (row_of P d)) days)%list.
Proof.
  induction days as [|d days IH]; intros w l H; simpl.
  - now rewrite app_nil_r.
  - change (place w out) with (place (emit P out w d) out).
    rewrite (IH (emit P out w d) (l ++ [Data (row_of P d)])%list).
    + now rewrite <- app_assoc.
    + simpl. change (place (emit P out w d) out) with (place w out).
      rewrite H. apply lookup_insert_eq.
Qed.

Lemma emit_all_other_files days k : forall w,
  k <> place w out -> files (emit_all P out days w) !! k = files w !! k.
Proof.
  induction days as [|d days IH]; intros w H; simpl; [reflexivity|].
  rewrite IH by exact H. simpl. apply lookup_insert_ne. congruence.
Qed.

(** The loop, exactly: with enough fuel it emits the remaining days and
    returns; otherwise it stops after [fuel] days. *)
Lemma while_loop_run end_ : forall fuel current n w,
  valid_date current -> valid_date end_ -> toordinal end_ < _MAXORDINAL ->
  toordinal current + Z.of_nat n = toordinal end_ + 1 ->
  while_loop P fuel out current end_ w
  = if (n <? fuel)%nat then (Return tt, emit_all P out (days_from current n) w)
    else (Timeout, emit_all P out (days_from current fuel) w).
Proof.
  induction fuel as [|fuel IH]; intros current n w Vc Ve Hmax Hn.
  - reflexivity.
  - simpl while_loop. rewrite date_le_toordinal by assumption.
    destruct n as [|n].
    + replace (toordinal current <=? toordinal end_) with false
        by (symmetry; apply Z.leb_gt; lia).
      reflexivity.
    + replace (toordinal current <=? toordinal end_) with true
        by (symmetry; apply Z.leb_le; lia).
      unfold bind at 1. rewrite make_row_run.
      unfold bind at 1. unfold write_line at 1. cbn [cwd files dirs calls stdout].
      unfold bind at 1. rewrite add_days_1 by (assumption || lia). unfold ret at 1.
      destruct (date_at_spec (toordinal current + 1)) as (V' & O' & _).
      { pose proof (toordinal_bounds current Vc). lia. }
      rewrite (IH _ n) by (assumption || lia).
      rewrite !days_from_cons by (assumption || lia).
      change (S n <? S fuel)%nat with (n <? fuel)%nat.
      reflexivity.
Qed.

(** The loop stops for every pair of dates, also at the end of the
    calendar, where the step to the next day raises [OverflowError]. *)
Lemma while_loop_terminates end_ : forall n fuel current w,
  valid_date current -> valid_date end_ ->
  toordinal current + Z.of_nat n = toordinal end_ + 1 ->
  (n < fuel)%nat ->
  terminated (fst (while_loop P fuel out current end_ w)) = true.
Proof.
  induction n as [|n IH]; intros fuel current w Vc Ve Hn Hf;
    (destruct fuel as [|fuel]; [lia|]);
    simpl while_loop; rewrite date_le_toordinal by assumption.
  - replace (toordinal current <=? toordinal end_) with false
      by (symmetry; apply Z.leb_gt; lia).
    reflexivity.
  - replace (toordinal current <=? toordinal end_) with true
      by (symmetry; apply Z.leb_le; lia).
    unfold bind at 1. rewrite make_row_run.
    unfold bind at 1. unfold write_line at 1. cbn [cwd files dirs calls stdout].
    unfold bind at 1.
    pose proof (toordinal_bounds current Vc) as B.
    destruct (Z.eq_dec (toordinal current) _MAXORDINAL) as [E|N].
    + rewrite add_days_overflow by assumption. reflexivity.
    + rewrite add_days_1 by (assumption || lia). unfold ret at 1.
      destruct (date_at_spec (toordinal current + 1)) as (V' & O' & _); [lia|].
      apply IH; (assumption || lia).
Qed.

End Run.

(** ** Runs of [generate_calendar_csv] *)

Section Generate.

Variable P : providers.

Lemma generate_unparsed fuel s e out w :
  strptime s = None \/ strptime e = None ->
  generate_calendar_csv P fuel s e out w = (Raise (ValueError FormatError), w).
Proof.
  intros H. unfold generate_calendar_csv, bind.
  destruct (strptime s); [destruct (strptime e)|]; try reflexivity.
  destruct H; discriminate.
Qed.

Lemma generate_parsed fuel s e out w start end_ :
  strptime s = Some start -> strptime e = Some end_ ->
  generate_calendar_csv P fuel s e out w
  = if date_gt start end_ then (Raise (ValueError OrderError), w)
    else if (year start <? CHINESE_CALENDAR_MIN_YEAR)
            || (CHINESE_CALENDAR_MAX_YEAR <? year end_)
    then (Raise (ValueError (RangeError start end_)), w)
    else
      match makedirs (dirname out) true w with
      | (Return _, w1) =>
          match open_w out w1 with
          | (Return _, w2) =>
              match while_loop P fuel out start end_ (with_header out w2) with
              | (Return _, w3) => print (done_message out) w3
              | (Raise x, w3) => (Raise x, w3)
              | (Timeout, w3) => (Timeout, w3)
              end
          | (Raise x, w2) => (Raise x, w2)
          | (Timeout, w2) => (Timeout, w2)
          end
      | (Raise x, w1) => (Raise x, w1)
      | (Timeout, w1) => (Timeout, w1)
      end.
Proof.
  intros Hs He.
  unfold generate_calendar_csv, bind, validate_date_range, ret, raise, with_header.
  rewrite Hs, He. cbn [fst snd].
  destruct (date_gt start end_); [reflexivity|].
  destruct ((year start <? CHINESE_CALENDAR_MIN_YEAR)
            || (CHINESE_CALENDAR_MAX_YEAR <? year end_)); [reflexivity|].
  destruct (makedirs (dirname out) true w) as [[[]|x|] w1]; reflexivity.
Qed.

Lemma open_w_same_log path w : same_log w (snd (open_w path w)).
Proof.
  unfold open_w.
  destruct (has_nul path); [apply same_log_refl|].
  destruct (negb (nonempty path)); [apply same_log_refl|].
  destruct (parent w path); try apply same_log_refl.
  destruct (_ || _); [apply same_log_refl | now unfold same_log].
Qed.

Lemma open_w_cwd path w : cwd (snd (open_w path w)) = cwd w.
Proof.
  unfold open_w.
  destruct (has_nul path); [reflexivity|].
  destruct (negb (nonempty path)); [reflexivity|].
  destruct (parent w path); try reflexivity.
  destruct (_ || _); reflexivity.
Qed.

(** What [open] has checked and done when it returns. *)
Lemma open_w_returns path w w' :
  open_w path w = (Return tt, w') ->
  has_nul path = false /\ nonempty path = true
  /\ is_Dir (parent w path) = true
  /\ names_a_dir path = false /\ dir_at w (place w path) = false
  /\ w' = mkWorld (cwd w) (dirs w) (<[ place w path := [] ]> (files w))
             (calls w) (stdout w).
Proof.
  unfold open_w.
  destruct (has_nul path); [discriminate|].
  destruct (nonempty path); [|discriminate]. cbn [negb].
  destruct (parent w path); try discriminate.
  destruct (names_a_dir path); [discriminate|].
  destruct (dir_at w (place w path)); [discriminate|].
  cbn [orb]. intros [= <-]. auto 10.
Qed.

Lemma open_w_files path w w' :
  open_w path w = (Return tt, w') -> files w' !! place w path = Some [].
Proof.
  intros H. destruct (open_w_returns _ _ _ H) as (_ & _ & _ & _ & _ & ->).
  simpl. apply lookup_insert_eq.
Qed.

Lemma mkdir_raises name w x : fst (mkdir name w) = Raise x -> os_failure x.
Proof.
  unfold mkdir, os_failure.
  destruct (has_nul name); [simpl; intros [= <-]; eauto|].
  destruct (negb (nonempty name)); [simpl; intros [= <-]; eauto|].
  destruct (parent w name); try (simpl; intros [= <-]; eauto).
  destruct (_ || _); simpl; [intros [= <-]; eauto | discriminate].
Qed.

Lemma mkdir_exist_ok_raises name ok w x :
  fst (mkdir_exist_ok name ok w) = Raise x -> os_failure x.
Proof.
  unfold mkdir_exist_ok. pose proof (mkdir_raises name w) as R.
  destruct (mkdir name w) as [[a|[v|o| | |]|] w']; simpl in *; intros H;
    try discriminate; try (now apply R).
  destruct (negb ok || negb (isdir w' name)); simpl in H;
    [injection H as <-; left; eauto | discriminate].
Qed.

Lemma ignore_file_exists_raises (m : M unit) w x :
  fst (ignore_file_exists m w) = Raise x -> fst (m w) = Raise x.
Proof.
  unfold ignore_file_exists.
  destruct (m w) as [[|[|[]| | |]|] w']; simpl; congruence.
Qed.

Lemma makedirs_rec_raises fuel : forall name ok w x,
  fst (makedirs_rec fuel name ok w) = Raise x -> os_failure x.
Proof.
  induction fuel as [|fuel IH]; intros name ok w x; [discriminate|].
  cbn [makedirs_rec]. cbv zeta.
  generalize (split_tail name). intros [head tail]. cbn [fst snd].
  destruct (nonempty head && nonempty tail && negb (exists_ w head));
    [|apply mkdir_exist_ok_raises].
  unfold bind.
  pose proof (ignore_file_exists_raises (makedirs_rec fuel head ok) w) as R.
  destruct (ignore_file_exists (makedirs_rec fuel head ok) w) as [[[]|x1|] w1];
    cbn [fst] in R |- *.
  - destruct (String.eqb tail curdir);
      [discriminate | apply mkdir_exist_ok_raises].
  - intros [= <-]. eapply IH. now apply R.
  - discriminate.
Qed.

Lemma open_w_raises path w x : fst (open_w path w) = Raise x -> os_failure x.
Proof.
  unfold open_w, os_failure.
  destruct (has_nul path); [simpl; intros [= <-]; eauto|].
  destruct (negb (nonempty path)); [simpl; intros [= <-]; eauto|].
  destruct (parent w path); try (simpl; intros [= <-]; eauto).
  destruct (_ || _); simpl; [intros [= <-]; eauto | discriminate].
Qed.

Lemma while_loop_raises out end_ fuel : forall current w x,
  fst (while_loop P fuel out current end_ w) = Raise x -> x = OverflowError.
Proof.
  induction fuel as [|fuel IH]; intros current w x; [discriminate|].
  simpl while_loop. destruct (date_le current end_); [|discriminate].
  unfold bind at 1. rewrite make_row_run.
  unfold bind at 1. unfold write_line at 1.
  unfold bind at 1.
  destruct (add_days current 1) as [d|]; [apply IH|].
  simpl. congruence.
Qed.

(** The exceptions of a run: the three validation errors, raised before
    any effect, or a failure of the file system, or the overflow of the
    date. *)
Lemma generate_raise_cases fuel s e out w x :
  fst (generate_calendar_csv P fuel s e out w) = Raise x ->
  (x = ValueError FormatError
   /\ (strptime s = None \/ strptime e = None)
   /\ snd (generate_calendar_csv P fuel s e out w) = w)
  \/ exists start end_,
       strptime s = Some start /\ strptime e = Some end_
       /\ ((x = ValueError OrderError /\ date_gt start end_ = true
            /\ snd (generate_calendar_csv P fuel s e out w) = w)
           \/ (x = ValueError (RangeError start end_)
               /\ date_gt start end_ = false
               /\ (year start < CHINESE_CALENDAR_MIN_YEAR
                   \/ CHINESE_CALENDAR_MAX_YEAR < year end_)
               /\ snd (generate_calendar_csv P fuel s e out w) = w)
           \/ os_failure x
           \/ x = OverflowError).
Proof.
  destruct (strptime s) as [start|] eqn:Hs; [destruct (strptime e) as [end_|] eqn:He|].
  - rewrite (generate_parsed _ _ _ _ _ _ _ Hs He). intros H.
    right. exists start, end_. split; [reflexivity|]. split; [reflexivity|].
    destruct (date_gt start end_); [simpl in *; injection H as <-; auto|].
    destruct ((year start <? CHINESE_CALENDAR_MIN_YEAR)
              || (CHINESE_CALENDAR_MAX_YEAR <? year end_)) eqn:R.
    { simpl in *. injection H as <-. right. left.
      apply orb_true_iff in R. rewrite !Z.ltb_lt in R. auto. }
    right. right.
    pose proof (makedirs_rec_raises (S (String.length (dirname out))) (dirname out) true w) as R1.
    fold (makedirs (dirname out) true) in R1.
    destruct (makedirs (dirname out) true w) as [[[]|x1|] w1]; simpl in R1, H.
    + pose proof (open_w_raises out w1) as R2.
      destruct (open_w out w1) as [[[]|x2|] w2]; simpl in R2, H.
      * pose proof (while_loop_raises out end_ fuel start (with_header out w2)) as R3.
        destruct (while_loop P fuel out start end_ _) as [[[]|x3|] w3]; simpl in R3, H.
        -- discriminate.
        -- injection H as <-. right. now apply R3.
        -- discriminate.
      * injection H as <-. left. now apply R2.
      * discriminate.
    + injection H as <-. left. now apply R1.
    + discriminate.
  - rewrite generate_unparsed by auto. simpl. intros [= <-]. auto.
  - rewrite generate_unparsed by auto. simpl. intros [= <-]. auto.
Qed.

(** For dates in order, the run raises the range error exactly when a
    year is outside the supported span. *)
Lemma generate_range_error fuel s e out w start end_ :
  strptime s = Some start -> strptime e = Some end_ ->
  date_gt start end_ = false ->
  (fst (generate_calendar_csv P fuel s e out w)
   = Raise (ValueError (RangeError start end_))
   <-> year start < CHINESE_CALENDAR_MIN_YEAR
       \/ CHINESE_CALENDAR_MAX_YEAR < year end_).
Proof.
  intros Hs He Ho. split.
  - intros H.
    destruct (generate_raise_cases _ _ _ _ _ _ H)
      as [(C & _) | (start' & end' & Hs' & He' & [C|[C|[C|C]]])];
      try discriminate.
    + destruct C as [C _]. discriminate.
    + assert (start' = start) by congruence. assert (end' = end_) by congruence.
      subst. tauto.
    + destruct C as [[o C]|C]; discriminate.
  - intros H. rewrite (generate_parsed _ _ _ _ _ _ _ Hs He), Ho.
    replace ((year start <? CHINESE_CALENDAR_MIN_YEAR)
             || (CHINESE_CALENDAR_MAX_YEAR <? year end_)) with true; [reflexivity|].
    symmetry. apply orb_true_iff. rewrite !Z.ltb_lt. exact H.
Qed.

Lemma year_max_ordinal d :
  valid_date d -> year d <= CHINESE_CALENDAR_MAX_YEAR -> toordinal d < _MAXORDINAL.
Proof.
  intros V H. pose proof (day_of_year_bounds d V) as B.
  unfold toordinal, _ymd2ord.
  pose proof (days_before_year_succ (year d)) as S.
  pose proof (days_before_year_mono (year d + 1) (CHINESE_CALENDAR_MAX_YEAR + 1)
                ltac:(lia)) as M.
  change (_days_before_year (CHINESE_CALENDAR_MAX_YEAR + 1)) with 741442 in M.
  unfold _MAXORDINAL. destruct (_is_leap (year d)); lia.
Qed.

(** A run on validated dates, once the file is open: the days are written
    in order and the message printed, given fuel for them all. *)
Lemma generate_opened fuel s e out w start end_ w1 w2 n :
  strptime s = Some start -> strptime e = Some end_ ->
  date_gt start end_ = false ->
  CHINESE_CALENDAR_MIN_YEAR <= year start ->
  year end_ <= CHINESE_CALENDAR_MAX_YEAR ->
  makedirs (dirname out) true w = (Return tt, w1) ->
  open_w out w1 = (Return tt, w2) ->
  toordinal start + Z.of_nat n = toordinal end_ + 1 ->
  generate_calendar_csv P fuel s e out w
  = if (n <? fuel)%nat
    then print (done_message out)
           (emit_all P out (days_from start n) (with_header out w2))
    else (Timeout, emit_all P out (days_from start fuel) (with_header out w2)).
Proof.
  intros Hs He Ho Hmin Hmax Hd Hop Hn.
  rewrite (generate_parsed _ _ _ _ _ _ _ Hs He), Ho.
  replace ((year start <? CHINESE_CALENDAR_MIN_YEAR)
           || (CHINESE_CALENDAR_MAX_YEAR <? year end_)) with false
    by (symmetry; apply orb_false_iff; rewrite !Z.ltb_ge; auto).
  rewrite Hd, Hop.
  pose proof (strptime_valid _ _ Hs) as Vs. pose proof (strptime_valid _ _ He) as Ve.
  rewrite (while_loop_run P out end_ fuel start n) by
    (assumption || now apply year_max_ordinal).
  destruct (n <? fuel)%nat; reflexivity.
Qed.

(** What a completed run has done. *)
Lemma generate_success fuel s e out w w' :
  generate_calendar_csv P fuel s e out w = (Return tt, w') ->
  exists start end_ n w2,
    strptime s = Some start /\ strptime e = Some end_
    /\ valid_date start /\ valid_date end_
    /\ CHINESE_CALENDAR_MIN_YEAR <= year start
    /\ year end_ <= CHINESE_CALENDAR_MAX_YEAR
    /\ toordinal start + Z.of_nat n = toordinal end_ + 1
    /\ (0 < n < fuel)%nat
    /\ same_log w w2
    /\ cwd w2 = cwd w
    /\ files (with_header out w2) !! place w out = Some [Header fieldnames]
    /\ w' = snd (print (done_message out)
                  (emit_all P out (days_from start n) (with_header out w2))).
Proof.
  intros H.
  destruct (strptime s) as [start|] eqn:Hs;
    [|rewrite generate_unparsed in H by auto; discriminate].
  destruct (strptime e) as [end_|] eqn:He;
    [|rewrite generate_unparsed in H by auto; discriminate].
  pose proof (strptime_valid _ _ Hs) as Vs. pose proof (strptime_valid _ _ He) as Ve.
  pose proof H as H0. rewrite (generate_parsed _ _ _ _ _ _ _ Hs He) in H.
  destruct (date_gt start end_) eqn:Ho; [discriminate|].
  destruct ((year start <? CHINESE_CALENDAR_MIN_YEAR)
            || (CHINESE_CALENDAR_MAX_YEAR <? year end_)) eqn:Hr; [discriminate|].
  apply orb_false_iff in Hr. rewrite !Z.ltb_ge in Hr. destruct Hr as [Hmin Hmax].
  pose proof (makedirs_same_log (dirname out) true w) as L1.
  destruct (makedirs (dirname out) true w) as [[[]|x|] w1] eqn:Hd; try discriminate.
  destruct (open_w out w1) as [[[]|x|] w2] eqn:Hop; try discriminate.
  clear H.
  rewrite date_gt_toordinal in Ho by assumption. apply Z.ltb_ge in Ho.
  set (n := Z.to_nat (toordinal end_ + 1 - toordinal start)).
  assert (toordinal start + Z.of_nat n = toordinal end_ + 1) as Hn by lia.
  rewrite (generate_opened fuel s e out w start end_ w1 w2 n) in H0;
    try assumption;
    [| rewrite date_gt_toordinal by assumption; apply Z.ltb_ge; lia].
  destruct (Nat.ltb_spec n fuel) as [Hf|Hf]; [|discriminate].
  exists start, end_, n, w2.
  repeat (split; [first [reflexivity | assumption | lia]|]).
  assert (cwd w2 = cwd w) as Ec.
  { pose proof (open_w_cwd out w1) as C2. rewrite Hop in C2. cbn [snd] in C2.
    pose proof (makedirs_cwd (dirname out) true w) as C1. rewrite Hd in C1.
    cbn [snd] in C1. congruence. }
  split; [|split; [exact Ec|split]].
  - eapply same_log_trans; [exact L1|].
    pose proof (open_w_same_log out w1) as L2. now rewrite Hop in L2.
  - rewrite (place_cwd w2 w out (eq_sym Ec)).
    unfold with_header, write_line. cbn [snd files].
    rewrite lookup_insert_eq.
    assert (cwd w2 = cwd w1) as E2
      by (pose proof (open_w_cwd out w1) as C2; now rewrite Hop in C2).
    rewrite (place_cwd w1 w2 out E2).
    now rewrite (open_w_files _ _ _ Hop).
  - unfold print in H0 |- *. simpl in *. congruence.
Qed.

End Generate.

Lemma rows_of_lines_data (l : list row) : rows_of_lines (map Data l) = l.
Proof.
  unfold rows_of_lines. induction l as [|r l IH]; [reflexivity|].
  simpl. now rewrite IH.
Qed.

Lemma date_gt_negb_le a b : date_gt a b = negb (date_le a b).
Proof. unfold date_gt, date_le. now destruct (_cmp a b). Qed.

Section Rows.

Variable P : providers.

(** The rows and the calls of a completed run. *)
Lemma emitted_rows_success fuel s e out w w' :
  generate_calendar_csv P fuel s e out w = (Return tt, w') ->
  exists start end_ n,
    strptime s = Some start /\ strptime e = Some end_
    /\ valid_date start /\ valid_date end_
    /\ CHINESE_CALENDAR_MIN_YEAR <= year start
    /\ year end_ <= CHINESE_CALENDAR_MAX_YEAR
    /\ toordinal start + Z.of_nat n = toordinal end_ + 1
    /\ (0 < n < fuel)%nat
    /\ files w' !! place w out
       = Some (Header fieldnames :: map Data (map (row_of P) (days_from start n)))
    /\ emitted_rows P fuel s e out w = map (row_of P) (days_from start n)
    /\ calls w' = (calls w ++ flat_map (day_calls P) (days_from start n))%list
    /\ stdout w' = (stdout w ++ [done_message out])%list
    /\ cwd w' = cwd w.
Proof.
  intros H.
  destruct (generate_success P _ _ _ _ _ _ H)
    as (start & end_ & n & w2 & Hs & He & Vs & Ve & Hmin & Hmax & Hn & Hf & L & Ec
        & Hh & ->).
  exists start, end_, n. repeat (split; [assumption|]).
  assert (cwd (with_header out w2) = cwd w) as Eh by exact Ec.
  assert (cwd (snd (print (done_message out)
                      (emit_all P out (days_from start n) (with_header out w2))))
          = cwd w) as Ew.
  { unfold print. cbn [snd cwd]. now rewrite emit_all_cwd. }
  assert (files (snd (print (done_message out)
                   (emit_all P out (days_from start n) (with_header out w2))))
            !! place w out
          = Some (Header fieldnames :: map Data (map (row_of P) (days_from start n))))
    as F.
  { simpl. rewrite <- (place_cwd w (with_header out w2) out Eh) in Hh |- *.
    rewrite (emit_all_files P out _ _ _ Hh). now rewrite map_map. }
  split; [exact F|]. split; [|split; [|split; [|exact Ew]]].
  - unfold emitted_rows. rewrite H. rewrite (place_cwd w _ out Ew), F. simpl.
    apply rows_of_lines_data.
  - simpl. destruct (emit_all_frame P out (days_from start n) (with_header out w2))
      as (_ & _ & ->).
    change (calls (with_header out w2)) with (calls w2).
    destruct L as [-> _]. reflexivity.
  - simpl. destruct (emit_all_frame P out (days_from start n) (with_header out w2))
      as (_ & -> & _).
    change (stdout (with_header out w2)) with (stdout w2).
    destruct L as [_ ->]. reflexivity.
Qed.

(** Every emitted row is the row of a valid date of the range. *)
Lemma emitted_row_inv fuel s e out w r :
  In r (emitted_rows P fuel s e out w) ->
  exists d, valid_date d /\ r = row_of P d
    /\ exists start end_ n,
         strptime s = Some start /\ strptime e = Some end_
         /\ toordinal start + Z.of_nat n = toordinal end_ + 1
         /\ In d (days_from start n)
         /\ toordinal start <= toordinal d <= toordinal end_
         /\ calls (snd (generate_calendar_csv P fuel s e out w))
            = (calls w ++ flat_map (day_calls P) (days_from start n))%list.
Proof.
  intros I.
  destruct (generate_calendar_csv P fuel s e out w) as [[[]|x|] w'] eqn:G;
    try (unfold emitted_rows in I; rewrite G in I; contradiction).
  destruct (emitted_rows_success _ _ _ _ _ _ G)
    as (start & end_ & n & Hs & He & Vs & Ve & Hmin & Hmax & Hn & Hf & _ & R & C & _).
  rewrite R in I. apply in_map_iff in I. destruct I as (d & <- & Id).
  destruct (In_nth_error _ _ Id) as [i Hi].
  pose proof (toordinal_bounds end_ Ve) as Be.
  destruct (days_from_nth start n i d Vs ltac:(lia) Hi) as (Vd & Od & Hin).
  exists d. split; [assumption|]. split; [reflexivity|].
  exists start, end_, n. simpl. repeat (split; [assumption || lia|]). assumption.
Qed.

End Rows.

(** ** [os.makedirs] returns *)

Lemma rfind_from_bounds p : forall pos,
  rfind_from p pos = -1
  \/ pos <= rfind_from p pos < pos + Z.of_nat (String.length p).
Proof.
  induction p as [|c p IH]; intros pos; simpl rfind_from; [now left|].
  destruct (IH (pos + 1)) as [E|B].
  - rewrite E. simpl. destruct (Ascii.eqb c sep); [right | now left].
    simpl String.length. lia.
  - destruct (Z.leb_spec 0 (rfind_from p (pos + 1))).
    + right. simpl String.length. lia.
    + destruct (Ascii.eqb c sep); [right | now left]. simpl String.length. lia.
Qed.

Lemma length_substring_le n m s : (String.length (substring n m s) <= m)%nat.
Proof.
  revert n m. induction s as [|c s IH]; intros n m.
  - destruct n, m; simpl; lia.
  - destruct n as [|n]; [destruct m as [|m]|]; simpl.
    + lia.
    + specialize (IH 0%nat m). lia.
    + apply IH.
Qed.

Lemma length_rstrip_sep p : (String.length (rstrip_sep p) <= String.length p)%nat.
Proof.
  induction p as [|c p IH]; simpl; [lia|].
  destruct (rstrip_sep p); [destruct (Ascii.eqb c sep)|]; simpl in *; lia.
Qed.

Lemma split_length p :
  (String.length (fst (split p)) + String.length (snd (split p))
   <= String.length p)%nat.
Proof.
  unfold split. cbv zeta. cbn [fst snd].
  set (i := rfind p + 1).
  assert (0 <= i <= Z.of_nat (String.length p)) as Hi.
  { subst i. unfold rfind. destruct (rfind_from_bounds p 0); lia. }
  pose proof (length_substring_le 0 (Z.to_nat i) p) as H1.
  pose proof (length_substring_le (Z.to_nat i) (String.length p - Z.to_nat i) p) as H2.
  fold (slice_to i p) in H1. fold (slice_from i p) in H2.
  pose proof (length_rstrip_sep (slice_to i p)) as H3.
  destruct (nonempty (slice_to i p) && negb (all_sep (slice_to i p))); lia.
Qed.

Lemma nonempty_length p : nonempty p = true -> (0 < String.length p)%nat.
Proof. destruct p; simpl; [discriminate | lia]. Qed.

Lemma split_tail_length name :
  nonempty (snd (split_tail name)) = true ->
  (String.length (fst (split_tail name)) < String.length name)%nat.
Proof.
  unfold split_tail. pose proof (split_length name) as H1.
  destruct (split name) as [head tail]. cbn [fst snd] in H1.
  destruct (nonempty tail) eqn:T; cbn [fst snd].
  - intros _. apply nonempty_length in T. lia.
  - intros T'. pose proof (split_length head) as H2.
    apply nonempty_length in T'. lia.
Qed.

Lemma mkdir_terminates name w : terminated (fst (mkdir name w)) = true.
Proof.
  unfold mkdir.
  destruct (has_nul name); [reflexivity|].
  destruct (negb (nonempty name)); [reflexivity|].
  destruct (parent w name); try reflexivity.
  destruct (_ || _); reflexivity.
Qed.

Lemma mkdir_exist_ok_terminates name ok w :
  terminated (fst (mkdir_exist_ok name ok w)) = true.
Proof.
  unfold mkdir_exist_ok. pose proof (mkdir_terminates name w) as T.
  destruct (mkdir name w) as [[|[| | | |]|] w']; try exact T; try reflexivity.
  destruct (negb ok || negb (isdir w' name)); reflexivity.
Qed.

Lemma ignore_file_exists_terminates (m : M unit) w :
  terminated (fst (m w)) = true ->
  terminated (fst (ignore_file_exists m w)) = true.
Proof.
  unfold ignore_file_exists.
  destruct (m w) as [[|[|[]| | |]|] w']; simpl; congruence.
Qed.

Lemma makedirs_rec_terminates fuel : forall name ok w,
  (String.length name < fuel)%nat ->
  terminated (fst (makedirs_rec fuel name ok w)) = true.
Proof.
  induction fuel as [|fuel IH]; intros name ok w Hf; [lia|].
  cbn [makedirs_rec]. cbv zeta.
  destruct (nonempty (fst (split_tail name)) && nonempty (snd (split_tail name))
            && negb (exists_ w (fst (split_tail name)))) eqn:C;
    [|apply mkdir_exist_ok_terminates].
  apply andb_true_iff in C. destruct C as [C _].
  apply andb_true_iff in C. destruct C as [_ C].
  apply split_tail_length in C.
  unfold bind.
  pose proof (ignore_file_exists_terminates _ w
                (IH (fst (split_tail name)) ok w ltac:(lia))) as T.
  destruct (ignore_file_exists (makedirs_rec fuel (fst (split_tail name)) ok) w)
    as [[[]|x|] w1]; cbn [fst] in T |- *; try reflexivity; try discriminate.
  destruct (String.eqb (snd (split_tail name)) curdir);
    [reflexivity | apply mkdir_exist_ok_terminates].
Qed.

Lemma makedirs_terminates name ok w : terminated (fst (makedirs name ok w)) = true.
Proof. apply makedirs_rec_terminates. lia. Qed.

Lemma open_w_terminates path w : terminated (fst (open_w path w)) = true.
Proof.
  unfold open_w.
  destruct (has_nul path); [reflexivity|].
  destruct (negb (nonempty path)); [reflexivity|].
  destruct (parent w path); try reflexivity.
  destruct (_ || _); reflexivity.
Qed.

(** * The properties of the exporter *)

(** ** The re-derivation of the spec agrees with [datetime] and [strftime] *)

Lemma is_leap_cases y :
  (_is_leap y = true /\ y mod 4 = 0 /\ (y mod 100 <> 0 \/ y mod 400 = 0))
  \/ (_is_leap y = false /\ (y mod 4 <> 0 \/ (y mod 100 = 0 /\ y mod 400 <> 0))).
Proof.
  destruct (_is_leap y) eqn:E.
  - left. apply is_leap_spec in E. tauto.
  - right. split; [reflexivity|].
    destruct (Z.eq_dec (y mod 4) 0) as [A|A]; [|now left].
    destruct (Z.eq_dec (y mod 100) 0) as [B|B].
    + destruct (Z.eq_dec (y mod 400) 0) as [C|C]; [|now right].
      assert (_is_leap y = true) by (apply is_leap_spec; tauto). congruence.
    + assert (_is_leap y = true) by (apply is_leap_spec; tauto). congruence.
Qed.

(** Zeller's congruence gives the weekday that [datetime] computes from
    the ordinal. *)
Lemma weekday_zeller y m d :
  1 <= y -> 1 <= m <= 12 ->
  weekday (mkdate y m d) = spec_weekday_from_monday y m d.
Proof.
  intros Hy Hm.
  unfold weekday, toordinal, _ymd2ord, _days_before_year, spec_weekday_from_monday.
  cbn [year month day]. rewrite days_before_month_dbm. cbv zeta.
  destruct (is_leap_cases y) as [(-> & L) | (-> & L)];
    each_month m Hm;
    match goal with
    | |- context [dbm ?b ?m] =>
        let v := eval vm_compute in (dbm b m) in change (dbm b m) with v
    end;
    cbn [Z.ltb Z.compare Pos.compare Pos.compare_cont Z.add Pos.add Pos.succ Z.mul Pos.mul];
    Z.div_mod_to_equations; lia.
Qed.

(** The scenario of the spec, section 8: 1 January 2025 is a Wednesday. *)
Example spec_weekday_scenario :
  spec_weekday_from_monday 2025 1 1 = 2 /\ spec_weekday_name 2025 1 1 = "周三".
Proof. split; reflexivity. Qed.

Lemma spec_parse_date_strftime d :
  valid_date d ->
  spec_parse_date (strftime d) = Some (year d, month d, day d).
Proof.
  intros V. apply valid_date_fields in V. destruct V as (Hy & Hm & Hd).
  pose proof (days_in_month_bounds (year d) (month d) Hm) as B.
  unfold strftime, zfill4, zfill2, spec_parse_date. cbv [String.append].
  rewrite !is_digit_digit_char by (Z.div_mod_to_equations; lia).
  rewrite !digit_val_digit_char by (Z.div_mod_to_equations; lia).
  cbn [andb Ascii.eqb Bool.eqb]. do 2 f_equal; [f_equal|];
    Z.div_mod_to_equations; lia.
Qed.

Lemma decade_label_thresholds d :
  1 <= d -> shang_zhong_xia_of d = spec_decade_of_month d.
Proof.
  intros H. unfold shang_zhong_xia_of, spec_decade_of_month, spec_decade_of_day.
  destruct (Z.ltb_spec d 11), (Z.ltb_spec d 21);
    destruct (Z.leb_spec 1 d), (Z.leb_spec d 10), (Z.leb_spec 11 d),
             (Z.leb_spec d 20); cbn [andb]; try lia; reflexivity.
Qed.

(** C1.  For validated dates [start <= end] of the supported years, once
    the output directory and file can be created, a run with fuel for
    every day returns normally, and the file holds the header and one row
    per day of [[start, end]]: the number of rows is the inclusive day
    count, the date of row [i] reads back as the date [i] days after
    [start], the date of each row is followed by its next calendar day,
    the first row is [start] and the last is [end]. *)
Theorem generate_one_row_per_day (P : providers) (fuel : nat)
    (s e out : string) (w w1 w2 : world) (start end_ : date) :
  strptime s = Some start -> strptime e = Some end_ ->
  date_le start end_ = true ->
  CHINESE_CALENDAR_MIN_YEAR <= year start ->
  year end_ <= CHINESE_CALENDAR_MAX_YEAR ->
  makedirs (dirname out) true w = (Return tt, w1) ->
  open_w out w1 = (Return tt, w2) ->
  toordinal end_ - toordinal start + 1 < Z.of_nat fuel ->
  let run := generate_calendar_csv P fuel s e out w in
  let rows := emitted_rows P fuel s e out w in
  fst run = Return tt
  /\ files (snd run) !! place w out = Some (Header fieldnames :: map Data rows)
  /\ Z.of_nat (length rows) = toordinal end_ - toordinal start + 1
  /\ (forall i r, nth_error rows i = Some r ->
        exists d, strptime (gregorian_date r) = Some d
                  /\ toordinal d = toordinal start + Z.of_nat i)
  /\ (forall i r r', nth_error rows i = Some r -> nth_error rows (S i) = Some r' ->
        exists d, strptime (gregorian_date r) = Some d
                  /\ strptime (gregorian_date r') = Some (next_day d))
  /\ option_map gregorian_date (nth_error rows 0) = Some (strftime start)
  /\ option_map gregorian_date (nth_error rows (Nat.pred (length rows)))
     = Some (strftime end_).
Proof.
  intros Hs He Hle Hmin Hmax Hd Hop Hf run rows.
  pose proof (strptime_valid _ _ Hs) as Vs. pose proof (strptime_valid _ _ He) as Ve.
  pose proof (year_max_ordinal end_ Ve Hmax) as Be.
  assert (date_gt start end_ = false) as Hgt by (rewrite date_gt_negb_le, Hle; reflexivity).
  rewrite date_le_toordinal in Hle by assumption. apply Z.leb_le in Hle.
  set (n := Z.to_nat (toordinal end_ + 1 - toordinal start)).
  assert (toordinal start + Z.of_nat n = toordinal end_ + 1) as Hn by lia.
  pose proof (generate_opened P fuel s e out w start end_ w1 w2 n
                Hs He Hgt Hmin Hmax Hd Hop Hn) as G.
  replace (n <? fuel)%nat with true in G by (symmetry; apply Nat.ltb_lt; lia).
  assert (exists w', generate_calendar_csv P fuel s e out w = (Return tt, w')) as [w' G'].
  { rewrite G. unfold print. eauto. }
  destruct (emitted_rows_success P _ _ _ _ _ _ G')
    as (start' & end' & n' & Hs' & He' & _ & _ & _ & _ & Hn' & _ & F & R & _).
  assert (start' = start) by congruence. assert (end' = end_) by congruence.
  subst start' end'. assert (n' = n) by lia. subst n'.
  subst run rows. rewrite G', R. cbn [fst snd].
  split; [reflexivity|]. split; [exact F|].
  rewrite length_map, days_from_length.
  split; [lia|]. split; [|split; [|split]].
  - intros i r Hi. rewrite nth_error_map in Hi.
    destruct (nth_error (days_from start n) i) as [d|] eqn:Di; [|discriminate].
    injection Hi as <-.
    destruct (days_from_nth start n i d Vs ltac:(lia) Di) as (Vd & Od & _).
    exists d. split; [|assumption]. simpl. now apply strptime_strftime.
  - intros i r r' Hi Hi'. rewrite nth_error_map in Hi, Hi'.
    destruct (nth_error (days_from start n) i) as [d|] eqn:Di; [|discriminate].
    destruct (nth_error (days_from start n) (S i)) as [d'|] eqn:Di'; [|discriminate].
    injection Hi as <-. injection Hi' as <-.
    destruct (days_from_nth start n i d Vs ltac:(lia) Di) as (Vd & Od & _).
    destruct (days_from_nth start n (S i) d' Vs ltac:(lia) Di') as (Vd' & Od' & _).
    exists d. simpl. split; [now apply strptime_strftime|].
    rewrite <- (next_day_unique d d') by (assumption || lia).
    now apply strptime_strftime.
  - clearbody n. destruct n as [|n0]; [lia|].
    rewrite days_from_cons by (assumption || lia). reflexivity.
  - rewrite nth_error_map. unfold days_from. rewrite nth_error_map, nth_error_seq.
    replace (Nat.pred n <? n)%nat with true by (symmetry; apply Nat.ltb_lt; lia).
    simpl. do 2 f_equal.
    replace (toordinal start + Z.of_nat (Nat.pred n)) with (toordinal end_) by lia.
    f_equal. now apply date_at_toordinal.
Qed.

(** C2, amended.  On a day the holiday provider calls a holiday, the row
    says "no" in the workday column, its holiday name is the name
    [get_holiday_detail] gives, or empty when it gives none, and the
    workday provider is not called for that day; on any other day the
    workday column is the answer of the workday provider, which is called,
    and the holiday name is empty. *)
Theorem holiday_rows_amended (P : providers) (fuel : nat)
    (s e out : string) (w : world) (r : row) :
  In r (emitted_rows P fuel s e out w) ->
  let d := mkdate (gregorian_year r) (gregorian_month r) (gregorian_day r) in
  exists made,
    calls (snd (generate_calendar_csv P fuel s e out w)) = (calls w ++ made)%list
    /\ (is_holiday P d = true ->
          is_holiday_col r = "是" /\ is_workday_col r = "否"
          /\ holiday_name r = or_empty (snd (get_holiday_detail P d))
          /\ ~ In (CallIsWorkday d) made)
    /\ (is_holiday P d = false ->
          is_holiday_col r = "否"
          /\ is_workday_col r = yes_no (is_workday P d)
          /\ holiday_name r = EmptyString
          /\ In (CallIsWorkday d) made).
Proof.
  intros I d.
  destruct (emitted_row_inv P _ _ _ _ _ _ I)
    as (d0 & Vd & -> & start & end_ & n & _ & _ & _ & Id & _ & C).
  assert (d = d0) as -> by (subst d; now destruct d0).
  exists (flat_map (day_calls P) (days_from start n)). split; [exact C|].
  split; intros H; simpl; rewrite H; repeat (split; [reflexivity|]).
  - rewrite in_flat_map. intros (d' & _ & I').
    unfold day_calls in I'. simpl in I'.
    destruct I' as [I'|[I'|[I'|[]]]]; try discriminate.
    destruct (is_holiday P d') eqn:H'; [discriminate|].
    injection I' as ->. congruence.
  - apply in_flat_map. exists d0. split; [assumption|].
    unfold day_calls. rewrite H. simpl. auto.
Qed.

(** C3.  [validate_date_range] raises the range error exactly when the
    year of [start] is below 2004 or the year of [end] is above 2030, and
    returns otherwise, both bounds included; it has no effect; a start of
    2003-12-31 is refused whatever the end. *)
Theorem validate_date_range_bounds (start end_ : date) (w : world) :
  (fst (validate_date_range start end_ w) = Raise (ValueError (RangeError start end_))
   <-> year start < 2004 \/ 2030 < year end_)
  /\ (fst (validate_date_range start end_ w) = Return tt
      <-> 2004 <= year start /\ year end_ <= 2030)
  /\ snd (validate_date_range start end_ w) = w
  /\ fst (validate_date_range (mkdate 2003 12 31) end_ w)
     = Raise (ValueError (RangeError (mkdate 2003 12 31) end_)).
Proof.
  unfold validate_date_range, CHINESE_CALENDAR_MIN_YEAR, CHINESE_CALENDAR_MAX_YEAR.
  split; [|split; [|split]].
  - destruct (Z.ltb_spec (year start) 2004), (Z.ltb_spec 2030 (year end_)); simpl;
      split; intros X; try reflexivity; try lia; discriminate.
  - destruct (Z.ltb_spec (year start) 2004), (Z.ltb_spec 2030 (year end_)); simpl;
      split; intros X; try reflexivity; try lia; discriminate.
  - destruct ((year start <? 2004) || (2030 <? year end_)); reflexivity.
  - reflexivity.
Qed.

(** C4.  With the default output file, a bare file name, the directory
    name is empty and [os.makedirs] raises [FileNotFoundError]: the run
    on valid dates stops there, in every world, without opening the file
    or writing a row. *)
Theorem default_output_file_fails (P : providers) (fuel : nat) (w : world) :
  dirname default_output_file = EmptyString
  /\ generate_calendar_csv P fuel "2025-01-01" "2025-01-03" default_output_file w
     = (Raise (OSError (FileNotFoundError EmptyString)), w)
  /\ emitted_rows P fuel "2025-01-01" "2025-01-03" default_output_file w = [].
Proof.
  assert (generate_calendar_csv P fuel "2025-01-01" "2025-01-03" default_output_file w
          = (Raise (OSError (FileNotFoundError EmptyString)), w)) as G.
  { rewrite (generate_parsed P fuel _ _ _ w (mkdate 2025 1 1) (mkdate 2025 1 3))
      by (vm_compute; reflexivity).
    change (dirname default_output_file) with EmptyString.
    rewrite makedirs_empty. reflexivity. }
  split; [reflexivity|]. split; [exact G|].
  unfold emitted_rows. now rewrite G.
Qed.

(** C5.  In every emitted row the label of the third of the month is the
    early one exactly for days 1 to 10, the middle one exactly for days
    11 to 20 and the late one exactly from day 21 on; the last day of a
    month is late. *)
Theorem decade_of_month_thresholds (P : providers) (fuel : nat)
    (s e out : string) (w : world) (r : row) :
  In r (emitted_rows P fuel s e out w) ->
  (decade_of_month r = "上旬" <-> 1 <= gregorian_day r <= 10)
  /\ (decade_of_month r = "中旬" <-> 11 <= gregorian_day r <= 20)
  /\ (decade_of_month r = "下旬" <-> 21 <= gregorian_day r)
  /\ (gregorian_day r = _days_in_month (gregorian_year r) (gregorian_month r) ->
      decade_of_month r = "下旬").
Proof.
  intros I.
  destruct (emitted_row_inv P _ _ _ _ _ _ I) as (d & Vd & -> & _).
  apply valid_date_fields in Vd. destruct Vd as (_ & Hm & Hd).
  pose proof (days_in_month_bounds (year d) (month d) Hm) as B.
  simpl. unfold shang_zhong_xia_of.
  destruct (Z.leb_spec 1 (day d)), (Z.leb_spec (day d) 10),
    (Z.leb_spec 11 (day d)), (Z.leb_spec (day d) 20); simpl;
    repeat split; intros; try reflexivity; try lia; try discriminate.
Qed.

(** C6.  In every emitted row the lunar month is the absolute value of
    the signed month of the conversion provider, the leap column is "yes"
    exactly when that signed month is negative, and the lunar month is
    never negative. *)
Theorem lunar_month_unsigned (P : providers) (fuel : nat)
    (s e out : string) (w : world) (r : row) :
  In r (emitted_rows P fuel s e out w) ->
  let l := getLunar P (gregorian_year r) (gregorian_month r) (gregorian_day r) in
  lunar_month r = Z.abs (getMonth l)
  /\ (is_leap_month r = "是" <-> getMonth l < 0)
  /\ (is_leap_month r = "否" <-> 0 <= getMonth l)
  /\ 0 <= lunar_month r.
Proof.
  intros I.
  destruct (emitted_row_inv P _ _ _ _ _ _ I) as (d & Vd & -> & _).
  simpl. split; [reflexivity|].
  destruct (Z.ltb_spec (getMonth (getLunar P (year d) (month d) (day d))) 0);
    simpl; repeat split; intros; try reflexivity; try lia; try discriminate.
Qed.

(** C7, amended.  A run fails with the format error exactly when one of
    the two strings is not a text of a valid date (years 1 to 9999) as
    [strptime] reads ["%Y-%m-%d"]: the year on four digits, a dash, the
    month with or without its leading zero, a dash, and the day with or
    without its leading zero or, below ten, after a blank.  The form
    [YYYY-MM-DD] of every valid date is among them, and "2025/01/01" is
    not. *)
Theorem format_error_amended (P : providers) (fuel : nat)
    (s e out : string) (w : world) :
  (fst (generate_calendar_csv P fuel s e out w) = Raise (ValueError FormatError)
   <-> ~ ((exists d, valid_date d /\ In s (date_texts d))
          /\ (exists d, valid_date d /\ In e (date_texts d))))
  /\ (forall d, valid_date d ->
        exact_form (strftime d) = true /\ strptime (strftime d) = Some d)
  /\ strptime "2025/01/01" = None.
Proof.
  split; [|split].
  - split.
    + intros H [[d1 H1] [d2 H2]].
      apply strptime_spec in H1, H2.
      destruct (generate_raise_cases P _ _ _ _ _ _ H)
        as [(_ & [N|N] & _) | (start & end_ & _ & _ & [C|[C|[C|C]]])];
        try congruence.
      * destruct C as [C _]. discriminate.
      * destruct C as [C _]. discriminate.
      * destruct C as [[o C]|C]; discriminate.
    + intros N.
      destruct (strptime s) as [d1|] eqn:H1; [|now rewrite generate_unparsed by auto].
      destruct (strptime e) as [d2|] eqn:H2; [|now rewrite generate_unparsed by auto].
      exfalso. apply N. split; [exists d1 | exists d2]; now apply strptime_spec.
  - intros d V. split; [|now apply strptime_strftime].
    apply valid_date_fields in V. destruct V as (Hy & Hm & Hd).
    pose proof (days_in_month_bounds (year d) (month d) Hm) as B.
    unfold strftime, zfill4, zfill2. simpl.
    rewrite !is_digit_digit_char by (Z.div_mod_to_equations; lia).
    reflexivity.
  - vm_compute. reflexivity.
Qed.

(** C8.  A run that fails validation, that is, raises one of the three
    [ValueError]s of the format, the order or the range, leaves the world
    exactly as it found it: no directory and no file is created, nothing
    is written or printed and no provider is called. *)
Theorem validation_failure_no_effect (P : providers) (fuel : nat)
    (s e out : string) (w : world) (v : value_error) :
  fst (generate_calendar_csv P fuel s e out w) = Raise (ValueError v) ->
  snd (generate_calendar_csv P fuel s e out w) = w
  /\ dirs (snd (generate_calendar_csv P fuel s e out w)) = dirs w
  /\ files (snd (generate_calendar_csv P fuel s e out w)) = files w.
Proof.
  intros H.
  assert (snd (generate_calendar_csv P fuel s e out w) = w) as E.
  { destruct (generate_raise_cases P _ _ _ _ _ _ H)
      as [(_ & _ & E) | (start & end_ & _ & _ & [C|[C|[C|C]]])].
    - exact E.
    - tauto.
    - tauto.
    - destruct C as [[o C]|C]; discriminate.
    - discriminate. }
  now rewrite E.
Qed.

(** C9.  In every emitted row, the date column reads back, as the ISO
    form the spec gives it, to the year, month and day of a date (the
    one [strptime] reads too), and the labels re-derived from that date
    in the spec's words are the ones written in the row: the weekday
    label is the entry of the Monday-first table at the weekday of the
    date, the label of the third of the month the one of the thresholds
    1-10, 11-20, 21-end. *)
Theorem weekday_decade_roundtrip (P : providers) (fuel : nat)
    (s e out : string) (w : world) (r : row) :
  In r (emitted_rows P fuel s e out w) ->
  exists y m d,
    spec_parse_date (gregorian_date r) = Some (y, m, d)
    /\ strptime (gregorian_date r) = Some (mkdate y m d)
    /\ weekday_name r = spec_weekday_name y m d
    /\ decade_of_month r = spec_decade_of_month d.
Proof.
  intros I.
  destruct (emitted_row_inv P _ _ _ _ _ _ I) as (d & Vd & -> & _).
  exists (year d), (month d), (day d).
  pose proof Vd as F. apply valid_date_fields in F. destruct F as (Hy & Hm & Hd).
  cbn [row_of gregorian_date weekday_name decade_of_month].
  split; [now apply spec_parse_date_strftime|].
  split; [destruct d; now apply strptime_strftime|].
  split.
  - unfold spec_weekday_name.
    rewrite <- weekday_zeller by lia. now destruct d.
  - apply decade_label_thresholds. lia.
Qed.

(** C10.  The loop stops for every pair of dates [current <= end], given
    fuel for one test of the condition more than the days of the range,
    and so does the whole run on every input. *)
Theorem generation_terminates (P : providers) (fuel : nat) (out : string)
    (w : world) :
  (forall current end_,
     valid_date current -> valid_date end_ -> date_le current end_ = true ->
     toordinal end_ - toordinal current + 1 < Z.of_nat fuel ->
     terminated (fst (while_loop P fuel out current end_ w)) = true)
  /\ (forall s e,
        iterations s e < Z.of_nat fuel ->
        terminated (fst (generate_calendar_csv P fuel s e out w)) = true).
Proof.
  split.
  - intros current end_ Vc Ve Hle Hf.
    rewrite date_le_toordinal in Hle by assumption. apply Z.leb_le in Hle.
    apply (while_loop_terminates P out end_
             (Z.to_nat (toordinal end_ + 1 - toordinal current)));
      (assumption || lia).
  - intros s e Hf. unfold iterations in Hf.
    destruct (strptime s) as [start|] eqn:Hs;
      [|now rewrite generate_unparsed by auto].
    destruct (strptime e) as [end_|] eqn:He;
      [|now rewrite generate_unparsed by auto].
    pose proof (strptime_valid _ _ Hs) as Vs. pose proof (strptime_valid _ _ He) as Ve.
    rewrite (generate_parsed _ _ _ _ _ _ _ _ Hs He).
    destruct (date_gt start end_) eqn:Hgt; [reflexivity|].
    destruct ((year start <? CHINESE_CALENDAR_MIN_YEAR)
              || (CHINESE_CALENDAR_MAX_YEAR <? year end_)); [reflexivity|].
    pose proof (makedirs_terminates (dirname out) true w) as T1.
    destruct (makedirs (dirname out) true w) as [[[]|x1|] w1]; try exact T1.
    pose proof (open_w_terminates out w1) as T2.
    destruct (open_w out w1) as [[[]|x2|] w2]; try exact T2.
    rewrite date_gt_toordinal in Hgt by assumption. apply Z.ltb_ge in Hgt.
    pose proof (while_loop_terminates P out end_
                  (Z.to_nat (toordinal end_ + 1 - toordinal start))
                  fuel start (with_header out w2) Vs Ve ltac:(lia) ltac:(lia)) as T3.
    destruct (while_loop P fuel out start end_ _) as [[[]|x3|] w3]; exact T3.
Qed.

(** ** The claims that fail, on the sample providers *)

(** C2 as stated fails: 4 January 2025 is a Saturday, a holiday without a
    name, and its row has an empty holiday name. *)
Lemma holiday_name_may_be_empty :
  exists r,
    emitted_rows sample_providers 2 "2025-01-04" "2025-01-04" "output/x.csv"
      empty_world = [r]
    /\ (gregorian_year r, gregorian_month r, gregorian_day r) = (2025, 1, 4)
    /\ is_holiday sample_providers (mkdate 2025 1 4) = true
    /\ is_holiday_col r = "是"
    /\ holiday_name r = EmptyString.
Proof. eexists. vm_compute. repeat split. Qed.

(** C7 as stated fails: "2025-1-1" is not of the form [YYYY-MM-DD], and
    the run accepts it as 1 January 2025. *)
Lemma unpadded_date_accepted :
  exact_form "2025-1-1" = false
  /\ strptime "2025-1-1" = Some (mkdate 2025 1 1)
  /\ fst (generate_calendar_csv sample_providers 2 "2025-1-1" "2025-1-1"
            "output/x.csv" empty_world) = Return tt
  /\ map gregorian_date
       (emitted_rows sample_providers 2 "2025-1-1" "2025-1-1" "output/x.csv"
          empty_world) = ["2025-01-01"].
Proof. vm_compute. repeat split. Qed.

(** ** The theorems at work: three days of October 2025 *)

Lemma holiday_row_emitted : In holiday_row sample_rows.
Proof. vm_compute. left. reflexivity. Defined.

Lemma working_row_emitted : In working_row sample_rows.
Proof. vm_compute. right. left. reflexivity. Defined.

Lemma generate_one_row_per_day_witness :
  fst sample_run = Return tt
  /\ Z.of_nat (length sample_rows) = 3
  /\ option_map gregorian_date (nth_error sample_rows 0) = Some "2025-10-01"
  /\ option_map gregorian_date (nth_error sample_rows 2) = Some "2025-10-03".
Proof.
  pose proof
    (generate_one_row_per_day sample_providers 4 "2025-10-01" "2025-10-03"
       sample_out empty_world
       (snd (makedirs (dirname sample_out) true empty_world))
       (snd (open_w sample_out (snd (makedirs (dirname sample_out) true empty_world))))
       (mkdate 2025 10 1) (mkdate 2025 10 3)
       ltac:(vm_compute; reflexivity) ltac:(vm_compute; reflexivity)
       ltac:(vm_compute; reflexivity)
       ltac:(vm_compute; discriminate) ltac:(vm_compute; discriminate)
       ltac:(vm_compute; reflexivity) ltac:(vm_compute; reflexivity)
       ltac:(vm_compute; reflexivity)) as T.
  cbv zeta in T.
  destruct T as (T1 & _ & T3 & _ & _ & T5 & T6).
  split; [exact T1|]. split; [exact T3|]. split; [exact T5 | exact T6].
Defined.

Lemma holiday_rows_amended_witness :
  exists made,
    calls (snd sample_run) = (calls empty_world ++ made)%list
    /\ is_workday_col holiday_row = "否"
    /\ holiday_name holiday_row = "National Day"
    /\ ~ In (CallIsWorkday (mkdate 2025 10 1)) made.
Proof.
  destruct (holiday_rows_amended sample_providers 4 "2025-10-01" "2025-10-03"
              sample_out empty_world holiday_row holiday_row_emitted)
    as (made & C & H & _).
  exists made. split; [exact C|].
  destruct (H ltac:(vm_compute; reflexivity)) as (_ & H1 & H2 & H3).
  split; [exact H1|]. split; [exact H2 | exact H3].
Defined.

Lemma decade_of_month_thresholds_witness :
  (decade_of_month holiday_row = "上旬" <-> 1 <= gregorian_day holiday_row <= 10)
  /\ (decade_of_month holiday_row = "中旬" <-> 11 <= gregorian_day holiday_row <= 20)
  /\ (decade_of_month holiday_row = "下旬" <-> 21 <= gregorian_day holiday_row)
  /\ (gregorian_day holiday_row
      = _days_in_month (gregorian_year holiday_row) (gregorian_month holiday_row) ->
      decade_of_month holiday_row = "下旬").
Proof.
  exact (decade_of_month_thresholds sample_providers 4 "2025-10-01" "2025-10-03"
           sample_out empty_world holiday_row holiday_row_emitted).
Defined.

Lemma lunar_month_unsigned_witness :
  lunar_month working_row = 6
  /\ is_leap_month working_row = "是"
  /\ 0 <= lunar_month working_row.
Proof.
  destruct (lunar_month_unsigned sample_providers 4 "2025-10-01" "2025-10-03"
              sample_out empty_world working_row working_row_emitted)
    as (H1 & H2 & _ & H4).
  split; [exact H1|]. split; [|exact H4].
  apply H2. vm_compute. reflexivity.
Defined.

Lemma validation_failure_no_effect_witness :
  snd (generate_calendar_csv sample_providers 4 "2025/01/01" "2025-01-03"
         sample_out empty_world) = empty_world
  /\ dirs (snd (generate_calendar_csv sample_providers 4 "2025/01/01" "2025-01-03"
                  sample_out empty_world)) = dirs empty_world
  /\ files (snd (generate_calendar_csv sample_providers 4 "2025/01/01" "2025-01-03"
                   sample_out empty_world)) = files empty_world.
Proof.
  apply (validation_failure_no_effect sample_providers 4 "2025/01/01" "2025-01-03"
           sample_out empty_world FormatError).
  vm_compute. reflexivity.
Defined.

Lemma weekday_decade_roundtrip_witness :
  exists y m d,
    spec_parse_date (gregorian_date working_row) = Some (y, m, d)
    /\ strptime (gregorian_date working_row) = Some (mkdate y m d)
    /\ weekday_name working_row = spec_weekday_name y m d
    /\ decade_of_month working_row = spec_decade_of_month d.
Proof.
  exact (weekday_decade_roundtrip sample_providers 4 "2025-10-01" "2025-10-03"
           sample_out empty_world working_row working_row_emitted).
Defined.

Lemma generation_terminates_witness :
  terminated (fst (while_loop sample_providers 4 sample_out
                     (mkdate 2025 10 1) (mkdate 2025 10 3) empty_world)) = true
  /\ terminated (fst sample_run) = true.
Proof.
  destruct (generation_terminates sample_providers 4 sample_out empty_world) as [L G].
  split.
  - apply L; vm_compute; reflexivity.
  - apply G. vm_compute. reflexivity.
Defined.

Lemma format_error_amended_witness :
  exact_form (strftime (mkdate 2025 10 1)) = true
  /\ strptime (strftime (mkdate 2025 10 1)) = Some (mkdate 2025 10 1).
Proof.
  destruct (format_error_amended sample_providers 4 "2025-10-01" "2025-10-03"
              sample_out empty_world) as (_ & H & _).
  apply H. vm_compute. reflexivity.
Defined.

(** * Further properties of [generate_calendar_csv] *)

Lemma only_new_dirs_refl w : only_new_dirs w w.
Proof. now unfold only_new_dirs. Qed.

Lemma only_new_dirs_trans w1 w2 w3 :
  only_new_dirs w1 w2 -> only_new_dirs w2 w3 -> only_new_dirs w1 w3.
Proof.
  unfold only_new_dirs. intros (C1 & F1 & D1) (C2 & F2 & D2).
  split; [congruence|]. split; [congruence|].
  etransitivity; eassumption.
Qed.

Lemma mkdir_only_new_dirs name w : only_new_dirs w (snd (mkdir name w)).
Proof.
  unfold mkdir.
  destruct (has_nul name); [apply only_new_dirs_refl|].
  destruct (negb (nonempty name)); [apply only_new_dirs_refl|].
  destruct (parent w name); try apply only_new_dirs_refl.
  destruct (_ || _); [apply only_new_dirs_refl|].
  split; [reflexivity|]. split; [reflexivity|]. simpl. apply union_subseteq_l.
Qed.

Lemma makedirs_only_new_dirs name ok w :
  only_new_dirs w (snd (makedirs name ok w)).
Proof.
  unfold makedirs.
  apply (makedirs_rec_frame only_new_dirs only_new_dirs_refl only_new_dirs_trans
           mkdir_only_new_dirs).
Qed.

Lemma open_w_frame path w k :
  k <> place w path ->
  files (snd (open_w path w)) !! k = files w !! k
  /\ dirs (snd (open_w path w)) = dirs w
  /\ cwd (snd (open_w path w)) = cwd w.
Proof.
  intros N. unfold open_w.
  destruct (has_nul path); [now split|].
  destruct (negb (nonempty path)); [now split|].
  destruct (parent w path); try now split.
  destruct (_ || _); [now split|].
  simpl. split; [|now split]. apply lookup_insert_ne. congruence.
Qed.

Section MoreRun.

Variable P : providers.

Lemma while_loop_frame out end_ k fuel : forall current w,
  k <> place w out ->
  files (snd (while_loop P fuel out current end_ w)) !! k = files w !! k
  /\ dirs (snd (while_loop P fuel out current end_ w)) = dirs w
  /\ cwd (snd (while_loop P fuel out current end_ w)) = cwd w.
Proof.
  induction fuel as [|fuel IH]; intros current w N; [now split|].
  simpl while_loop. destruct (date_le current end_); [|now split].
  unfold bind. rewrite make_row_run. unfold write_line, ret, raise.
  cbn [cwd files dirs calls stdout].
  destruct (add_days current 1) as [d|].
  - match goal with
    | |- context [while_loop P fuel out d end_ ?w0] =>
        destruct (IH d w0 N) as (E1 & E2 & E3);
        destruct (while_loop P fuel out d end_ w0) as [[[]|x|] w1]
    end; cbn [fst snd] in *; rewrite E1, E2, E3; cbn [cwd files dirs];
      (split; [|now split]);
      apply lookup_insert_ne; intros E; exact (N (eq_sym E)).
  - cbn [fst snd cwd files dirs]. split; [|now split].
    apply lookup_insert_ne. intros E. exact (N (eq_sym E)).
Qed.

(** On validated dates the loop returns or runs out of fuel: the step to
    the next day never overflows. *)
Lemma while_loop_validated out fuel start end_ w :
  valid_date start -> valid_date end_ -> date_gt start end_ = false ->
  year end_ <= CHINESE_CALENDAR_MAX_YEAR ->
  fst (while_loop P fuel out start end_ w) = Return tt
  \/ fst (while_loop P fuel out start end_ w) = Timeout.
Proof.
  intros Vs Ve Ho Hmax.
  rewrite date_gt_toordinal in Ho by assumption. apply Z.ltb_ge in Ho.
  rewrite (while_loop_run P out end_ fuel start
             (Z.to_nat (toordinal end_ + 1 - toordinal start)))
    by (assumption || (now apply year_max_ordinal) || lia).
  destruct (_ <? fuel)%nat; auto.
Qed.

(** The row at a position of the output of a completed run. *)
Lemma emitted_rows_nth fuel s e out w i r :
  nth_error (emitted_rows P fuel s e out w) i = Some r ->
  exists start end_ d,
    strptime s = Some start /\ strptime e = Some end_
    /\ valid_date start /\ valid_date end_
    /\ CHINESE_CALENDAR_MIN_YEAR <= year start
    /\ year end_ <= CHINESE_CALENDAR_MAX_YEAR
    /\ valid_date d /\ r = row_of P d
    /\ toordinal d = toordinal start + Z.of_nat i
    /\ toordinal d <= toordinal end_.
Proof.
  intros H.
  destruct (generate_calendar_csv P fuel s e out w) as [[[]|x|] w'] eqn:G;
    try (unfold emitted_rows in H; rewrite G in H; destruct i; discriminate).
  destruct (emitted_rows_success _ _ _ _ _ _ _ G)
    as (start & end_ & n & Hs & He & Vs & Ve & Hmin & Hmax & Hn & Hf & _ & R & _).
  rewrite R, nth_error_map in H.
  destruct (nth_error (days_from start n) i) as [d|] eqn:Di; [|discriminate].
  injection H as <-.
  pose proof (toordinal_bounds end_ Ve) as Be.
  destruct (days_from_nth start n i d Vs ltac:(lia) Di) as (Vd & Od & Hi).
  exists start, end_, d. repeat (split; [assumption || reflexivity|]). lia.
Qed.

Lemma row_date_row_of d : row_date (row_of P d) = d.
Proof. now destruct d. Qed.

Lemma calls_for_row_of d : calls_for_row P (row_of P d) = day_calls P d.
Proof. unfold calls_for_row. rewrite row_date_row_of. reflexivity. Qed.

Lemma flat_map_calls_for_row (l : list date) :
  flat_map (calls_for_row P) (map (row_of P) l) = flat_map (day_calls P) l.
Proof.
  induction l as [|d l IH]; [reflexivity|].
  cbn [map flat_map]. now rewrite IH, calls_for_row_of.
Qed.

Lemma length_flat_map_day_calls (l : list date) :
  length (flat_map (day_calls P) l) = (3 * length l)%nat.
Proof.
  induction l as [|d l IH]; [reflexivity|].
  cbn [flat_map]. rewrite length_app, IH. simpl. lia.
Qed.

End MoreRun.

(** The year of a date follows its ordinal. *)
Lemma year_le_of_toordinal a b :
  valid_date a -> valid_date b -> toordinal a <= toordinal b -> year a <= year b.
Proof.
  intros Va Vb H.
  destruct (Z_le_gt_dec (year a) (year b)) as [|G]; [assumption | exfalso].
  assert (_cmp b a = Lt) as C.
  { unfold _cmp. destruct (Z.compare_spec (year b) (year a)); try lia. reflexivity. }
  pose proof (toordinal_lt b a Vb Va C). lia.
Qed.

(** X1.  A run raises the order error exactly when both strings are
    dates and the start is after the end; the order is checked before the
    years, so this holds whatever the years are. *)
Theorem order_error_iff (P : providers) (fuel : nat) (s e out : string)
    (w : world) :
  fst (generate_calendar_csv P fuel s e out w) = Raise (ValueError OrderError)
  <-> exists start end_,
        strptime s = Some start /\ strptime e = Some end_
        /\ toordinal end_ < toordinal start.
Proof.
  split.
  - intros H.
    destruct (generate_raise_cases P _ _ _ _ _ _ H)
      as [(C & _) | (start & end_ & Hs & He & [C|[C|[C|C]]])]; try discriminate.
    + destruct C as (_ & C & _). exists start, end_.
      rewrite date_gt_toordinal in C by (eapply strptime_valid; eassumption).
      apply Z.ltb_lt in C. auto.
    + destruct C as [C _]. discriminate.
    + destruct C as [[o C]|C]; discriminate.
  - intros (start & end_ & Hs & He & L).
    rewrite (generate_parsed P _ _ _ _ _ _ _ Hs He).
    rewrite date_gt_toordinal by (eapply strptime_valid; eassumption).
    replace (toordinal end_ <? toordinal start) with true
      by (symmetry; now apply Z.ltb_lt).
    reflexivity.
Qed.

(** X2.  A run raises the range error for the dates [start] and [end]
    exactly when the two strings are these dates, in order, and the year
    of [start] is below 2004 or the year of [end] above 2030. *)
Theorem range_error_iff (P : providers) (fuel : nat) (s e out : string)
    (w : world) (start end_ : date) :
  fst (generate_calendar_csv P fuel s e out w)
  = Raise (ValueError (RangeError start end_))
  <-> strptime s = Some start /\ strptime e = Some end_
      /\ toordinal start <= toordinal end_
      /\ (year start < 2004 \/ 2030 < year end_).
Proof.
  split.
  - intros H.
    destruct (generate_raise_cases P _ _ _ _ _ _ H)
      as [(C & _) | (start' & end' & Hs & He & [C|[C|[C|C]]])]; try discriminate.
    + destruct C as [C _]. discriminate.
    + destruct C as (C & Ho & R & _). injection C as -> ->.
      rewrite date_gt_toordinal in Ho by (eapply strptime_valid; eassumption).
      apply Z.ltb_ge in Ho. auto.
    + destruct C as [[o C]|C]; discriminate.
  - intros (Hs & He & L & R).
    apply (generate_range_error P fuel s e out w start end_ Hs He); [|exact R].
    rewrite date_gt_toordinal by (eapply strptime_valid; eassumption).
    now apply Z.ltb_ge.
Qed.

(** X3.  With external packages that answer, a run ends in one of five
    ways: it returns, it runs out of fuel, it raises one of its three
    validation errors, it raises an [OSError] of the file system, or it
    raises the [ValueError] of a path with the character of code 0.  The
    loop itself adds no failure: the step to the next day never
    overflows and the table of weekday names is never indexed out of
    range. *)
Theorem run_outcomes (P : providers) (fuel : nat) (s e out : string)
    (w : world) :
  fst (generate_calendar_csv P fuel s e out w) = Return tt
  \/ fst (generate_calendar_csv P fuel s e out w) = Timeout
  \/ (exists v, fst (generate_calendar_csv P fuel s e out w) = Raise (ValueError v))
  \/ (exists o, fst (generate_calendar_csv P fuel s e out w) = Raise (OSError o))
  \/ fst (generate_calendar_csv P fuel s e out w) = Raise EmbeddedNullByte.
Proof.
  destruct (strptime s) as [start|] eqn:Hs;
    [|rewrite generate_unparsed by auto; simpl; eauto].
  destruct (strptime e) as [end_|] eqn:He;
    [|rewrite generate_unparsed by auto; simpl; eauto].
  pose proof (strptime_valid _ _ Hs) as Vs. pose proof (strptime_valid _ _ He) as Ve.
  rewrite (generate_parsed P _ _ _ _ _ _ _ Hs He).
  destruct (date_gt start end_) eqn:Ho; [simpl; eauto|].
  destruct ((year start <? CHINESE_CALENDAR_MIN_YEAR)
            || (CHINESE_CALENDAR_MAX_YEAR <? year end_)) eqn:R; [simpl; eauto|].
  apply orb_false_iff in R. rewrite !Z.ltb_ge in R. destruct R as [_ Hmax].
  pose proof (makedirs_rec_raises (S (String.length (dirname out))) (dirname out) true w) as R1.
  fold (makedirs (dirname out) true) in R1.
  destruct (makedirs (dirname out) true w) as [[[]|x1|] w1]; simpl in R1 |- *; auto.
  2: { destruct (R1 _ eq_refl) as [[o ->]| ->]; eauto 6. }
  pose proof (open_w_raises out w1) as R2.
  destruct (open_w out w1) as [[[]|x2|] w2]; simpl in R2 |- *; auto.
  2: { destruct (R2 _ eq_refl) as [[o ->]| ->]; eauto 6. }
  destruct (while_loop_validated P out fuel start end_ (with_header out w2)
              Vs Ve Ho Hmax) as [L|L];
    destruct (while_loop P fuel out start end_ _) as [[[]|x3|] w3];
    simpl in L |- *; try discriminate; auto.
Qed.

(** X4.  Whatever the outcome of a run, every file at another place than
    the one the output path leads to is left as it was, under whatever
    path it is reached; no directory is removed and the current
    directory stays the same. *)
Theorem other_files_untouched (P : providers) (fuel : nat) (s e out : string)
    (w : world) (k : list string) :
  k <> place w out ->
  files (snd (generate_calendar_csv P fuel s e out w)) !! k = files w !! k
  /\ dirs w ⊆ dirs (snd (generate_calendar_csv P fuel s e out w))
  /\ cwd (snd (generate_calendar_csv P fuel s e out w)) = cwd w.
Proof.
  intros N.
  destruct (strptime s) as [start|] eqn:Hs;
    [|rewrite generate_unparsed by auto; now split].
  destruct (strptime e) as [end_|] eqn:He;
    [|rewrite generate_unparsed by auto; now split].
  rewrite (generate_parsed P _ _ _ _ _ _ _ Hs He).
  destruct (date_gt start end_); [now split|].
  destruct ((year start <? CHINESE_CALENDAR_MIN_YEAR)
            || (CHINESE_CALENDAR_MAX_YEAR <? year end_)); [now split|].
  pose proof (makedirs_only_new_dirs (dirname out) true w) as (C1 & F1 & D1).
  destruct (makedirs (dirname out) true w) as [[[]|x1|] w1]; cbn [snd] in C1, F1, D1 |- *;
    try (rewrite F1; now split).
  assert (k <> place w1 out) as N1 by now rewrite (place_cwd w w1 out C1).
  destruct (open_w_frame out w1 k N1) as (F2 & D2 & C2).
  destruct (open_w out w1) as [[[]|x2|] w2]; cbn [snd] in F2, D2, C2 |- *;
    try (rewrite F2, D2, C2, F1; now split).
  assert (k <> place w2 out) as N2 by now rewrite (place_cwd w1 w2 out C2).
  assert (k <> place (with_header out w2) out) as N3 by exact N2.
  destruct (while_loop_frame P out end_ k fuel start (with_header out w2) N3)
    as (F3 & D3 & C3).
  assert (files (with_header out w2) !! k = files w !! k) as F4.
  { unfold with_header, write_line. simpl.
    rewrite lookup_insert_ne by congruence. now rewrite F2, F1. }
  assert (dirs (with_header out w2) = dirs w1) as D4 by (simpl; exact D2).
  assert (cwd (with_header out w2) = cwd w) as C4 by (simpl; congruence).
  destruct (while_loop P fuel out start end_ _) as [[[]|x3|] w3];
    cbn [fst snd] in F3, D3, C3; unfold print; cbn [fst snd files dirs cwd];
    rewrite F3, D3, C3, F4, D4; now split.
Qed.

(** X5.  A completed run has called the external packages three times
    for each row, in the order of the rows: the lunar conversion, the
    holiday test, then the holiday detail on a holiday and the workday
    test on any other day; it has made no other call. *)
Theorem provider_calls_per_row (P : providers) (fuel : nat) (s e out : string)
    (w : world) :
  fst (generate_calendar_csv P fuel s e out w) = Return tt ->
  calls (snd (generate_calendar_csv P fuel s e out w))
  = (calls w ++ flat_map (calls_for_row P) (emitted_rows P fuel s e out w))%list
  /\ length (calls (snd (generate_calendar_csv P fuel s e out w)))
     = (length (calls w) + 3 * length (emitted_rows P fuel s e out w))%nat.
Proof.
  intros H.
  destruct (generate_calendar_csv P fuel s e out w) as [o w'] eqn:G.
  simpl in H. subst o.
  destruct (emitted_rows_success P _ _ _ _ _ _ G)
    as (start & end_ & n & _ & _ & _ & _ & _ & _ & _ & _ & _ & R & C & _).
  unfold emitted_rows in R |- *. rewrite G in R |- *. cbn [snd].
  rewrite R, flat_map_calls_for_row. split; [exact C|].
  rewrite C, length_app, length_map, length_flat_map_day_calls. reflexivity.
Qed.

(** X6.  From one row to the next the weekday label moves one place in
    the table of names, from Sunday back to Monday. *)
Theorem weekday_labels_cycle (P : providers) (fuel : nat) (s e out : string)
    (w : world) (i : nat) (r r' : row) :
  nth_error (emitted_rows P fuel s e out w) i = Some r ->
  nth_error (emitted_rows P fuel s e out w) (S i) = Some r' ->
  exists k,
    0 <= k < 7
    /\ getitem WEEKDAY_NAMES k = Some (weekday_name r)
    /\ getitem WEEKDAY_NAMES ((k + 1) mod 7) = Some (weekday_name r').
Proof.
  intros H H'.
  destruct (emitted_rows_nth P _ _ _ _ _ _ _ H)
    as (start & end_ & d & Hs & _ & _ & _ & _ & _ & Vd & -> & Od & _).
  destruct (emitted_rows_nth P _ _ _ _ _ _ _ H')
    as (start' & end' & d' & Hs' & _ & _ & _ & _ & _ & Vd' & -> & Od' & _).
  assert (start' = start) by congruence. subst start'.
  exists (weekday d). split; [apply weekday_range|].
  split; [apply getitem_weekday|].
  replace ((weekday d + 1) mod 7) with (weekday d').
  - apply getitem_weekday.
  - unfold weekday. replace (toordinal d') with (toordinal d + 1) by lia.
    Z.div_mod_to_equations. lia.
Qed.

(** The Monday that starts the first ISO week of a year is within three
    days of 1 January. *)
Lemma isoweek1monday_spec y :
  _days_before_year y + 1 - 3 <= _isoweek1monday y <= _days_before_year y + 1 + 3
  /\ (_isoweek1monday y + 6) mod 7 = 0.
Proof.
  unfold _isoweek1monday. cbv zeta.
  change (_ymd2ord y 1 1) with (_days_before_year y + 0 + 1).
  set (f := _days_before_year y + 0 + 1).
  assert (f = _days_before_year y + 1) as Ef by (subst f; lia).
  rewrite <- Ef. clearbody f.
  destruct (Z.ltb_spec 3 ((f + 6) mod 7)); split;
    Z.div_mod_to_equations; lia.
Qed.

Lemma isocalendar_week_bounds d :
  valid_date d -> 1 <= snd (fst (isocalendar d)) <= 53.
Proof.
  intros V. pose proof (day_of_year_bounds d V) as B.
  unfold isocalendar. cbv zeta. unfold toordinal, _ymd2ord.
  set (doy := _days_before_month (year d) (month d) + day d) in *.
  rewrite <- Z.add_assoc. fold doy.
  destruct (isoweek1monday_spec (year d)) as [M0 C0].
  destruct (isoweek1monday_spec (year d - 1)) as [Mp Cp].
  pose proof (days_before_year_succ (year d - 1)) as Sp.
  replace (year d - 1 + 1) with (year d) in Sp by lia.
  set (m0 := _isoweek1monday (year d)) in *.
  set (mp := _isoweek1monday (year d - 1)) in *.
  set (mn := _isoweek1monday (year d + 1)) in *.
  set (f := _days_before_year (year d)) in *.
  set (fp := _days_before_year (year d - 1)) in *.
  clearbody doy m0 mp mn f fp.
  destruct (_is_leap (year d)), (_is_leap (year d - 1));
    destruct (Z.ltb_spec ((f + doy - m0) / 7) 0);
    cbn [fst snd];
    try (Z.div_mod_to_equations; lia);
    destruct ((52 <=? (f + doy - m0) / 7) && (mn <=? f + doy));
    cbn [fst snd]; Z.div_mod_to_equations; lia.
Qed.

(** X7.  In every emitted row the week number is between 1 and 53. *)
Theorem iso_week_number_bounds (P : providers) (fuel : nat) (s e out : string)
    (w : world) (r : row) :
  In r (emitted_rows P fuel s e out w) ->
  1 <= iso_week_number r <= 53.
Proof.
  intros I.
  destruct (emitted_row_inv P _ _ _ _ _ _ I) as (d & Vd & -> & _).
  simpl. now apply isocalendar_week_bounds.
Qed.

(** X8.  In every emitted row the date string is the form [YYYY-MM-DD] of
    the three numeric columns, whatever the form of the input strings,
    the three columns are a valid date, and its year is within the
    supported span. *)
Theorem gregorian_date_canonical (P : providers) (fuel : nat) (s e out : string)
    (w : world) (r : row) :
  In r (emitted_rows P fuel s e out w) ->
  exact_form (gregorian_date r) = true
  /\ gregorian_date r = strftime (row_date r)
  /\ strptime (gregorian_date r) = Some (row_date r)
  /\ valid_date (row_date r)
  /\ 2004 <= gregorian_year r <= 2030.
Proof.
  intros I. destruct (In_nth_error _ _ I) as [i Hi].
  destruct (emitted_rows_nth P _ _ _ _ _ _ _ Hi)
    as (start & end_ & d & _ & _ & Vs & Ve & Hmin & Hmax & Vd & -> & Od & Oe).
  rewrite row_date_row_of. cbn [gregorian_date gregorian_year row_of].
  pose proof (year_le_of_toordinal start d Vs Vd ltac:(lia)).
  pose proof (year_le_of_toordinal d end_ Vd Ve Oe).
  unfold CHINESE_CALENDAR_MIN_YEAR, CHINESE_CALENDAR_MAX_YEAR in *.
  split; [|split; [reflexivity | split; [now apply strptime_strftime | split; [assumption | lia]]]].
  pose proof Vd as Vd'. apply valid_date_fields in Vd'. destruct Vd' as (Hy & Hm & Hd).
  pose proof (days_in_month_bounds (year d) (month d) Hm) as B.
  unfold strftime, zfill4, zfill2. simpl.
  rewrite !is_digit_digit_char by (Z.div_mod_to_equations; lia).
  reflexivity.
Qed.

(** * The [__main__] block *)

Lemma str_int_zfill4 y : 1000 <= y <= 9999 -> str_int y = zfill4 y.
Proof.
  intros H.
  assert (str_int_ok y = true) as E.
  { apply (forallb_range str_int_ok (Z.to_nat 10000)); [vm_compute; reflexivity | lia]. }
  unfold str_int_ok in E. apply orb_true_iff in E. destruct E as [E|E].
  - apply Z.ltb_lt in E. lia.
  - now apply String.eqb_eq in E.
Qed.

Lemma all_chars_app p a b : all_chars p (a +:+ b) = all_chars p a && all_chars p b.
Proof.
  induction a as [|c a IH]; [reflexivity|].
  change (String c a +:+ b) with (String c (a +:+ b)). simpl.
  now rewrite IH, andb_assoc.
Qed.

Lemma all_chars_weaken (p q : ascii -> bool) s :
  (forall c, p c = true -> q c = true) ->
  all_chars p s = true -> all_chars q s = true.
Proof.
  intros I. induction s as [|c s IH]; [reflexivity|]. simpl.
  rewrite !andb_true_iff. intros [H1 H2]. auto.
Qed.

Lemma date_char_not_sep c : date_char c = true -> not_sep c = true.
Proof.
  unfold date_char, not_sep, is_digit. intros H.
  apply negb_true_iff. apply not_true_iff_false. intros E.
  apply Ascii.eqb_eq in E. subst c. vm_compute in H. discriminate.
Qed.

Lemma zfill4_date_chars y : all_chars date_char (zfill4 y) = true.
Proof.
  unfold zfill4, zfill2, date_char. simpl.
  rewrite !is_digit_digit_char by (Z.div_mod_to_equations; lia). reflexivity.
Qed.

Lemma zfill2_date_chars y : all_chars date_char (zfill2 y) = true.
Proof.
  unfold zfill2, date_char. simpl.
  rewrite !is_digit_digit_char by (Z.div_mod_to_equations; lia). reflexivity.
Qed.

(** The texts of dates are made of digits, dashes and blanks. *)
Lemma strptime_date_chars s d : strptime s = Some d -> all_chars date_char s = true.
Proof.
  intros H. apply strptime_spec in H. destruct H as [V I].
  apply in_date_texts in I. destruct I as (tm & td & Im & Id & ->).
  apply valid_date_fields in V. destruct V as (_ & Hm & Hd).
  pose proof (days_in_month_bounds (year d) (month d) Hm) as B.
  assert (In (tm, month d) month_forms) as Fm by (apply in_month_forms; auto).
  assert (In (td, day d) day_forms) as Fd by (apply in_day_forms; split; [lia | auto]).
  assert (forallb form_chars_ok month_forms = true) as Cm by (vm_compute; reflexivity).
  assert (forallb form_chars_ok day_forms = true) as Cd by (vm_compute; reflexivity).
  rewrite forallb_forall in Cm, Cd.
  specialize (Cm _ Fm). specialize (Cd _ Fd). unfold form_chars_ok in Cm, Cd.
  simpl fst in Cm, Cd.
  rewrite !all_chars_app, zfill4_date_chars, Cm, Cd. reflexivity.
Qed.

Lemma remove_dashes_not_sep s :
  all_chars not_sep s = true -> all_chars not_sep (remove_dashes s) = true.
Proof.
  induction s as [|c s IH]; [reflexivity|]. simpl.
  rewrite andb_true_iff. intros [H1 H2].
  destruct (code c =? 45); simpl; [auto | rewrite H1; auto].
Qed.

Lemma rfind_from_not_sep t : forall pos,
  all_chars not_sep t = true -> rfind_from t pos = -1.
Proof.
  induction t as [|c t IH]; intros pos; [reflexivity|]. simpl.
  rewrite andb_true_iff. intros [H1 H2]. rewrite IH by assumption. simpl.
  unfold not_sep in H1. apply negb_true_iff in H1. now rewrite H1.
Qed.

Lemma substring_0_0 s : substring 0 0 s = EmptyString.
Proof. now destruct s. Qed.

(** The directory of the output file of [main] is ["output"]. *)
Lemma dirname_output t :
  all_chars not_sep t = true -> dirname ("output/" +:+ t) = "output".
Proof.
  intros H. unfold dirname, rfind. cbv zeta.
  assert (rfind_from ("output/" +:+ t) 0 = 6) as R.
  { cbv [String.append]. cbn [rfind_from].
    rewrite (rfind_from_not_sep t) by assumption. reflexivity. }
  rewrite R. unfold slice_to.
  change (Z.to_nat (6 + 1)) with 7%nat.
  cbv [String.append]. cbn [substring]. rewrite substring_0_0. reflexivity.
Qed.

Lemma main_output_file_dirname s e :
  all_chars not_sep s = true -> all_chars not_sep e = true ->
  dirname (main_output_file s e) = "output".
Proof.
  intros Hs He. unfold main_output_file. cbv zeta.
  apply dirname_output.
  rewrite !all_chars_app, !remove_dashes_not_sep by assumption. reflexivity.
Qed.

Lemma remove_dashes_digit k r :
  0 <= k <= 9 ->
  remove_dashes (String (digit_char k) r) = String (digit_char k) (remove_dashes r).
Proof.
  intros H. cbn [remove_dashes]. rewrite code_digit_char by assumption.
  replace (48 + k =? 45) with false by (symmetry; apply Z.eqb_neq; lia).
  reflexivity.
Qed.

Lemma remove_dashes_dash r : remove_dashes (String "-"%char r) = remove_dashes r.
Proof. reflexivity. Qed.

Lemma remove_dashes_strftime d :
  remove_dashes (strftime d)
  = zfill4 (year d) +:+ zfill2 (month d) +:+ zfill2 (day d).
Proof.
  unfold strftime, zfill4, zfill2. cbv [String.append].
  rewrite !remove_dashes_digit by (Z.div_mod_to_equations; lia).
  rewrite remove_dashes_dash.
  rewrite !remove_dashes_digit by (Z.div_mod_to_equations; lia).
  rewrite remove_dashes_dash.
  rewrite !remove_dashes_digit by (Z.div_mod_to_equations; lia).
  reflexivity.
Qed.

(** ** Paths and the places they lead to *)

Lemma has_nul_all_chars p : has_nul p = negb (all_chars not_nul p).
Proof.
  induction p as [|c p IH]; [reflexivity|]. simpl. rewrite IH.
  unfold not_nul. now destruct (Ascii.eqb c nul).
Qed.

Lemma date_char_not_nul c : date_char c = true -> not_nul c = true.
Proof.
  unfold date_char, not_nul, is_digit. intros H.
  apply negb_true_iff. apply not_true_iff_false. intros E.
  apply Ascii.eqb_eq in E. subst c. vm_compute in H. discriminate.
Qed.

Lemma fields_cons p : exists f l, fields p = f :: l.
Proof.
  induction p as [|c p (f & l & E)]; simpl; [eauto|].
  destruct (Ascii.eqb c sep); [eauto|]. rewrite E. eauto.
Qed.

Lemma fields_no_sep t : all_chars not_sep t = true -> fields t = [t].
Proof.
  induction t as [|c t IH]; [reflexivity|]. simpl.
  rewrite andb_true_iff. intros [H1 H2].
  unfold not_sep in H1. apply negb_true_iff in H1. rewrite H1, IH by assumption.
  reflexivity.
Qed.

Lemma fields_app h t :
  fields (h +:+ String sep t) = (fields h ++ fields t)%list.
Proof.
  induction h as [|c h IH]; [reflexivity|].
  change (String c h +:+ String sep t) with (String c (h +:+ String sep t)).
  simpl. rewrite IH. destruct (Ascii.eqb c sep); [reflexivity|].
  destruct (fields_cons h) as (f & l & ->). reflexivity.
Qed.

Lemma names_app h t : names (h +:+ String sep t) = (names h ++ names t)%list.
Proof. unfold names. now rewrite fields_app, List.filter_app. Qed.

Lemma names_no_sep t :
  all_chars not_sep t = true -> names t = if nonempty t then [t] else [].
Proof.
  intros H. unfold names. rewrite fields_no_sep by assumption. reflexivity.
Qed.

Lemma ends_with_sep_app h t :
  nonempty t = true -> ends_with_sep (h +:+ t) = ends_with_sep t.
Proof.
  intros N. induction h as [|c h IH]; [reflexivity|].
  change (String c h +:+ t) with (String c (h +:+ t)).
  cbn [ends_with_sep]. rewrite IH.
  destruct (h +:+ t) eqn:E; [|reflexivity].
  destruct h; [|discriminate]. change (t = EmptyString) in E. subst t. discriminate.
Qed.

Lemma ends_with_sep_no_sep t : all_chars not_sep t = true -> ends_with_sep t = false.
Proof.
  induction t as [|c t IH]; [reflexivity|]. simpl.
  rewrite andb_true_iff. intros [H1 H2].
  destruct t; [|now apply IH].
  unfold not_sep in H1. now apply negb_true_iff in H1.
Qed.

(** The place of a file directly under a directory of the current
    directory. *)
Lemma names_in_dir d t :
  all_chars not_sep d = true -> nonempty d = true ->
  all_chars not_sep t = true -> nonempty t = true ->
  names (d +:+ String sep t) = [d; t].
Proof.
  intros Hd Nd Ht Nt.
  rewrite names_app, !names_no_sep by assumption. now rewrite Nd, Nt.
Qed.

(** *** The directory part of a path *)

Lemma last_sep p :
  all_chars not_sep p = true
  \/ exists h t, p = h +:+ String sep t /\ all_chars not_sep t = true.
Proof.
  induction p as [|c p [IH | (h & t & -> & IH)]]; [now left| |].
  - simpl. unfold not_sep at 1. destruct (Ascii.eqb c sep) eqn:E.
    + right. apply Ascii.eqb_eq in E. subst c. exists EmptyString, p. now split.
    + left. now rewrite IH.
  - right. exists (String c h), t. now split.
Qed.

Lemma rfind_from_app h t : forall pos,
  0 <= pos -> all_chars not_sep t = true ->
  rfind_from (h +:+ String sep t) pos = pos + Z.of_nat (String.length h).
Proof.
  induction h as [|c h IH]; intros pos Hp Ht.
  - change (EmptyString +:+ String sep t) with (String sep t).
    cbn [rfind_from]. rewrite (rfind_from_not_sep t) by assumption.
    simpl. lia.
  - change (String c h +:+ String sep t) with (String c (h +:+ String sep t)).
    cbn [rfind_from]. rewrite IH by (assumption || lia).
    replace (0 <=? pos + 1 + Z.of_nat (String.length h)) with true
      by (symmetry; apply Z.leb_le; lia).
    cbv zeta. simpl String.length. lia.
Qed.

Lemma substring_head h t :
  substring 0 (S (String.length h)) (h +:+ String sep t) = h +:+ String sep EmptyString.
Proof.
  induction h as [|c h IH].
  - change (EmptyString +:+ String sep t) with (String sep t).
    simpl. now rewrite substring_0_0.
  - change (String c h +:+ String sep t) with (String c (h +:+ String sep t)).
    simpl String.length. cbn [substring]. now rewrite IH.
Qed.

Lemma nonempty_app_sep h : nonempty (h +:+ String sep EmptyString) = true.
Proof. now destruct h. Qed.

Lemma dirname_sep h t :
  all_chars not_sep t = true ->
  dirname (h +:+ String sep t)
  = if negb (all_sep (h +:+ String sep EmptyString))
    then rstrip_sep (h +:+ String sep EmptyString)
    else h +:+ String sep EmptyString.
Proof.
  intros Ht. unfold dirname, rfind. cbv zeta.
  rewrite rfind_from_app by (assumption || lia). unfold slice_to.
  replace (Z.to_nat (0 + Z.of_nat (String.length h) + 1)) with (S (String.length h))
    by lia.
  rewrite substring_head, nonempty_app_sep. reflexivity.
Qed.

Lemma dirname_bare out : all_chars not_sep out = true -> dirname out = EmptyString.
Proof.
  intros H. unfold dirname, rfind. cbv zeta.
  rewrite (rfind_from_not_sep out 0 H). unfold slice_to.
  change (Z.to_nat (-1 + 1)) with 0%nat. now rewrite substring_0_0.
Qed.

Lemma names_all_sep x : all_sep x = true -> names x = [].
Proof.
  induction x as [|c x IH]; [reflexivity|]. simpl.
  rewrite andb_true_iff. intros [H1 H2].
  unfold names. simpl. rewrite H1. simpl. now apply IH.
Qed.

Lemma rstrip_sep_empty x : rstrip_sep x = EmptyString -> all_sep x = true.
Proof.
  induction x as [|c x IH]; [reflexivity|]. simpl.
  destruct (rstrip_sep x); [|discriminate].
  destruct (Ascii.eqb c sep); [|discriminate].
  intros _. now rewrite IH.
Qed.

Lemma fields_rstrip_sep x :
  exists l, fields x = (fields (rstrip_sep x) ++ l)%list
            /\ List.filter nonempty l = [].
Proof.
  induction x as [|c x (l & E & F)]; [exists []; now split|].
  simpl. rewrite E.
  destruct (rstrip_sep x) as [|a b] eqn:R.
  - destruct (Ascii.eqb c sep) eqn:C.
    + exists (EmptyString :: l). now split.
    + exists l. simpl. rewrite C. now split.
  - simpl. destruct (Ascii.eqb c sep) eqn:C.
    + exists l. now split.
    + destruct (fields_cons (String a b)) as (f & l0 & E0).
      simpl in E0. rewrite E0. exists l. now split.
Qed.

Lemma names_rstrip_sep x : names (rstrip_sep x) = names x.
Proof.
  destruct (fields_rstrip_sep x) as (l & E & F).
  unfold names. now rewrite E, List.filter_app, F, app_nil_r.
Qed.

Lemma has_nul_app a b : has_nul (a +:+ b) = has_nul a || has_nul b.
Proof.
  induction a as [|c a IH]; [reflexivity|].
  change (String c a +:+ b) with (String c (a +:+ b)). simpl.
  now rewrite IH, orb_assoc.
Qed.

Lemma has_nul_rstrip_sep x : has_nul x = false -> has_nul (rstrip_sep x) = false.
Proof.
  induction x as [|c x IH]; [reflexivity|]. simpl.
  rewrite orb_false_iff. intros [H1 H2]. specialize (IH H2).
  destruct (rstrip_sep x).
  - destruct (Ascii.eqb c sep); [reflexivity|]. simpl. now rewrite H1.
  - simpl in IH |- *. now rewrite H1.
Qed.

Lemma is_abs_rstrip_sep x : all_sep x = false -> is_abs (rstrip_sep x) = is_abs x.
Proof.
  destruct x as [|c x]; [reflexivity|]. simpl. intros H.
  destruct (rstrip_sep x) eqn:R; [|reflexivity].
  destruct (Ascii.eqb c sep) eqn:C; [|simpl; now rewrite C].
  apply rstrip_sep_empty in R. rewrite R in H. discriminate.
Qed.

(** The directory part of a path that names a file: the names but the
    last, from the same start. *)
Lemma dirname_names p :
  nonempty (dirname p) = true -> ends_with_sep p = false ->
  names (dirname p) = removelast (names p)
  /\ is_abs (dirname p) = is_abs p
  /\ (has_nul p = false -> has_nul (dirname p) = false).
Proof.
  intros Nd Ne.
  destruct (last_sep p) as [B | (h & t & -> & Ht)].
  { rewrite dirname_bare in Nd by assumption. discriminate. }
  assert (nonempty t = true) as Nt.
  { destruct t; [|reflexivity].
    rewrite ends_with_sep_app in Ne by reflexivity. discriminate. }
  rewrite dirname_sep by assumption.
  set (x := h +:+ String sep EmptyString).
  assert (names x = names h) as Nx.
  { subst x. rewrite names_app. change (names EmptyString) with (@nil string).
    apply app_nil_r. }
  assert (is_abs x = is_abs (h +:+ String sep t)) as Ax by now destruct h.
  assert (has_nul (h +:+ String sep t) = false -> has_nul x = false) as Zx.
  { subst x. rewrite !has_nul_app. simpl. rewrite !orb_false_iff. tauto. }
  rewrite (names_app h t), (names_no_sep t Ht), Nt.
  rewrite removelast_last.
  destruct (all_sep x) eqn:A; cbn [negb].
  - auto.
  - rewrite names_rstrip_sep, is_abs_rstrip_sep by assumption.
    split; [assumption|]. split; [assumption|].
    intros Z. apply has_nul_rstrip_sep. auto.
Qed.

(** *** Walks *)

Lemma walk_fold w cs : forall k k',
  walk w k cs = Dir k' -> k' = fold_left step cs k.
Proof.
  induction cs as [|c cs IH]; intros k k'; simpl.
  - now intros [= <-].
  - destruct (dir_at w (step k c)); [apply IH|].
    destruct (file_at w (step k c)); discriminate.
Qed.

Lemma walk_app w cs cs' : forall k,
  walk w k (cs ++ cs')
  = match walk w k cs with
    | Dir k' => walk w k' cs'
    | f => f
    end.
Proof.
  induction cs as [|c cs IH]; intros k; simpl; [reflexivity|].
  destruct (dir_at w (step k c)); [apply IH|].
  destruct (file_at w (step k c)); reflexivity.
Qed.

Lemma dir_at_same w w' k :
  cwd w' = cwd w -> dirs w' = dirs w -> dir_at w' k = dir_at w k.
Proof. intros C D. unfold dir_at. now rewrite C, D. Qed.

Lemma is_Dir_walk_same w w' cs : forall k,
  (forall k, dir_at w' k = dir_at w k) ->
  is_Dir (walk w' k cs) = is_Dir (walk w k cs).
Proof.
  intros k H. revert k. induction cs as [|c cs IH]; intros k; simpl; [reflexivity|].
  rewrite H. destruct (dir_at w (step k c)); [apply IH|].
  destruct (file_at w' (step k c)), (file_at w (step k c)); reflexivity.
Qed.

Lemma names_last p :
  dots (last_name p) = false ->
  names p = (removelast (names p) ++ [last_name p])%list.
Proof.
  unfold last_name. intros H.
  destruct (names p) as [|c l] eqn:E; [discriminate|].
  apply app_removelast_last. discriminate.
Qed.

Lemma place_parent w p k :
  dots (last_name p) = false -> parent w p = Dir k ->
  place w p = (k ++ [last_name p])%list.
Proof.
  intros H Hp. unfold place. rewrite (names_last p H) at 1.
  rewrite fold_left_app. unfold parent in Hp. apply walk_fold in Hp. rewrite <- Hp.
  simpl. unfold step. unfold dots in H. apply orb_false_iff in H.
  destruct H as [-> ->]. reflexivity.
Qed.

(** ** The pieces of [main] *)

Lemma printed_printed l1 l2 w : printed l2 (printed l1 w) = printed (l1 ++ l2) w.
Proof. unfold printed. simpl. now rewrite app_assoc. Qed.

Section MainProofs.

Variable P : providers.
Variable os_text : os_error -> string.

Lemma main_two_answers fuel today l1 l2 rest w :
  let s := answer_or (str_int (year today) +:+ "-01-01") l1 in
  let e := answer_or (str_int (year today) +:+ "-12-31") l2 in
  main P os_text fuel today (l1 :: l2 :: rest) w
  = handled os_text (generate_calendar_csv P fuel s e (main_output_file s e))
      (printed (main_preamble (year today)) w).
Proof.
  intros s e. unfold main, bind, print. cbn [fst snd cwd dirs files calls stdout].
  unfold printed, main_preamble. rewrite <- !app_assoc. reflexivity.
Qed.

Lemma main_no_answer fuel today w :
  main P os_text fuel today [] w
  = (Return tt,
     printed ["===================================="; "       日历数据生成工具";
              "===================================="; start_prompt (year today);
              "❌ 程序运行出错：EOF when reading a line"] w).
Proof.
  unfold main, bind, print, at_eof, print. cbn [fst snd cwd dirs files calls stdout].
  unfold printed. rewrite <- !app_assoc. reflexivity.
Qed.

Lemma main_one_answer fuel today l1 w :
  main P os_text fuel today [l1] w
  = (Return tt,
     printed ["===================================="; "       日历数据生成工具";
              "===================================="; start_prompt (year today);
              end_prompt (year today);
              "❌ 程序运行出错：EOF when reading a line"] w).
Proof.
  unfold main, bind, print, at_eof, print. cbn [fst snd cwd dirs files calls stdout].
  unfold printed. rewrite <- !app_assoc. reflexivity.
Qed.

Lemma handled_outcome (body : M unit) w :
  fst (handled os_text body w) = Return tt \/ fst (handled os_text body w) = Timeout.
Proof.
  unfold handled. destruct (body w) as [[[]|[]|] w']; simpl; auto.
Qed.

Lemma handled_terminated (body : M unit) w :
  terminated (fst (body w)) = true -> fst (handled os_text body w) = Return tt.
Proof.
  unfold handled. destruct (body w) as [[[]|[]|] w']; simpl; auto. discriminate.
Qed.

(** A run stops, given fuel above the number of days asked for. *)
Lemma generate_stops fuel s e out w :
  iterations s e < Z.of_nat fuel ->
  terminated (fst (generate_calendar_csv P fuel s e out w)) = true.
Proof.
  intros Hf. unfold iterations in Hf.
  destruct (strptime s) as [start|] eqn:Hs;
    [|now rewrite generate_unparsed by auto].
  destruct (strptime e) as [end_|] eqn:He;
    [|now rewrite generate_unparsed by auto].
  pose proof (strptime_valid _ _ Hs) as Vs. pose proof (strptime_valid _ _ He) as Ve.
  rewrite (generate_parsed _ _ _ _ _ _ _ _ Hs He).
  destruct (date_gt start end_) eqn:Hgt; [reflexivity|].
  destruct ((year start <? CHINESE_CALENDAR_MIN_YEAR)
            || (CHINESE_CALENDAR_MAX_YEAR <? year end_)); [reflexivity|].
  pose proof (makedirs_terminates (dirname out) true w) as T1.
  destruct (makedirs (dirname out) true w) as [[[]|x1|] w1]; try exact T1.
  pose proof (open_w_terminates out w1) as T2.
  destruct (open_w out w1) as [[[]|x2|] w2]; try exact T2.
  rewrite date_gt_toordinal in Hgt by assumption. apply Z.ltb_ge in Hgt.
  pose proof (while_loop_terminates P out end_
                (Z.to_nat (toordinal end_ + 1 - toordinal start))
                fuel start (with_header out w2) Vs Ve ltac:(lia) ltac:(lia)) as T3.
  destruct (while_loop P fuel out start end_ _) as [[[]|x3|] w3]; exact T3.
Qed.

(** The validation decides the error of a run, in any world. *)
Lemma generate_validation fuel s e out w v :
  validation s e = Some v ->
  generate_calendar_csv P fuel s e out w = (Raise (ValueError v), w).
Proof.
  unfold validation.
  destruct (strptime s) as [start|] eqn:Hs;
    [|intros [= <-]; now rewrite generate_unparsed by auto].
  destruct (strptime e) as [end_|] eqn:He;
    [|intros [= <-]; now rewrite generate_unparsed by auto].
  rewrite (generate_parsed _ _ _ _ _ _ _ _ Hs He).
  destruct (date_gt start end_); [now intros [= <-]|].
  destruct ((year start <? CHINESE_CALENDAR_MIN_YEAR)
            || (CHINESE_CALENDAR_MAX_YEAR <? year end_)); [now intros [= <-]|].
  discriminate.
Qed.

End MainProofs.

(** ** The directory ["output"] *)

Lemma makedirs_output w :
  isfile w "output" = false ->
  exists w1,
    makedirs "output" true w = (Return tt, w1)
    /\ dir_at w1 (cwd w ++ ["output"]) = true
    /\ cwd w1 = cwd w
    /\ files w1 = files w /\ calls w1 = calls w /\ stdout w1 = stdout w
    /\ (forall k, dir_at w k = false -> k <> (cwd w ++ ["output"])%list ->
          dir_at w1 k = false).
Proof.
  intros F. unfold makedirs.
  change (makedirs_rec (S (String.length "output")) "output" true w)
    with (mkdir_exist_ok "output" true w).
  set (k := (cwd w ++ ["output"])%list).
  change (isfile w "output") with (negb (dir_at w k) && file_at w k) in F.
  assert (mkdir "output" w
          = if dir_at w k || file_at w k
            then (Raise (OSError (FileExistsError "output")), w)
            else (Return tt,
                  mkWorld (cwd w) (dirs w ∪ {[ k ]}) (files w) (calls w) (stdout w)))
    as E by reflexivity.
  unfold mkdir_exist_ok. rewrite E.
  destruct (dir_at w k) eqn:D.
  - cbn [orb negb].
    change (isdir w "output") with (is_Dir (if dir_at w k then Dir k
                                            else if file_at w k then NotDir else NoEntry)).
    rewrite D. cbn [is_Dir negb]. exists w. auto 10.
  - cbn [negb andb] in F. rewrite F. cbn [orb].
    eexists. split; [reflexivity|]. cbn [cwd dirs files calls stdout].
    split; [|repeat (split; [reflexivity|])].
    + unfold dir_at. cbn [dirs]. apply orb_true_iff. left.
      apply bool_decide_eq_true. apply elem_of_union_r. now apply elem_of_singleton.
    + intros k' Dk N. unfold dir_at in Dk |- *. cbn [dirs cwd].
      apply orb_false_iff in Dk. destruct Dk as [Dk1 Dk2]. rewrite Dk2.
      rewrite orb_false_r. apply bool_decide_eq_false in Dk1.
      apply bool_decide_eq_false.
      rewrite elem_of_union, elem_of_singleton. intuition.
Qed.

(** A file directly in the directory ["output"] can be opened when the
    directory is there and no directory is in its place. *)
Lemma open_in_output w T :
  all_chars not_sep T = true -> has_nul T = false -> nonempty T = true ->
  dots T = false ->
  dir_at w (cwd w ++ ["output"]) = true ->
  dir_at w (cwd w ++ ["output"; T]) = false ->
  place w ("output" +:+ String sep T) = (cwd w ++ ["output"; T])%list
  /\ open_w ("output" +:+ String sep T) w
     = (Return tt,
        mkWorld (cwd w) (dirs w) (<[ (cwd w ++ ["output"; T])%list := [] ]> (files w))
          (calls w) (stdout w)).
Proof.
  intros Hs Hz Hn Hd D1 D2.
  set (path := "output" +:+ String sep T).
  assert (names path = ["output"; T]) as N
    by (apply names_in_dir; (assumption || reflexivity)).
  assert (place w path = (cwd w ++ ["output"; T])%list) as Pl.
  { unfold place. rewrite N.
    change (origin w path) with (cwd w). cbn [fold_left].
    change (step (cwd w) "output") with (cwd w ++ ["output"])%list.
    unfold step. unfold dots in Hd. apply orb_false_iff in Hd.
    destruct Hd as [-> ->]. now rewrite <- app_assoc. }
  split; [exact Pl|].
  unfold open_w.
  replace (has_nul path) with false
    by (subst path; rewrite has_nul_app; simpl; now rewrite Hz).
  replace (nonempty path) with true by reflexivity. cbn [negb].
  assert (parent w path = Dir (cwd w ++ ["output"])%list) as Pa.
  { unfold parent. rewrite N. change (origin w path) with (cwd w).
    cbn [removelast walk].
    change (step (cwd w) "output") with (cwd w ++ ["output"])%list.
    now rewrite D1. }
  rewrite Pa.
  replace (names_a_dir path) with false.
  - rewrite Pl, D2. reflexivity.
  - symmetry. unfold names_a_dir, last_name. rewrite N. cbn [List.last].
    rewrite Hd, orb_false_r. subst path.
    rewrite ends_with_sep_app by reflexivity.
    destruct T as [|c T']; [discriminate|].
    change (ends_with_sep (String sep (String c T')))
      with (ends_with_sep (String c T')).
    now apply ends_with_sep_no_sep.
Qed.

(** * Properties of the [__main__] block *)

(** X9.  The program never ends with an exception: whatever the answers,
    the date of the day and the world, [main] returns, unless the fuel
    runs out; with fuel above the number of days asked for, and at the
    end of the input, it returns. *)
Theorem main_never_raises (P : providers) (os_text : os_error -> string)
    (fuel : nat) (today : date) (stdin : list string) (w : world) :
  (fst (main P os_text fuel today stdin w) = Return tt
   \/ fst (main P os_text fuel today stdin w) = Timeout)
  /\ (forall l1 l2 rest,
        stdin = l1 :: l2 :: rest ->
        iterations (answer_or (str_int (year today) +:+ "-01-01") l1)
                   (answer_or (str_int (year today) +:+ "-12-31") l2)
        < Z.of_nat fuel ->
        fst (main P os_text fuel today stdin w) = Return tt)
  /\ ((length stdin < 2)%nat ->
      fst (main P os_text fuel today stdin w) = Return tt).
Proof.
  split; [|split].
  - destruct stdin as [|l1 [|l2 rest]].
    + rewrite main_no_answer. now left.
    + rewrite main_one_answer. now left.
    + rewrite main_two_answers. cbv zeta. apply handled_outcome.
  - intros l1 l2 rest -> Hf. rewrite main_two_answers. cbv zeta.
    apply handled_terminated. now apply generate_stops.
  - destruct stdin as [|l1 [|l2 rest]]; cbn [length]; intros H.
    + now rewrite main_no_answer.
    + now rewrite main_one_answer.
    + lia.
Qed.

(** X10.  When the two answers fail the validation, [main] returns after
    printing, below its banner and prompts, the line of an input error
    with the message of the validation error; it creates no directory
    and no file and calls no provider. *)
Theorem main_reports_invalid_input (P : providers) (os_text : os_error -> string)
    (fuel : nat) (today : date) (l1 l2 : string) (rest : list string)
    (w : world) (v : value_error) :
  validation (answer_or (str_int (year today) +:+ "-01-01") l1)
             (answer_or (str_int (year today) +:+ "-12-31") l2) = Some v ->
  main P os_text fuel today (l1 :: l2 :: rest) w
  = (Return tt,
     mkWorld (cwd w) (dirs w) (files w) (calls w)
       (stdout w ++ main_preamble (year today)
        ++ ["❌ 输入错误：" +:+ str_value_error v])%list).
Proof.
  intros V. rewrite main_two_answers. cbv zeta.
  unfold handled. rewrite (generate_validation P _ _ _ _ _ _ V).
  unfold print, printed. cbn [cwd dirs files calls stdout].
  now rewrite <- app_assoc.
Qed.

Lemma main_output_file_parsed s e d1 d2 :
  strptime s = Some d1 -> strptime e = Some d2 ->
  dirname (main_output_file s e) = "output".
Proof.
  intros Hs He.
  apply main_output_file_dirname;
    (eapply all_chars_weaken; [apply date_char_not_sep|]);
    eapply strptime_date_chars; eassumption.
Qed.

Lemma main_output_file_strftime d1 d2 :
  main_output_file (strftime d1) (strftime d2)
  = "output/" +:+ zfill4 (year d1) +:+ zfill2 (month d1) +:+ zfill2 (day d1)
    +:+ "-" +:+ zfill4 (year d2) +:+ zfill2 (month d2) +:+ zfill2 (day d2)
    +:+ "_chinese_calendar.csv".
Proof.
  unfold main_output_file. cbv zeta. rewrite !remove_dashes_strftime.
  unfold zfill4, zfill2. reflexivity.
Qed.

(** X11.  For two answers that are dates, the output file of [main] is in
    the directory ["output"], never a bare file name; for the answers
    [YYYY-MM-DD] of two dates it is
    [output/YYYYMMDD-YYYYMMDD_chinese_calendar.csv]. *)
Theorem main_output_directory (s e : string) (d1 d2 : date) :
  strptime s = Some d1 -> strptime e = Some d2 ->
  dirname (main_output_file s e) = "output"
  /\ main_output_file (strftime d1) (strftime d2)
     = "output/" +:+ zfill4 (year d1) +:+ zfill2 (month d1) +:+ zfill2 (day d1)
       +:+ "-" +:+ zfill4 (year d2) +:+ zfill2 (month d2) +:+ zfill2 (day d2)
       +:+ "_chinese_calendar.csv".
Proof.
  intros Hs He. split.
  - eapply main_output_file_parsed; eassumption.
  - apply main_output_file_strftime.
Qed.

Lemma answer_or_blank default line :
  strip line = EmptyString -> answer_or default line = default.
Proof. intros H. unfold answer_or. now rewrite H. Qed.

Lemma year_ends_valid y :
  1 <= y <= 9999 -> valid_date (mkdate y 1 1) /\ valid_date (mkdate y 12 31).
Proof.
  intros H. split; apply valid_date_fields; cbn [year month day];
    rewrite days_in_month_dim;
    [ pose proof (dim_bounds (_is_leap y) 1 ltac:(lia)); lia
    | destruct (_is_leap y); change (dim _ 12) with 31; lia ].
Qed.

Lemma year_length y :
  toordinal (mkdate y 12 31) - toordinal (mkdate y 1 1) + 1
  = 365 + (if _is_leap y then 1 else 0).
Proof.
  unfold toordinal, _ymd2ord. simpl. rewrite !days_before_month_dbm.
  destruct (_is_leap y);
    repeat match goal with
    | |- context [dbm ?b ?m] =>
        let v := eval vm_compute in (dbm b m) in change (dbm b m) with v
    end; lia.
Qed.

(** The name of the file of a whole year, in the directory ["output"]. *)
Lemma year_file_name y :
  let T := zfill4 y +:+ "0101-" +:+ zfill4 y +:+ "1231_chinese_calendar.csv" in
  all_chars not_sep T = true /\ has_nul T = false /\ nonempty T = true
  /\ dots T = false.
Proof.
  intros T.
  pose proof (all_chars_weaken _ _ _ date_char_not_sep (zfill4_date_chars y)) as S.
  pose proof (all_chars_weaken _ _ _ date_char_not_nul (zfill4_date_chars y)) as Z.
  split; [|split; [|split]].
  - subst T. rewrite !all_chars_app, S. reflexivity.
  - subst T. rewrite has_nul_all_chars, !all_chars_app, Z. reflexivity.
  - reflexivity.
  - subst T. unfold dots, curdir, pardir, zfill4.
    apply orb_false_iff. split; apply String.eqb_neq; cbv [String.append]; discriminate.
Qed.

(** X12.  When both answers are blank, in a year of the supported span,
    and nothing stands in the way of the directory ["output"] and of the
    output file, [main] returns and the file
    [output/YYYY0101-YYYY1231_chinese_calendar.csv] of the current year
    [YYYY] holds the header and one row for each of the 365 or 366 days
    of the year, from 1 January to 31 December. *)
Theorem main_blank_answers (P : providers) (os_text : os_error -> string)
    (fuel : nat) (today : date) (l1 l2 : string) (rest : list string)
    (w : world) :
  strip l1 = EmptyString -> strip l2 = EmptyString ->
  2004 <= year today <= 2030 ->
  isfile w "output" = false ->
  dir_at w (place w ("output/" +:+ zfill4 (year today) +:+ "0101-"
                     +:+ zfill4 (year today) +:+ "1231_chinese_calendar.csv"))
  = false ->
  365 + (if _is_leap (year today) then 1 else 0) < Z.of_nat fuel ->
  fst (main P os_text fuel today (l1 :: l2 :: rest) w) = Return tt
  /\ exists rows,
       files (snd (main P os_text fuel today (l1 :: l2 :: rest) w))
         !! place w ("output/" +:+ zfill4 (year today) +:+ "0101-"
                     +:+ zfill4 (year today) +:+ "1231_chinese_calendar.csv")
       = Some (Header fieldnames :: map Data rows)
       /\ Z.of_nat (length rows) = 365 + (if _is_leap (year today) then 1 else 0)
       /\ option_map gregorian_date (nth_error rows 0)
          = Some (zfill4 (year today) +:+ "-01-01")
       /\ option_map gregorian_date (nth_error rows (Nat.pred (length rows)))
          = Some (zfill4 (year today) +:+ "-12-31").
Proof.
  intros B1 B2 Hy Ff Fd Hf.
  set (y := year today) in *.
  destruct (year_file_name y) as (Ts & Tz & Tn & Td).
  set (T := zfill4 y +:+ "0101-" +:+ zfill4 y +:+ "1231_chinese_calendar.csv") in *.
  change ("output/" +:+ zfill4 y +:+ "0101-" +:+ zfill4 y
          +:+ "1231_chinese_calendar.csv") with ("output" +:+ String sep T) in *.
  set (path := "output" +:+ String sep T) in *.
  rewrite main_two_answers. cbv zeta. fold y.
  rewrite !answer_or_blank by assumption.
  rewrite str_int_zfill4 by lia.
  set (start := mkdate y 1 1). set (end_ := mkdate y 12 31).
  change (zfill4 y +:+ "-01-01") with (strftime start).
  change (zfill4 y +:+ "-12-31") with (strftime end_).
  destruct (year_ends_valid y ltac:(lia)) as [Vs Ve].
  fold start end_ in Vs, Ve.
  pose proof (strptime_strftime start Vs) as Hs.
  pose proof (strptime_strftime end_ Ve) as He.
  pose proof (main_output_file_parsed _ _ _ _ Hs He) as Dn.
  pose proof (main_output_file_strftime start end_) as Pn.
  assert (main_output_file (strftime start) (strftime end_) = path) as Ep
    by (rewrite Pn; reflexivity).
  rewrite Ep in Dn |- *.
  set (w0 := printed (main_preamble y) w).
  destruct (makedirs_output w0 Ff) as (w1 & Hd & D1 & C1 & F1 & _ & _ & Dp).
  change (cwd w0) with (cwd w) in D1, C1, Dp.
  assert (place w path = (cwd w ++ ["output"; T])%list) as Pl.
  { unfold place. subst path.
    rewrite (names_in_dir "output" T) by (assumption || reflexivity).
    change (origin w ("output" +:+ String sep T)) with (cwd w). cbn [fold_left].
    change (step (cwd w) "output") with (cwd w ++ ["output"])%list.
    unfold step. unfold dots in Td. apply orb_false_iff in Td.
    destruct Td as [-> ->]. now rewrite <- app_assoc. }
  change (place w ("output/" +:+ T)) with (place w path) in Fd |- *.
  rewrite Pl in Fd |- *.
  assert (dir_at w1 (cwd w1 ++ ["output"; T]) = false) as D2.
  { rewrite C1. apply Dp; [exact Fd|].
    intros E. apply app_inv_head in E. discriminate. }
  rewrite <- C1 in D1.
  destruct (open_in_output w1 T Ts Tz Tn Td D1 D2) as [Pl1 Hop].
  fold path in Pl1, Hop.
  pose proof (year_length y) as Yl. fold start end_ in Yl.
  set (n := Z.to_nat (365 + (if _is_leap y then 1 else 0))).
  assert (toordinal start + Z.of_nat n = toordinal end_ + 1) as Hn
    by (subst n; destruct (_is_leap y); lia).
  assert (date_gt start end_ = false) as Ho.
  { rewrite date_gt_toordinal by assumption. apply Z.ltb_ge.
    destruct (_is_leap y); lia. }
  rewrite <- Dn in Hd.
  unfold handled.
  rewrite (generate_opened P fuel _ _ path w0 start end_ w1 _ n Hs He Ho
             ltac:(unfold CHINESE_CALENDAR_MIN_YEAR; simpl; lia)
             ltac:(unfold CHINESE_CALENDAR_MAX_YEAR; simpl; lia) Hd Hop Hn).
  replace (n <? fuel)%nat with true
    by (symmetry; apply Nat.ltb_lt; subst n; destruct (_is_leap y); lia).
  unfold print. cbn [fst snd files].
  split; [reflexivity|].
  exists (map (row_of P) (days_from start n)).
  pose proof (year_max_ordinal end_ Ve ltac:(unfold CHINESE_CALENDAR_MAX_YEAR; simpl; lia)) as Be.
  split; [|split; [|split]].
  - match goal with
    | |- files (emit_all P path ?days ?wh) !! ?key = _ =>
        assert (key = place wh path) as Ek
          by (change (place wh path) with (place w1 path);
              rewrite Pl1, C1; reflexivity);
        rewrite Ek, (emit_all_files P path days wh [Header fieldnames])
    end.
    + now rewrite map_map.
    + unfold with_header, write_line. cbn [snd files].
      match goal with
      | |- context [<[ ?a := _ ]> _ !! ?b] =>
          progress change b with a; rewrite lookup_insert_eq
      end.
      match goal with
      | |- context [place ?x path] =>
          change (place x path) with (place w1 path)
      end.
      rewrite Pl1, lookup_insert_eq. reflexivity.
  - rewrite length_map, days_from_length. subst n. destruct (_is_leap y); lia.
  - assert (0 < n)%nat as Hp by (subst n; destruct (_is_leap y); lia).
    clearbody n. destruct n as [|n0]; [lia|].
    rewrite days_from_cons by (assumption || lia). reflexivity.
  - rewrite length_map, days_from_length, nth_error_map.
    unfold days_from. rewrite nth_error_map, nth_error_seq.
    assert (0 < n)%nat as Hp by (subst n; destruct (_is_leap y); lia).
    replace (Nat.pred n <? n)%nat with true by (symmetry; apply Nat.ltb_lt; lia).
    simpl. do 2 f_equal.
    replace (toordinal start + Z.of_nat (Nat.pred n)) with (toordinal end_) by lia.
    now rewrite date_at_toordinal.
Qed.

(** * The output file and the printed line *)

Lemma validation_none s e :
  validation s e = None ->
  exists start end_,
    strptime s = Some start /\ strptime e = Some end_
    /\ date_gt start end_ = false
    /\ CHINESE_CALENDAR_MIN_YEAR <= year start
    /\ year end_ <= CHINESE_CALENDAR_MAX_YEAR.
Proof.
  unfold validation. intros H.
  destruct (strptime s) as [start|]; [|discriminate].
  destruct (strptime e) as [end_|]; [|discriminate].
  destruct (date_gt start end_) eqn:Ho; [discriminate|].
  destruct ((year start <? CHINESE_CALENDAR_MIN_YEAR)
            || (CHINESE_CALENDAR_MAX_YEAR <? year end_)) eqn:R; [discriminate|].
  apply orb_false_iff in R. rewrite !Z.ltb_ge in R.
  exists start, end_. intuition.
Qed.

Section OutputProofs.

Variable P : providers.

(** A completed run, step by step: the directory, the file, the rows. *)
Lemma generate_return_steps fuel s e out w w' :
  generate_calendar_csv P fuel s e out w = (Return tt, w') ->
  exists start end_ n w1 w2,
    strptime s = Some start /\ strptime e = Some end_
    /\ makedirs (dirname out) true w = (Return tt, w1)
    /\ open_w out w1 = (Return tt, w2)
    /\ toordinal start + Z.of_nat n = toordinal end_ + 1
    /\ w' = snd (print (done_message out)
                   (emit_all P out (days_from start n) (with_header out w2))).
Proof.
  intros G.
  destruct (emitted_rows_success P _ _ _ _ _ _ G)
    as (start & end_ & n & Hs & He & Vs & Ve & Hmin & Hmax & Hn & Hf & _).
  assert (date_gt start end_ = false) as Ho
    by (rewrite date_gt_toordinal by assumption; apply Z.ltb_ge; lia).
  pose proof G as G'.
  rewrite (generate_parsed P _ _ _ _ _ _ _ Hs He), Ho in G'.
  replace ((year start <? CHINESE_CALENDAR_MIN_YEAR)
           || (CHINESE_CALENDAR_MAX_YEAR <? year end_)) with false in G'
    by (symmetry; apply orb_false_iff; rewrite !Z.ltb_ge; auto).
  destruct (makedirs (dirname out) true w) as [[[]|x1|] w1] eqn:Hd; try discriminate.
  destruct (open_w out w1) as [[[]|x2|] w2] eqn:Hop; try discriminate.
  clear G'.
  rewrite (generate_opened P _ _ _ _ _ _ _ _ _ n Hs He Ho Hmin Hmax Hd Hop Hn) in G.
  replace (n <? fuel)%nat with true in G by (symmetry; apply Nat.ltb_lt; lia).
  exists start, end_, n, w1, w2. repeat (split; [assumption || reflexivity|]).
  unfold print in G |- *. cbn [snd]. congruence.
Qed.

End OutputProofs.

(** X13.  With an output file that is a bare file name, without a
    separator, the run on two dates that pass the validation raises
    [FileNotFoundError] for the empty directory name and leaves the
    world as it was: it opens no file and calls no provider. *)
Theorem bare_file_name_fails (P : providers) (fuel : nat) (s e out : string)
    (w : world) :
  validation s e = None ->
  all_chars not_sep out = true ->
  generate_calendar_csv P fuel s e out w
  = (Raise (OSError (FileNotFoundError EmptyString)), w).
Proof.
  intros V B.
  destruct (validation_none s e V) as (start & end_ & Hs & He & Ho & Hmin & Hmax).
  rewrite (generate_parsed P _ _ _ _ _ _ _ Hs He), Ho.
  replace ((year start <? CHINESE_CALENDAR_MIN_YEAR)
           || (CHINESE_CALENDAR_MAX_YEAR <? year end_)) with false
    by (symmetry; apply orb_false_iff; rewrite !Z.ltb_ge; auto).
  rewrite (dirname_bare out B), makedirs_empty. reflexivity.
Qed.

(** X14.  After a completed run the output file exists, in a directory
    that exists: the path has a directory part, which is a directory of
    the final world, and the path is a file of the final world. *)
Theorem completed_run_leaves_file (P : providers) (fuel : nat)
    (s e out : string) (w : world) :
  fst (generate_calendar_csv P fuel s e out w) = Return tt ->
  nonempty (dirname out) = true
  /\ isdir (snd (generate_calendar_csv P fuel s e out w)) (dirname out) = true
  /\ isfile (snd (generate_calendar_csv P fuel s e out w)) out = true
  /\ isdir (snd (generate_calendar_csv P fuel s e out w)) out = false.
Proof.
  intros H.
  destruct (generate_calendar_csv P fuel s e out w) as [o w'] eqn:G.
  simpl in H. subst o. cbn [snd].
  destruct (emitted_rows_success P _ _ _ _ _ _ G)
    as (start0 & end0 & n0 & _ & _ & _ & _ & _ & _ & _ & _ & F & _ & _ & _ & Cw).
  destruct (generate_return_steps P _ _ _ _ _ _ G)
    as (start & end_ & n & w1 & w2 & _ & _ & Hd & Hop & _ & Ew).
  assert (nonempty (dirname out) = true) as Nd.
  { destruct (dirname out); [|reflexivity].
    rewrite makedirs_empty in Hd. discriminate. }
  destruct (open_w_returns _ _ _ Hop) as (Hz & No & Pa & Na & Da & E2).
  assert (cwd w1 = cwd w) as C1.
  { pose proof (makedirs_cwd (dirname out) true w) as C. now rewrite Hd in C. }
  assert (dirs w' = dirs w1) as D.
  { rewrite Ew. unfold print. cbn [snd dirs].
    destruct (emit_all_frame P out (days_from start n) (with_header out w2)) as (-> & _).
    rewrite E2. reflexivity. }
  assert (forall k, dir_at w' k = dir_at w1 k) as Dk
    by (intros k; apply dir_at_same; [rewrite Cw, C1; reflexivity | exact D]).
  unfold names_a_dir in Na. apply orb_false_iff in Na. destruct Na as [Ne Nl].
  destruct (dirname_names out Nd Ne) as (En & Ea & Ez).
  assert (origin w' (dirname out) = origin w1 out) as Eo
    by (unfold origin; rewrite Ea, Cw, C1; reflexivity).
  assert (origin w' out = origin w1 out) as Eo'
    by (unfold origin; rewrite Cw, C1; reflexivity).
  assert (place w' out = place w1 out) as Ep by (apply place_cwd; congruence).
  assert (is_Dir (parent w' out) = true) as Pa'.
  { unfold parent in Pa |- *. rewrite Eo', (is_Dir_walk_same w1 w') by exact Dk.
    exact Pa. }
  split; [exact Nd|]. split; [|split].
  - unfold isdir. rewrite (Ez Hz), Nd, En, Eo. cbn [negb andb].
    rewrite (is_Dir_walk_same w1 w') by exact Dk. exact Pa.
  - unfold isfile. rewrite Hz, No, Pa', Ep, Dk, Da. unfold names_a_dir.
    rewrite Ne, Nl. cbn [negb orb andb].
    unfold file_at. rewrite (place_cwd w w1 out C1), F. reflexivity.
  - unfold isdir. rewrite Hz, No. cbn [negb andb].
    rewrite (names_last out Nl), walk_app, Eo'.
    unfold parent in Pa |- *.
    pose proof (is_Dir_walk_same w1 w' (removelast (names out)) (origin w1 out) Dk)
      as Ew'.
    destruct (walk w1 (origin w1 out) (removelast (names out))) as [k| |] eqn:W1;
      try discriminate.
    destruct (walk w' (origin w1 out) (removelast (names out))) as [k'| |] eqn:W2;
      try discriminate; [|reflexivity ..].
    pose proof (walk_fold _ _ _ _ W1) as K1. pose proof (walk_fold _ _ _ _ W2) as K2.
    cbn [walk]. rewrite K2, <- K1.
    assert (step k (last_name out) = place w1 out) as Es.
    { unfold place. rewrite (names_last out Nl) at 1.
      rewrite fold_left_app, <- K1. reflexivity. }
    rewrite Es, Dk, Da.
    destruct (file_at w' (place w1 out)); reflexivity.
Qed.

(** X15.  A run prints one line, the line of success, when it completes,
    and nothing otherwise: neither an error of the validation or of the
    file system nor a run out of fuel leaves a line behind. *)
Theorem prints_only_on_success (P : providers) (fuel : nat)
    (s e out : string) (w : world) :
  stdout (snd (generate_calendar_csv P fuel s e out w))
  = match fst (generate_calendar_csv P fuel s e out w) with
    | Return _ => (stdout w ++ [done_message out])%list
    | _ => stdout w
    end.
Proof.
  destruct (generate_calendar_csv P fuel s e out w) as [o w'] eqn:G.
  destruct o as [[]|x|]; cbn [fst snd].
  { destruct (emitted_rows_success P _ _ _ _ _ _ G)
      as (start & end_ & n & _ & _ & _ & _ & _ & _ & _ & _ & _ & _ & _ & S & _).
    exact S. }
  all: destruct (strptime s) as [start|] eqn:Hs;
    [|rewrite generate_unparsed in G by auto; congruence];
    destruct (strptime e) as [end_|] eqn:He;
    [|rewrite generate_unparsed in G by auto; congruence];
    pose proof G as G';
    rewrite (generate_parsed P _ _ _ _ _ _ _ Hs He) in G';
    destruct (date_gt start end_) eqn:Ho; [congruence|];
    destruct ((year start <? CHINESE_CALENDAR_MIN_YEAR)
              || (CHINESE_CALENDAR_MAX_YEAR <? year end_)) eqn:R; [congruence|];
    apply orb_false_iff in R; rewrite !Z.ltb_ge in R; destruct R as [Hmin Hmax];
    destruct (makedirs_same_log (dirname out) true w) as [_ S1];
    destruct (makedirs (dirname out) true w) as [[[]|x1|] w1] eqn:Hd;
    cbn [snd] in S1; try congruence;
    destruct (open_w_same_log out w1) as [_ S2];
    destruct (open_w out w1) as [[[]|x2|] w2] eqn:Hop;
    cbn [snd] in S2; try congruence;
    clear G';
    pose proof (strptime_valid _ _ Hs) as Vs;
    pose proof (strptime_valid _ _ He) as Ve;
    rewrite date_gt_toordinal in Ho by assumption; apply Z.ltb_ge in Ho;
    rewrite (generate_opened P _ _ _ _ _ _ _ _ _
               (Z.to_nat (toordinal end_ - toordinal start + 1))
               Hs He ltac:(rewrite date_gt_toordinal by assumption;
                           apply Z.ltb_ge; lia)
               Hmin Hmax Hd Hop ltac:(lia)) in G;
    destruct (_ <? fuel)%nat; [unfold print in G; discriminate|];
    try discriminate;
    injection G as <-;
    destruct (emit_all_frame P out
                (days_from start fuel) (with_header out w2)) as (_ & -> & _);
    change (stdout (with_header out w2)) with (stdout w2); congruence.
Qed.

(** X16.  The rows of a completed run are those of any other completed
    run on the same two strings: they depend on the dates and on the
    external packages, not on the output path, on the fuel, on the
    world, or on what the output file held before. *)
Theorem rows_independent_of_world (P : providers) (fuel fuel' : nat)
    (s e out out' : string) (w w' : world) :
  fst (generate_calendar_csv P fuel s e out w) = Return tt ->
  fst (generate_calendar_csv P fuel' s e out' w') = Return tt ->
  emitted_rows P fuel s e out w = emitted_rows P fuel' s e out' w'
  /\ files (snd (generate_calendar_csv P fuel s e out w)) !! place w out
     = files (snd (generate_calendar_csv P fuel' s e out' w')) !! place w' out'.
Proof.
  intros H H'.
  destruct (generate_calendar_csv P fuel s e out w) as [o v] eqn:G.
  destruct (generate_calendar_csv P fuel' s e out' w') as [o' v'] eqn:G'.
  simpl in H, H'. subst o o'. cbn [snd].
  destruct (emitted_rows_success P _ _ _ _ _ _ G)
    as (start & end_ & n & Hs & He & _ & _ & _ & _ & Hn & _ & F & R & _).
  destruct (emitted_rows_success P _ _ _ _ _ _ G')
    as (start' & end' & n' & Hs' & He' & _ & _ & _ & _ & Hn' & _ & F' & R' & _).
  assert (start' = start) by congruence. assert (end' = end_) by congruence.
  subst start' end'. assert (n' = n) by lia. subst n'.
  split; congruence.
Qed.

(** X17.  A run completes only for an output path that can name a
    file: one without the character of code 0, that does not end with a
    separator, and whose last name is neither [.] nor [..]. *)
Theorem completed_run_path (P : providers) (fuel : nat)
    (s e out : string) (w : world) :
  fst (generate_calendar_csv P fuel s e out w) = Return tt ->
  has_nul out = false /\ ends_with_sep out = false
  /\ dots (last_name out) = false.
Proof.
  intros H.
  destruct (generate_calendar_csv P fuel s e out w) as [o w'] eqn:G.
  simpl in H. subst o.
  destruct (generate_return_steps P _ _ _ _ _ _ G)
    as (start & end_ & n & w1 & w2 & _ & _ & _ & Hop & _).
  destruct (open_w_returns _ _ _ Hop) as (Hz & _ & _ & Na & _).
  unfold names_a_dir in Na. apply orb_false_iff in Na. tauto.
Qed.

(** ** These properties on sample runs *)

Lemma bare_file_name_fails_witness :
  generate_calendar_csv sample_providers 4 "2025-10-01" "2025-10-03"
    "calendar.csv" empty_world
  = (Raise (OSError (FileNotFoundError EmptyString)), empty_world).
Proof.
  apply bare_file_name_fails; vm_compute; reflexivity.
Defined.

Lemma completed_run_leaves_file_witness :
  nonempty (dirname sample_out) = true
  /\ isdir (snd sample_run) (dirname sample_out) = true
  /\ isfile (snd sample_run) sample_out = true
  /\ isdir (snd sample_run) sample_out = false.
Proof.
  exact (completed_run_leaves_file sample_providers 4 "2025-10-01" "2025-10-03"
           sample_out empty_world ltac:(vm_compute; reflexivity)).
Defined.

Lemma completed_run_path_witness :
  has_nul sample_out = false /\ ends_with_sep sample_out = false
  /\ dots (last_name sample_out) = false.
Proof.
  exact (completed_run_path sample_providers 4 "2025-10-01" "2025-10-03"
           sample_out empty_world ltac:(vm_compute; reflexivity)).
Defined.

(** Three paths that name no new file: one that ends with a separator is
    a directory for [open], after [os.makedirs] made it; one with the
    character of code 0 is refused by [open], after [os.makedirs] made its
    directory; one with a doubled separator leads where the plain path
    leads. *)
Example trailing_separator_is_a_directory :
  fst (generate_calendar_csv sample_providers 4 "2025-10-01" "2025-10-03"
         "out/" empty_world)
  = Raise (OSError (IsADirectoryError "out/"))
  /\ isdir (snd (generate_calendar_csv sample_providers 4 "2025-10-01" "2025-10-03"
                   "out/" empty_world)) "out" = true.
Proof. vm_compute. split; reflexivity. Qed.

Example null_byte_is_refused :
  fst (generate_calendar_csv sample_providers 4 "2025-10-01" "2025-10-03"
         ("out/" +:+ String nul "x.csv") empty_world)
  = Raise EmbeddedNullByte
  /\ isdir (snd (generate_calendar_csv sample_providers 4 "2025-10-01" "2025-10-03"
                   ("out/" +:+ String nul "x.csv") empty_world)) "out" = true.
Proof. vm_compute. split; reflexivity. Qed.

Example doubled_separator_same_file :
  files (snd (generate_calendar_csv sample_providers 4 "2025-10-01" "2025-10-03"
                "output//x.csv" empty_world))
  = files (snd sample_run)
  /\ dirs (snd (generate_calendar_csv sample_providers 4 "2025-10-01" "2025-10-03"
                  "output//x.csv" empty_world))
     = dirs (snd sample_run)
  /\ isfile (snd sample_run) "./output/../output//x.csv" = true.
Proof. vm_compute. repeat split; reflexivity. Qed.

(** * The further properties on sample runs *)

Lemma other_files_untouched_witness :
  place busy_world "output//x.csv" = place busy_world sample_out
  /\ place busy_world "./output/../output/notes.txt"
     = ["home"; "user"; "output"; "notes.txt"]
  /\ files (snd (generate_calendar_csv sample_providers 4 "2025-10-01" "2025-10-03"
                   sample_out busy_world))
       !! place busy_world "./output/../output/notes.txt"
     = Some [Header ["a"; "b"]]
  /\ dirs busy_world
     ⊆ dirs (snd (generate_calendar_csv sample_providers 4 "2025-10-01"
                    "2025-10-03" sample_out busy_world)).
Proof.
  destruct (other_files_untouched sample_providers 4 "2025-10-01" "2025-10-03"
              sample_out busy_world (place busy_world "./output/../output/notes.txt")
              ltac:(vm_compute; discriminate))
    as (F & D & _).
  split; [vm_compute; reflexivity|]. split; [vm_compute; reflexivity|].
  split; [|exact D].
  rewrite F. vm_compute. reflexivity.
Defined.

Lemma provider_calls_per_row_witness :
  calls (snd sample_run)
  = (calls empty_world ++ flat_map (calls_for_row sample_providers) sample_rows)%list
  /\ length (calls (snd sample_run))
     = (length (calls empty_world) + 3 * length sample_rows)%nat.
Proof.
  exact (provider_calls_per_row sample_providers 4 "2025-10-01" "2025-10-03"
           sample_out empty_world ltac:(vm_compute; reflexivity)).
Defined.

Lemma weekday_labels_cycle_witness :
  exists k,
    0 <= k < 7
    /\ getitem WEEKDAY_NAMES k = Some (weekday_name holiday_row)
    /\ getitem WEEKDAY_NAMES ((k + 1) mod 7) = Some (weekday_name working_row).
Proof.
  exact (weekday_labels_cycle sample_providers 4 "2025-10-01" "2025-10-03"
           sample_out empty_world 0 holiday_row working_row
           ltac:(vm_compute; reflexivity) ltac:(vm_compute; reflexivity)).
Defined.

Lemma iso_week_number_bounds_witness :
  1 <= iso_week_number holiday_row <= 53.
Proof.
  exact (iso_week_number_bounds sample_providers 4 "2025-10-01" "2025-10-03"
           sample_out empty_world holiday_row holiday_row_emitted).
Defined.

Lemma gregorian_date_canonical_witness :
  exact_form (gregorian_date working_row) = true
  /\ gregorian_date working_row = strftime (row_date working_row)
  /\ strptime (gregorian_date working_row) = Some (row_date working_row)
  /\ valid_date (row_date working_row)
  /\ 2004 <= gregorian_year working_row <= 2030.
Proof.
  exact (gregorian_date_canonical sample_providers 4 "2025-10-01" "2025-10-03"
           sample_out empty_world working_row working_row_emitted).
Defined.

Lemma main_never_raises_witness :
  fst (main sample_providers sample_os_text 4 sample_today
         ["2025-10-01"; " 2025-10-03 "] empty_world) = Return tt
  /\ fst (main sample_providers sample_os_text 4 sample_today
            ["2025-10-01"] empty_world) = Return tt.
Proof.
  split.
  - destruct (main_never_raises sample_providers sample_os_text 4 sample_today
                ["2025-10-01"; " 2025-10-03 "] empty_world) as (_ & H & _).
    apply (H _ _ _ eq_refl). vm_compute. reflexivity.
  - destruct (main_never_raises sample_providers sample_os_text 4 sample_today
                ["2025-10-01"] empty_world) as (_ & _ & H).
    apply H. vm_compute. lia.
Defined.

Lemma main_reports_invalid_input_witness :
  main sample_providers sample_os_text 4 sample_today
    ["2025-10-05"; "2025-10-01"] empty_world
  = (Return tt,
     mkWorld (cwd empty_world) (dirs empty_world) (files empty_world)
       (calls empty_world)
       (stdout empty_world ++ main_preamble (year sample_today)
        ++ ["❌ 输入错误：" +:+ str_value_error OrderError])%list).
Proof.
  apply (main_reports_invalid_input sample_providers sample_os_text 4 sample_today
           "2025-10-05" "2025-10-01" [] empty_world OrderError).
  vm_compute. reflexivity.
Defined.

Lemma main_output_directory_witness :
  dirname (main_output_file "2025-1-5" "2025-10-03") = "output"
  /\ main_output_file (strftime (mkdate 2025 1 5)) (strftime (mkdate 2025 10 3))
     = "output/20250105-20251003_chinese_calendar.csv".
Proof.
  exact (main_output_directory "2025-1-5" "2025-10-03"
           (mkdate 2025 1 5) (mkdate 2025 10 3)
           ltac:(vm_compute; reflexivity) ltac:(vm_compute; reflexivity)).
Defined.

Lemma main_blank_answers_witness :
  fst (main sample_providers sample_os_text 400 sample_today [""; "  "] empty_world)
  = Return tt
  /\ exists rows,
       files (snd (main sample_providers sample_os_text 400 sample_today
                     [""; "  "] empty_world))
         !! place empty_world "output/20250101-20251231_chinese_calendar.csv"
       = Some (Header fieldnames :: map Data rows)
       /\ Z.of_nat (length rows) = 365
       /\ option_map gregorian_date (nth_error rows 0) = Some "2025-01-01"
       /\ option_map gregorian_date (nth_error rows (Nat.pred (length rows)))
          = Some "2025-12-31".
Proof.
  exact (main_blank_answers sample_providers sample_os_text 400 sample_today
           "" "  " [] empty_world eq_refl eq_refl
           ltac:(vm_compute; split; discriminate)
           ltac:(vm_compute; reflexivity) ltac:(vm_compute; reflexivity)
           ltac:(vm_compute; reflexivity)).
Defined.

Lemma rows_independent_of_world_witness :
  emitted_rows sample_providers 4 "2025-10-01" "2025-10-03" sample_out empty_world
  = emitted_rows sample_providers 9 "2025-10-01" "2025-10-03"
      "output/notes.txt" busy_world
  /\ files (snd (generate_calendar_csv sample_providers 4 "2025-10-01"
                   "2025-10-03" sample_out empty_world))
       !! place empty_world sample_out
     = files (snd (generate_calendar_csv sample_providers 9 "2025-10-01"
                     "2025-10-03" "output/notes.txt" busy_world))
         !! place busy_world "output/notes.txt".
Proof.
  exact (rows_independent_of_world sample_providers 4 9 "2025-10-01" "2025-10-03"
           sample_out "output/notes.txt" empty_world busy_world
           ltac:(vm_compute; reflexivity) ltac:(vm_compute; reflexivity)).
Defined.
